(** * scipybiteopt: the benchmark driver [tester.h] and the Python entry point
      [biteopt_py_ext.cpp], embedded in Rocq.

    C++ [double] is IEEE binary64, modelled by Rocq's primitive [float];
    C++ [int] values are modelled by [Z] (signed overflow is undefined in C++
    and is not reached for the configurations the theorems are about);
    [uint64_t] is [Z] reduced modulo 2^64.  Arrays are lists updated by index.
    The optimizer base class [CBEOOptimizerFan] (bitefan.h), the generator
    [CBEORnd] and the Python C API are external to the two source files and
    enter as interfaces. *)

From Stdlib Require Import ZArith Lia Floats Uint63 String FunctionalExtensionality.
From stdpp Require Import base list.

Open Scope Z_scope.

(** ** Numbers *)

Abbreviation double := float.

#[global] Instance double_inhabited : Inhabited double := populate 0%float.

(** Conversion [int] -> [double] (exact for every 32-bit value). *)
Definition double_of_int (z : Z) : double :=
  if z <? 0 then (- of_uint63 (Uint63.of_Z (- z)))%float
  else of_uint63 (Uint63.of_Z z).

(** [uint64_t] arithmetic wraps. *)
Definition wrap64 (z : Z) : Z := z mod 2 ^ 64.

(** ** Results of fallible, possibly non-terminating code *)

Inductive exn := bad_array_new_length | null_dereference.

Inductive res (A : Type) : Type :=
| Done (a : A)
| Throw (e : exn)
| OutOfFuel.
Arguments Done {A} a.
Arguments Throw {A} e.
Arguments OutOfFuel {A}.

#[global] Instance res_ret : MRet res := fun A a => Done a.

#[global] Instance res_bind : MBind res := fun A B k m =>
  match m with
  | Done a => k a
  | Throw e => Throw e
  | OutOfFuel => OutOfFuel
  end.

(** ** Loops *)

(** [for_loop n i body s] runs [body i], [body (i+1)], ... [n] times. *)
Fixpoint for_loop {St : Type} (n : nat) (i : Z) (body : Z -> St -> St) (s : St) : St :=
  match n with
  | O => s
  | S n' => for_loop n' (i + 1) body (body i s)
  end.

(** [for( i = 0; i < hi; i++ ) body] *)
Definition for_lt {St : Type} (hi : Z) (body : Z -> St -> St) (s : St) : St :=
  for_loop (Z.to_nat hi) 0 body s.

(** The same loop for a body that may throw or diverge. *)
Fixpoint for_loopM {St : Type} (n : nat) (i : Z) (body : Z -> St -> res St) (s : St)
  : res St :=
  match n with
  | O => Done s
  | S n' => s' ← body i s; for_loopM n' (i + 1) body s'
  end.

Definition for_ltM {St : Type} (hi : Z) (body : Z -> St -> res St) (s : St) : res St :=
  for_loopM (Z.to_nat hi) 0 body s.

(** ** The environment: what the program does not control *)

(** [rdtsc n] is the value of the [n]-th reading of the processor's cycle
    counter; [indet_double] and [indet_int] are the indeterminate contents of
    freshly allocated arrays. *)
Record Env := {
  rdtsc : nat -> Z;
  indet_double : double;
  indet_int : Z
}.

(** [new T[n]]: a negative length raises [std::bad_array_new_length];
    otherwise the elements are indeterminate.  Running out of memory
    ([std::bad_alloc]) is outside the model. *)
Definition new_array {A : Type} (n : Z) (indet : A) : res (list A) :=
  if n <? 0 then Throw bad_array_new_length
  else Done (replicate (Z.to_nat n) indet).

(** ** External interfaces *)

(** [CBEORnd] (biteaux.h): the generator behind the global [rnd]. *)
Class CBEORnd := {
  RndState : Type;
  getRndValue : RndState -> double * RndState
}.

(** Modelled from the spec: testfn.h's [CTestFn] is not among the sources;
    the fields are the ones tester.h reads (name, dims with 0 = variable,
    rangeMin, rangeMax, knownOptimum, pure cost function). *)
Module CTestFn.
Record t := mk {
    Name : string;
    Dims : Z;
    RangeMin : double;
    RangeMax : double;
    OptValue : double;
    Calc : list double -> Z -> double
  }.
End CTestFn.

(** The virtual functions through which the optimizer base class reaches the
    derived class: bounds are written into the caller's buffer and may draw
    from the global generator; the objective is a function of the point. *)
Record Hooks `{CBEORnd} := {
  h_getMinValues : list double -> RndState -> list double * RndState;
  h_getMaxValues : list double -> RndState -> list double * RndState;
  h_optcost : list double -> double
}.

(** [CBEOOptimizerFan] (bitefan.h), a black box: its state and the four
    operations tester.h calls. *)
Class CBEOOptimizerFan `{CBEORnd} := {
  OptState : Type;
  base_updateDims : Z -> Z -> OptState -> OptState;
  base_init : Hooks -> RndState -> OptState -> OptState * RndState;
  base_optimize : Hooks -> RndState -> OptState -> OptState * RndState;
  getBestCost : OptState -> double
}.

(** ** [CTester::CTestOpt] *)

Module CTestOpt.
Section CTestOpt.
Context `{Opt : CBEOOptimizerFan}.
Variable env : Env.

Record t := mk {
    fn : CTestFn.t;
    DoRandomize : bool;
    Dims : Z;
    signs : list double;
    tp : list double;
    base : OptState
  }.

Definition set_signs (s : list double) (o : t) : t :=
    mk (fn o) (DoRandomize o) (Dims o) s (tp o) (base o).
Definition set_base (b : OptState) (o : t) : t :=
    mk (fn o) (DoRandomize o) (Dims o) (signs o) (tp o) b.
Definition set_fn (f : CTestFn.t) (o : t) : t :=
    mk f (DoRandomize o) (Dims o) (signs o) (tp o) (base o).
Definition set_DoRandomize (b : bool) (o : t) : t :=
    mk (fn o) b (Dims o) (signs o) (tp o) (base o).

Definition updateDims (aDims aFanSize : Z) (o : t) : res t :=
    signs' ← new_array aDims (indet_double env);
    tp' ← new_array aDims (indet_double env);
    Done (mk (fn o) (DoRandomize o) aDims signs' tp'
             (base_updateDims aDims aFanSize (base o))).

Definition getMinValues (o : t) (p : list double) (r : RndState)
    : list double * RndState :=
    if DoRandomize o then
      for_lt (Dims o)
        (fun i '(p, r) =>
           let '(x, r') := getRndValue r in
           (<[Z.to_nat i := (CTestFn.RangeMin (fn o) * (0.5 + x * 0.5))%float]> p, r'))
        (p, r)
    else
      (for_lt (Dims o) (fun i p => <[Z.to_nat i := CTestFn.RangeMin (fn o)]> p) p, r).

Definition getMaxValues (o : t) (p : list double) (r : RndState)
    : list double * RndState :=
    if DoRandomize o then
      for_lt (Dims o)
        (fun i '(p, r) =>
           let '(x, r') := getRndValue r in
           (<[Z.to_nat i := (CTestFn.RangeMax (fn o) * (0.5 + x * 0.5))%float]> p, r'))
        (p, r)
    else
      (for_lt (Dims o) (fun i p => <[Z.to_nat i := CTestFn.RangeMax (fn o)]> p) p, r).

  (** The scratch buffer [tp] is filled and handed to the cost function; reads
      of [p] or [signs] past their end (undefined in C++) yield [0]. *)
Definition optcost_tp (o : t) (p : list double) : list double :=
    for_lt (Dims o)
      (fun i tp =>
         <[Z.to_nat i := ((p !!! Z.to_nat i) * (signs o !!! Z.to_nat i))%float]> tp)
      (tp o).

Definition optcost (o : t) (p : list double) : double :=
    CTestFn.Calc (fn o) (optcost_tp o p) (Dims o).

  (** The object as the base class sees it. *)
Definition hooks (o : t) : Hooks :=
    {| h_getMinValues := getMinValues o;
       h_getMaxValues := getMaxValues o;
       h_optcost := optcost o |}.

  (** [opt -> init( rnd )] and [opt -> optimize( rnd )] *)
Definition init (o : t) (r : RndState) : t * RndState :=
    let '(b, r') := base_init (hooks o) r (base o) in (set_base b o, r').

Definition optimize (o : t) (r : RndState) : t * RndState :=
    let '(b, r') := base_optimize (hooks o) r (base o) in (set_base b o, r').
End CTestOpt.
End CTestOpt.

(** ** [CTester] *)

Module CTester.

(** Calls into the optimizer base class, in program order: [updateDims], then
    [init] and [optimize] with the sign vector the objective applies at the
    time of the call; for a step, also the function being solved and the best
    cost the optimizer reports after it. *)
Inductive OptCall :=
| CallUpdateDims (dims : Z)
| CallInit (signs : list double)
| CallOptimize (f : CTestFn.t) (signs : list double) (best : double).

(** Lines written to stdout when printing is enabled. *)
Inductive Line :=
| LineFn (Avg RMS RjPct AvgCost AvgRjCost : double) (Name : string) (Dims : Z)
| LineItAvg (v : double)
| LineItRtAvg (v : double)
| LineRjAvg (v : double)
| LineTicks (v : Z).

(** What one pass of the loop over the corpus computes for its function
    (the values it prints), kept for the statements about them. *)
Record FunctionStats := {
  avgIterations : double;      (* Avg *)
  rmsIterations : double;      (* RMS *)
  rejectRate : double;         (* (double) Rej / IterCount *)
  avgCostOnSuccess : double;   (* AvgCost after the division *)
  avgCostOnReject : double;    (* AvgRjCost after the division *)
  rejectCount : Z;             (* Rej *)
  iterSum : double;            (* AvgIter *)
  successCostSum : double;     (* AvgCost before the division *)
  rejectCostSum : double;      (* AvgRjCost before the division *)
  iterations : list Z          (* Iters[ 0 .. IterCount ) *)
}.

Section CTester.
Context `{Opt : CBEOOptimizerFan}.
Variable env : Env.

Record t := mk {
  DefDims : Z;
  opt : CTestOpt.t;
  ItAvg : double;
  ItRtAvg : double;
  RjAvg : double;
  tc : Z;
  Funcs : list (option CTestFn.t);
  FnCount : Z;
  CostThreshold : double;
  IterCount : Z;
  InnerIterCount : Z;
  DoRandomize : bool;
  DoPrint : bool
}.

(** The corpus is an array of pointers ended by NULL ([None]). *)
Fixpoint count_until_null (Corpus : list (option CTestFn.t)) : Z :=
  match Corpus with
  | Some _ :: Corpus' => 1 + count_until_null Corpus'
  | _ => 0
  end.

Definition init (aDefDims : Z) (Corpus : list (option CTestFn.t))
  (aThreshold : double) (aIterCount aInnerIterCount : Z)
  (aDoRandomize aDoPrint : bool) (T : t) : t :=
  mk aDefDims (opt T) (ItAvg T) (ItRtAvg T) (RjAvg T) (tc T)
     Corpus (count_until_null Corpus)
     aThreshold aIterCount aInnerIterCount aDoRandomize aDoPrint.

(** The state [run] changes while the trials of one function execute: the
    optimizer object, the global generator, the number of cycle-counter
    readings made so far, the tick total, and the record of optimizer calls. *)
Record Mach := {
  m_opt : CTestOpt.t;
  m_rnd : RndState;
  m_clk : nat;
  m_tc : Z;
  m_calls : list OptCall
}.

(** The locals of the loop over the corpus that the trials update. *)
Record Locals := {
  AvgIter : double;
  AvgCost : double;
  AvgRjCost : double;
  Rej : Z;
  Iters : list Z
}.

Variable T : t.

(** Lines 228-230: one optimizer step between two readings of the counter. *)
Definition timed_optimize (m : Mach) : Mach :=
  let t1 := wrap64 (rdtsc env (m_clk m)) in
  let '(o, r) := CTestOpt.optimize (m_opt m) (m_rnd m) in
  let t2 := wrap64 (rdtsc env (S (m_clk m))) in
  {| m_opt := o;
     m_rnd := r;
     m_clk := S (S (m_clk m));
     m_tc := wrap64 (m_tc m + wrap64 (t2 - t1));
     m_calls :=
       m_calls m
       ++ [CallOptimize (CTestOpt.fn o) (CTestOpt.signs (m_opt m))
             (getBestCost (CTestOpt.base o))] |}.

(** Lines 234-235: the stop condition. *)
Definition converged (o : CTestOpt.t) : bool :=
  (getBestCost (CTestOpt.base o) - CTestFn.OptValue (CTestOpt.fn o)
     <? CostThreshold T)%float.

(** Lines 226-250: the [while( true )] loop of trial [j], entered with the
    step counter [i]; [fuel] bounds the number of passes the model follows.
    The counter is followed as an integer: with [InnerIterCount >= 1] it never
    exceeds [InnerIterCount]; with [InnerIterCount <= 0] the model agrees with
    the code for the first 2^31 - 1 passes, after which the [int] of the code
    overflows. *)
Fixpoint inner_loop (fuel : nat) (j i : Z) (m : Mach) (l : Locals)
  : res (Mach * Locals) :=
  match fuel with
  | O => OutOfFuel
  | S fuel' =>
    let m := timed_optimize m in
    let i := i + 1 in
    let best := getBestCost (CTestOpt.base (m_opt m)) in
    if converged (m_opt m) then
      Done (m, {| AvgIter := (AvgIter l + double_of_int i)%float;
                  AvgCost := (AvgCost l + best)%float;
                  AvgRjCost := AvgRjCost l;
                  Rej := Rej l;
                  Iters := <[Z.to_nat j := i]> (Iters l) |})
    else if i =? InnerIterCount T then
      Done (m, {| AvgIter := AvgIter l;
                  AvgCost := AvgCost l;
                  AvgRjCost := (AvgRjCost l + best)%float;
                  Rej := Rej l + 1;
                  Iters := <[Z.to_nat j := -1]> (Iters l) |})
    else inner_loop fuel' j i m l
  end.

(** Lines 216-220: the signs of a trial, one draw per dimension. *)
Definition draw_signs (Dims : Z) (m : Mach) : Mach :=
  let '(s, r) :=
    for_lt Dims
      (fun i '(s, r) =>
         let '(x, r') := getRndValue r in
         (<[Z.to_nat i := if (x <? 0.5)%float then 1%float else (-1)%float]> s, r'))
      (CTestOpt.signs (m_opt m), m_rnd m) in
  {| m_opt := CTestOpt.set_signs s (m_opt m);
     m_rnd := r;
     m_clk := m_clk m;
     m_tc := m_tc m;
     m_calls := m_calls m |}.

(** Line 223. *)
Definition init_optimizer (m : Mach) : Mach :=
  let '(o, r) := CTestOpt.init (m_opt m) (m_rnd m) in
  {| m_opt := o;
     m_rnd := r;
     m_clk := m_clk m;
     m_tc := m_tc m;
     m_calls := m_calls m ++ [CallInit (CTestOpt.signs (m_opt m))] |}.

(** Lines 212-251: trial [j]. *)
Definition trial (fuel : nat) (Dims : Z) (j : Z) (ml : Mach * Locals)
  : res (Mach * Locals) :=
  let '(m, l) := ml in
  let m := if DoRandomize T then draw_signs Dims m else m in
  let m := init_optimizer m in
  inner_loop fuel j 0 m l.

(** Lines 206-209. *)
Definition unit_signs (Dims : Z) (o : CTestOpt.t) : CTestOpt.t :=
  CTestOpt.set_signs
    (for_lt Dims (fun i s => <[Z.to_nat i := 1%float]> s) (CTestOpt.signs o)) o.

(** Lines 266-277. *)
Definition rms_sum (Avg : double) (Its : list Z) : double :=
  for_lt (IterCount T)
    (fun j RMS =>
       if 0 <=? Its !!! Z.to_nat j then
         let v := (double_of_int (Its !!! Z.to_nat j) - Avg)%float in
         (RMS + v * v)%float
       else RMS)
    0%float.

(** The run-level variables the loop over the corpus carries. *)
Record Acc := {
  a_mach : Mach;
  a_Iters : list Z;
  a_ItAvg : double;
  a_ItRtAvg : double;
  a_RjAvg : double;
  a_stdout : list Line;
  a_stats : list FunctionStats
}.

(** Lines 190-289: the body of the loop over the corpus for index [k]. *)
Definition run_fn (fuel : nat) (k : Z) (a : Acc) : res Acc :=
  match Funcs T !! Z.to_nat k with
  | Some (Some f) =>
    let m := a_mach a in
    let o := CTestOpt.set_fn f (m_opt m) in
    let Dims := if CTestFn.Dims f =? 0 then DefDims T else CTestFn.Dims f in
    o ← CTestOpt.updateDims env Dims 0 o;
    let o := CTestOpt.set_DoRandomize (DoRandomize T) o in
    let o := if negb (DoRandomize T) then unit_signs Dims o else o in
    let m := {| m_opt := o; m_rnd := m_rnd m; m_clk := m_clk m; m_tc := m_tc m;
                m_calls := m_calls m ++ [CallUpdateDims Dims] |} in
    let l := {| AvgIter := 0%float; AvgCost := 0%float; AvgRjCost := 0%float; Rej := 0;
                Iters := a_Iters a |} in
    '(m, l) ← for_ltM (IterCount T) (trial fuel Dims) (m, l);
    let AvgCost' := (AvgCost l / double_of_int (IterCount T - Rej l))%float in
    let AvgRjCost' := (AvgRjCost l / double_of_int (Rej l))%float in
    let '(Avg, RMS) :=
      if IterCount T <=? Rej l then (1000000%float, 1000000%float)
      else
        let Avg := (AvgIter l / double_of_int (IterCount T - Rej l))%float in
        (Avg, PrimFloat.sqrt (rms_sum Avg (Iters l) / double_of_int (IterCount T - Rej l))) in
    let out :=
      if DoPrint T then
        [LineFn Avg RMS
           (100 * double_of_int (Rej l) / double_of_int (IterCount T))%float
           AvgCost' AvgRjCost' (CTestFn.Name f) Dims]
      else [] in
    let rate := (double_of_int (Rej l) / double_of_int (IterCount T))%float in
    Done {| a_mach := m;
            a_Iters := Iters l;
            a_ItAvg := (a_ItAvg a + Avg)%float;
            a_ItRtAvg := (a_ItRtAvg a + RMS / Avg)%float;
            a_RjAvg := (a_RjAvg a + rate)%float;
            a_stdout := a_stdout a ++ out;
            a_stats := a_stats a ++
              [{| avgIterations := Avg; rmsIterations := RMS; rejectRate := rate;
                  avgCostOnSuccess := AvgCost'; avgCostOnReject := AvgRjCost';
                  rejectCount := Rej l; iterSum := AvgIter l;
                  successCostSum := AvgCost l; rejectCostSum := AvgRjCost l;
                  iterations := take (Z.to_nat (IterCount T)) (Iters l) |}] |}
  | _ => Throw null_dereference
  end.

(** What [run] leaves behind: the object, the generator, the number of
    counter readings, stdout, and the two records kept for the statements. *)
Record Outcome := {
  o_tester : t;
  o_rnd : RndState;
  o_clk : nat;
  o_stdout : list Line;
  o_calls : list OptCall;
  o_stats : list FunctionStats
}.

(** [CTester::run], entered with the global generator in state [r] after
    [clk] readings of the cycle counter. *)
Definition run (fuel : nat) (r : RndState) (clk : nat) : res Outcome :=
  Iters0 ← new_array (IterCount T) (indet_int env);
  a ← for_ltM (FnCount T) (run_fn fuel)
        {| a_mach := {| m_opt := opt T; m_rnd := r; m_clk := clk; m_tc := 0;
                        m_calls := [] |};
           a_Iters := Iters0;
           a_ItAvg := 0%float; a_ItRtAvg := 0%float; a_RjAvg := 0%float;
           a_stdout := []; a_stats := [] |};
  let ItAvg' := (a_ItAvg a / double_of_int (FnCount T))%float in
  let ItRtAvg' := (a_ItRtAvg a / double_of_int (FnCount T))%float in
  let RjAvg' := (a_RjAvg a / double_of_int (FnCount T))%float in
  let m := a_mach a in
  let out :=
    if DoPrint T then
      [LineItAvg ItAvg'; LineItRtAvg ItRtAvg'; LineRjAvg (RjAvg' * 100)%float;
       LineTicks (m_tc m)]
    else [] in
  Done {| o_tester :=
            mk (DefDims T) (m_opt m) ItAvg' ItRtAvg' RjAvg' (m_tc m)
               (Funcs T) (FnCount T) (CostThreshold T) (IterCount T)
               (InnerIterCount T) (DoRandomize T) (DoPrint T);
          o_rnd := m_rnd m;
          o_clk := m_clk m;
          o_stdout := a_stdout a ++ out;
          o_calls := m_calls m;
          o_stats := a_stats a |}.

End CTester.
End CTester.

(** ** The Python entry point [minimize_func] *)

Module PyExt.

(** The Python C API, as far as [minimize_func] uses it:
    - [py_iter o]: [PyObject_GetIter] followed by [PyIter_Next] until it
      returns NULL, for an object whose iteration does not itself raise (a
      list, a tuple, an array); [None] when [o] is not iterable;
    - [py_as_double o]: [PyFloat_AsDouble] on an item, [None] when
      [PyErr_Occurred] afterwards;
    - [py_call f x]: [PyObject_CallFunctionObjArgs] of the objective [f] on
      the array made over [x], its result converted by [PyFloat_AsDouble];
      [None] when the call or the conversion raises. *)
Class PyAPI := {
  PyObj : Type;
  py_iter : PyObj -> option (list PyObj);
  py_as_double : PyObj -> option double;
  py_call : PyObj -> list double -> option double
}.

(** The arguments [biteopt_minimize] (biteopt.h) is called with. *)
Record MinimizeCall := {
  c_N : Z;
  c_f : list double -> double;
  c_lb : list double;
  c_ub : list double;
  c_iter : Z;
  c_M : Z;
  c_attc : Z
}.

(** [biteopt_minimize] itself (biteopt.h), a black box: what it writes to
    [best_x] and to [min_f], and the points at which it has called the
    objective. *)
Class BiteOpt := {
  biteopt_minimize : MinimizeCall -> list double * double;
  evaluated : MinimizeCall -> list (list double)
}.

(** The arguments after [PyArg_ParseTupleAndKeywords] ("OOO|iii"); [None]
    for an optional argument the caller left out. *)
Record Args `{PyAPI} := {
  func_py : PyObj;
  lower_py : PyObj;
  upper_py : PyObj;
  iter_arg : option Z;
  Mi_arg : option Z;
  attc_arg : option Z
}.

Inductive PyErr :=
| ParseError
| TypeError (msg : string).

(** An array made by [PyArray_SimpleNewFromData]: no copy is made, the array
    points into the storage it is given.  [nd_data] is what that storage holds
    when the array is made; [nd_released] tells that the storage is released
    before the array reaches the caller. *)
Record NdArray := {
  nd_len : Z;
  nd_data : list double;
  nd_released : bool
}.

(** What the entry point returns: NULL with the error set, or the pair
    [(fun, res)]. *)
Inductive PyRet :=
| PyNULL (e : PyErr)
| PyTuple2 (fn : double) (res : NdArray).

(** The return value, the calls made to [biteopt_minimize], and whether an
    exception raised by an evaluation of the objective is still set when the
    pair is returned (nothing in [minimize_func] looks at it or clears it). *)
Record Result := {
  ret : PyRet;
  optimizer_calls : list MinimizeCall;
  objective_error : bool
}.

Section PyExt.
Context `{Py : PyAPI} `{BO : BiteOpt}.

(** Lines 36-46 and 54-64: every item is converted and pushed back; the first
    item that does not convert ends the call. *)
Fixpoint read_doubles (items : list PyObj) (v : list double) : option (list double) :=
  match items with
  | [] => Some v
  | next :: items' =>
    match py_as_double next with
    | Some d => read_doubles items' (v ++ [d])
    | None => None
    end
  end.

(** Lines 70-75: [true] when the loop finds [lower[i] > upper[i]]. *)
Fixpoint bounds_crossed (n : nat) (i : nat) (lower upper : list double) : bool :=
  match n with
  | O => false
  | S n' =>
    if (upper !!! i <? lower !!! i)%float then true
    else bounds_crossed n' (S i) lower upper
  end.

(** Lines 86-100: where the call or the conversion raises,
    [PyFloat_AsDouble] returns -1.0 and the exception stays set. *)
Definition closure (func : PyObj) (N : Z) (x : list double) : double :=
  default (-1)%float (py_call func (take (Z.to_nat N) x)).

Definition closure_raises (func : PyObj) (N : Z) (x : list double) : bool :=
  match py_call func (take (Z.to_nat N) x) with
  | Some _ => false
  | None => true
  end.

(** Line 76 and the call of line 103: [best_x] is a vector of [n] zeros into
    which the optimizer writes the best point. *)
Definition best_x (n : nat) (written : list double) : list double :=
  take n (written ++ replicate n 0%float).

(** The entry point.  The array of the result is made over the storage of the
    local vector [best_x] (line 110), which is destroyed when the function
    returns. *)
Definition minimize_func (args : option Args) : Result :=
  match args with
  | None =>
    {| ret := PyNULL ParseError; optimizer_calls := []; objective_error := false |}
  | Some a =>
    let iter_py := default 1 (iter_arg a) in
    let M_py := default 1 (Mi_arg a) in
    let attc_py := default 10 (attc_arg a) in
    match py_iter (lower_py a) with
    | None =>
      {| ret := PyNULL (TypeError "minimize: a list is required in 2nd pos");
         optimizer_calls := []; objective_error := false |}
    | Some items =>
      match read_doubles items [] with
      | None =>
        {| ret := PyNULL (TypeError "minimize: numerical list is required");
           optimizer_calls := []; objective_error := false |}
      | Some lower =>
        match py_iter (upper_py a) with
        | None =>
          {| ret := PyNULL (TypeError "minimize: a list is required in 3rd pos");
             optimizer_calls := []; objective_error := false |}
        | Some items =>
          match read_doubles items [] with
          | None =>
            {| ret := PyNULL (TypeError "minimize: numerical list is required");
               optimizer_calls := []; objective_error := false |}
          | Some upper =>
            if negb (length lower =? length upper)%nat then
              {| ret := PyNULL (TypeError "minimize: matching list lengths required");
                 optimizer_calls := []; objective_error := false |}
            else if bounds_crossed (length lower) 0 lower upper then
              {| ret := PyNULL
                   (TypeError "minimize: lower should not be greater than upper");
                 optimizer_calls := []; objective_error := false |}
            else
              let N := Z.of_nat (length lower) in
              let call :=
                {| c_N := N; c_f := closure (func_py a) N; c_lb := lower;
                   c_ub := upper; c_iter := iter_py; c_M := M_py;
                   c_attc := attc_py |} in
              let '(written, min_f) := biteopt_minimize call in
              {| ret := PyTuple2 min_f
                          {| nd_len := N; nd_data := best_x (length lower) written;
                             nd_released := true |};
                 optimizer_calls := [call];
                 objective_error :=
                   existsb (closure_raises (func_py a) N) (evaluated call) |}
          end
        end
      end
    end
  end.

End PyExt.
End PyExt.

(** ** The vocabulary of the statements

    The notions the theorems are stated with: machines after some steps, the
    records a trial leaves, invariants of the loops, and the relations between
    two runs.  None of them is part of the program. *)

(** *** Numbers, lists and logs *)

(** The binary64 number with integer value [N], for [1 <= N < 2^53]. *)
Definition normal (N : Z) : spec_float :=
  S754_finite false (Z.to_pos (N * 2 ^ (52 - Z.log2 N))) (Z.log2 N - 52).

(** [x] is the double whose value is the natural number [N]. *)
Definition holds_int (x : float) (N : Z) : Prop :=
  if N =? 0 then x = 0%float else Prim2SF x = normal N.

(** [draws n r]: the next [n] values of the generator and its state after. *)
Fixpoint draws `{CBEORnd} (n : nat) (r : RndState) : list double * RndState :=
  match n with
  | O => ([], r)
  | S n' =>
    let '(x, r1) := getRndValue r in
    let '(xs, r2) := draws n' r1 in
    (x :: xs, r2)
  end.

(** The factor applied to a bound for the draw [x]. *)
Definition range_factor (x : double) : double := (0.5 + x * 0.5)%float.

(** How a trial's outcome is recorded in the locals. *)
Definition record_success (j s : Z) (best : double)
  (l : CTester.Locals) : CTester.Locals :=
  {| CTester.AvgIter := (CTester.AvgIter l + double_of_int s)%float;
     CTester.AvgCost := (CTester.AvgCost l + best)%float;
     CTester.AvgRjCost := CTester.AvgRjCost l;
     CTester.Rej := CTester.Rej l;
     CTester.Iters := <[Z.to_nat j := s]> (CTester.Iters l) |}.

Definition record_reject (j : Z) (best : double)
  (l : CTester.Locals) : CTester.Locals :=
  {| CTester.AvgIter := CTester.AvgIter l;
     CTester.AvgCost := CTester.AvgCost l;
     CTester.AvgRjCost := (CTester.AvgRjCost l + best)%float;
     CTester.Rej := CTester.Rej l + 1;
     CTester.Iters := <[Z.to_nat j := -1]> (CTester.Iters l) |}.

(** The sign chosen for the draw [x]. *)
Definition sign_of_draw (x : double) : double :=
  if (x <? 0.5)%float then 1%float else (-1)%float.

(** The entries of [Iters] that record a reject, and those that record a
    success. *)
Definition rejects (its : list Z) : list Z := filter (fun x => x = -1) its.

Definition successes (its : list Z) : list Z := filter (fun x => 1 <= x) its.

(** The arithmetic mean as [run] computes it: the terms are added one by one
    to [0.0], in corpus order, and the sum is divided by the count. *)
Definition fsum (xs : list double) : double := foldl PrimFloat.add 0%float xs.

Definition mean_of (xs : list double) (n : Z) : double :=
  (fsum xs / double_of_int n)%float.

(** The number of optimizer steps in a log. *)
Fixpoint count_steps (cs : list CTester.OptCall) : nat :=
  match cs with
  | [] => 0
  | CTester.CallOptimize _ _ _ :: cs' => S (count_steps cs')
  | _ :: cs' => count_steps cs'
  end.

(** The ticks of the first [n] steps of a run that began after [clk] readings
    of the counter: step [k] lies between readings [clk + 2k] and
    [clk + 2k + 1]. *)
Fixpoint ticks (env : Env) (clk n : nat) : Z :=
  match n with
  | O => 0
  | S n' =>
    ticks env clk n'
    + (wrap64 (rdtsc env (clk + 2 * n' + 1)) - wrap64 (rdtsc env (clk + 2 * n')))
  end.

(** Two results of the same kind, related by [R] when both are values. *)
Definition rel_res {A B : Type} (R : A -> B -> Prop) (x : res A) (y : res B) : Prop :=
  match x, y with
  | Done a, Done b => R a b
  | Throw e1, Throw e2 => e1 = e2
  | OutOfFuel, OutOfFuel => True
  | _, _ => False
  end.

(** The dimensions passed to [updateDims], in the order of the calls. *)
Fixpoint dims_calls (cs : list CTester.OptCall) : list Z :=
  match cs with
  | [] => []
  | CTester.CallUpdateDims d :: cs' => d :: dims_calls cs'
  | _ :: cs' => dims_calls cs'
  end.

(** The number of calls of [init] in a log. *)
Fixpoint count_inits (cs : list CTester.OptCall) : nat :=
  match cs with
  | [] => 0
  | CTester.CallInit _ :: cs' => S (count_inits cs')
  | _ :: cs' => count_inits cs'
  end.

(** The sum of a list of integers. *)
Definition sumZ (xs : list Z) : Z := foldr Z.add 0 xs.

(** The optimizer steps behind an entry of [Iters], [N] being the step limit:
    [N] for a reject (the entry -1), the entry itself for a success. *)
Definition steps_of (N it : Z) : Z := if it =? -1 then N else it.

(** The sum of the squared deviations of the iteration counts [its] from
    [Avg], added one by one to [0.0] in the order of the list. *)
Definition sq_dev_sum (Avg : double) (its : list Z) : double :=
  foldl (fun acc it =>
           (acc + (double_of_int it - Avg) * (double_of_int it - Avg))%float)
    0%float its.

Section Notions.
Context `{Opt : CBEOOptimizerFan}.
Variable env : Env.
Variable T : CTester.t.

(** *** Steps of the inner loop *)

(** The machine after [s] optimizer steps. *)
Fixpoint after_steps (s : nat) (m : CTester.Mach) : CTester.Mach :=
  match s with
  | O => m
  | S s' => after_steps s' (CTester.timed_optimize env m)
  end.

Definition best_after (s : nat) (m : CTester.Mach) : double :=
  getBestCost (CTestOpt.base (CTester.m_opt (after_steps s m))).

(** The stop condition after [s] steps. *)
Definition converged_after (s : nat) (m : CTester.Mach) : bool :=
  CTester.converged T (CTester.m_opt (after_steps s m)).

(** The success test as the spec words it: the best cost [best] minus the
    known optimum of [f] is strictly less than the cost threshold. *)
Definition within_threshold (f : CTestFn.t) (best : double) : bool :=
  (best - CTestFn.OptValue f <? CTester.CostThreshold T)%float.

(** *** The signs and the calls of a trial *)

(** Two optimizer objects that differ at most in the state of the base
    class. *)
Definition same_view (o o' : CTestOpt.t) : Prop :=
  o' = CTestOpt.set_base (CTestOpt.base o') o.

(** The calls logged by [s] steps from the machine [m]. *)
Definition step_calls (s : nat) (m : CTester.Mach) : list CTester.OptCall :=
  map (fun k => CTester.CallOptimize (CTestOpt.fn (CTester.m_opt m))
                  (CTestOpt.signs (CTester.m_opt m)) (best_after k m))
      (seq 1 s).

(** The signs trial [j] runs with, for the machine [m] it is entered with. *)
Definition trial_signs (Dims : Z) (m : CTester.Mach) : list double :=
  if CTester.DoRandomize T then
    map sign_of_draw (draws (Z.to_nat Dims) (CTester.m_rnd m)).1
  else CTestOpt.signs (CTester.m_opt m).

(** The machine a trial starts stepping from. *)
Definition trial_start (Dims : Z) (m : CTester.Mach) : CTester.Mach :=
  CTester.init_optimizer
    (if CTester.DoRandomize T then CTester.draw_signs Dims m else m).

(** *** One function of the corpus *)

(** Line 198. *)
Definition resolve_dims (f : CTestFn.t) : Z :=
  if CTestFn.Dims f =? 0 then CTester.DefDims T else CTestFn.Dims f.

(** The machine and the locals when the loop over the trials is entered,
    [o] being the optimizer object [updateDims] returned. *)
Definition fn_entry (a : CTester.Acc) (f : CTestFn.t) (o : CTestOpt.t)
  : CTester.Mach * CTester.Locals :=
  let o := CTestOpt.set_DoRandomize (CTester.DoRandomize T) o in
  let o := if negb (CTester.DoRandomize T)
           then CTester.unit_signs (resolve_dims f) o else o in
  ({| CTester.m_opt := o;
      CTester.m_rnd := CTester.m_rnd (CTester.a_mach a);
      CTester.m_clk := CTester.m_clk (CTester.a_mach a);
      CTester.m_tc := CTester.m_tc (CTester.a_mach a);
      CTester.m_calls :=
        CTester.m_calls (CTester.a_mach a)
        ++ [CTester.CallUpdateDims (resolve_dims f)] |},
   {| CTester.AvgIter := 0; CTester.AvgCost := 0; CTester.AvgRjCost := 0;
      CTester.Rej := 0; CTester.Iters := CTester.a_Iters a |}).

(** Lines 253-278 and 289: the statistics, from the locals after the last
    trial. *)
Definition stats_of (l : CTester.Locals) : CTester.FunctionStats :=
  let succ := double_of_int (CTester.IterCount T - CTester.Rej l) in
  let Avg :=
    if CTester.IterCount T <=? CTester.Rej l then 1000000%float
    else (CTester.AvgIter l / succ)%float in
  let RMS :=
    if CTester.IterCount T <=? CTester.Rej l then 1000000%float
    else PrimFloat.sqrt (CTester.rms_sum T Avg (CTester.Iters l) / succ) in
  {| CTester.avgIterations := Avg;
     CTester.rmsIterations := RMS;
     CTester.rejectRate :=
       (double_of_int (CTester.Rej l) / double_of_int (CTester.IterCount T))%float;
     CTester.avgCostOnSuccess := (CTester.AvgCost l / succ)%float;
     CTester.avgCostOnReject :=
       (CTester.AvgRjCost l / double_of_int (CTester.Rej l))%float;
     CTester.rejectCount := CTester.Rej l;
     CTester.iterSum := CTester.AvgIter l;
     CTester.successCostSum := CTester.AvgCost l;
     CTester.rejectCostSum := CTester.AvgRjCost l;
     CTester.iterations :=
       take (Z.to_nat (CTester.IterCount T)) (CTester.Iters l) |}.

(** The line printed for a function. *)
Definition fn_line (f : CTestFn.t) (l : CTester.Locals) : list CTester.Line :=
  if CTester.DoPrint T then
    [CTester.LineFn (CTester.avgIterations (stats_of l))
       (CTester.rmsIterations (stats_of l))
       (100 * double_of_int (CTester.Rej l)
        / double_of_int (CTester.IterCount T))%float
       (CTester.avgCostOnSuccess (stats_of l))
       (CTester.avgCostOnReject (stats_of l))
       (CTestFn.Name f) (resolve_dims f)]
  else [].

(** The run-level variables after the function's pass. *)
Definition fn_exit (a : CTester.Acc) (f : CTestFn.t)
  (ml : CTester.Mach * CTester.Locals) : CTester.Acc :=
  let fs := stats_of ml.2 in
  {| CTester.a_mach := ml.1;
     CTester.a_Iters := CTester.Iters ml.2;
     CTester.a_ItAvg := (CTester.a_ItAvg a + CTester.avgIterations fs)%float;
     CTester.a_ItRtAvg :=
       (CTester.a_ItRtAvg a
        + CTester.rmsIterations fs / CTester.avgIterations fs)%float;
     CTester.a_RjAvg := (CTester.a_RjAvg a + CTester.rejectRate fs)%float;
     CTester.a_stdout := CTester.a_stdout a ++ fn_line f ml.2;
     CTester.a_stats := CTester.a_stats a ++ [fs] |}.

(** A call that hands the optimizer an objective with the signs [s]. *)
Definition uses_signs (s : list double) (c : CTester.OptCall) : Prop :=
  c = CTester.CallInit s \/ exists f best, c = CTester.CallOptimize f s best.

(** *** The loop over the trials *)

(** What holds of the locals when [j] trials are done. *)
Definition trials_inv (j : Z) (l : CTester.Locals) : Prop :=
  let done := take (Z.to_nat j) (CTester.Iters l) in
  length (CTester.Iters l) = Z.to_nat (CTester.IterCount T)
  /\ Forall (fun x => x = -1
                      \/ (1 <= x /\ (1 <= CTester.InnerIterCount T ->
                                     x <= CTester.InnerIterCount T))) done
  /\ CTester.Rej l = Z.of_nat (length (filter (fun x => x = -1) done))
  /\ (CTester.Rej l = 0 -> CTester.AvgRjCost l = 0%float)
  /\ (CTester.Rej l = j ->
      CTester.AvgCost l = 0%float /\ CTester.AvgIter l = 0%float).

(** *** The whole run *)

(** The run-level variables on entry to the loop over the corpus. *)
Definition acc0 (r : RndState) (clk : nat) (Iters0 : list Z) : CTester.Acc :=
  {| CTester.a_mach :=
       {| CTester.m_opt := CTester.opt T; CTester.m_rnd := r;
          CTester.m_clk := clk; CTester.m_tc := 0; CTester.m_calls := [] |};
     CTester.a_Iters := Iters0;
     CTester.a_ItAvg := 0; CTester.a_ItRtAvg := 0; CTester.a_RjAvg := 0;
     CTester.a_stdout := []; CTester.a_stats := [] |}.

(** Lines 292-306: what [run] leaves behind. *)
Definition finish (a : CTester.Acc) : CTester.Outcome :=
  let n := double_of_int (CTester.FnCount T) in
  let m := CTester.a_mach a in
  {| CTester.o_tester :=
       CTester.mk (CTester.DefDims T) (CTester.m_opt m)
         (CTester.a_ItAvg a / n) (CTester.a_ItRtAvg a / n) (CTester.a_RjAvg a / n)
         (CTester.m_tc m) (CTester.Funcs T) (CTester.FnCount T)
         (CTester.CostThreshold T) (CTester.IterCount T)
         (CTester.InnerIterCount T) (CTester.DoRandomize T) (CTester.DoPrint T);
     CTester.o_rnd := CTester.m_rnd m;
     CTester.o_clk := CTester.m_clk m;
     CTester.o_stdout :=
       CTester.a_stdout a
       ++ (if CTester.DoPrint T then
             [CTester.LineItAvg (CTester.a_ItAvg a / n);
              CTester.LineItRtAvg (CTester.a_ItRtAvg a / n);
              CTester.LineRjAvg (CTester.a_RjAvg a / n * 100);
              CTester.LineTicks (CTester.m_tc m)]
           else []);
     CTester.o_calls := CTester.m_calls m;
     CTester.o_stats := CTester.a_stats a |}.

(** The configurations for which [run] is meant: the function count is the
    one [init] computed, the counts fit [int], no array length is negative
    and a trial may take at least one step. *)
Definition valid_config : Prop :=
  CTester.FnCount T = CTester.count_until_null (CTester.Funcs T)
  /\ 0 <= CTester.IterCount T
  /\ 1 <= CTester.InnerIterCount T
  /\ forall k f, CTester.Funcs T !! k = Some (Some f) ->
                 Z.of_nat k < CTester.FnCount T -> 0 <= resolve_dims f.

(** *** The statistics of one function *)

(** What C10 states of the statistics of one function. *)
Definition outcomes_counted (fs : CTester.FunctionStats) : Prop :=
  let its := CTester.iterations fs in
  Z.of_nat (length its) = CTester.IterCount T
  /\ Forall (fun x => x = -1 \/ 1 <= x <= CTester.InnerIterCount T) its
  /\ CTester.rejectCount fs = Z.of_nat (length (rejects its))
  /\ Z.of_nat (length (successes its)) + CTester.rejectCount fs
     = CTester.IterCount T
  /\ (0 <=? CTester.rejectRate fs)%float = true
  /\ (CTester.rejectRate fs <=? 1)%float = true.

(** The best cost reported after a step is not within the threshold of the
    known optimum. *)
Definition stays_above (c : CTester.OptCall) : Prop :=
  match c with
  | CTester.CallOptimize f _ best =>
    (best - CTestFn.OptValue f <? CTester.CostThreshold T)%float = false
  | _ => True
  end.

(** The statistics of a function none of whose trials converged. *)
Definition total_failure (fs : CTester.FunctionStats) : Prop :=
  CTester.rejectCount fs = CTester.IterCount T
  /\ CTester.avgIterations fs = 1000000%float
  /\ CTester.rmsIterations fs = 1000000%float.

(** Lines 253-254 as they are: two unguarded divisions. *)
Definition cost_averages (fs : CTester.FunctionStats) : Prop :=
  CTester.avgCostOnSuccess fs
    = (CTester.successCostSum fs
       / double_of_int (CTester.IterCount T - CTester.rejectCount fs))%float
  /\ CTester.avgCostOnReject fs
     = (CTester.rejectCostSum fs / double_of_int (CTester.rejectCount fs))%float
  /\ (CTester.rejectCount fs = CTester.IterCount T ->
      CTester.avgCostOnSuccess fs = nan)
  /\ (CTester.rejectCount fs = 0 -> CTester.avgCostOnReject fs = nan).

(** A call that neither initialises nor steps the optimizer. *)
Definition no_trial_call (c : CTester.OptCall) : Prop :=
  exists dims, c = CTester.CallUpdateDims dims.

(** A vector of signs: every entry is [1.0] or [-1.0]. *)
Definition sign_vector (s : list double) : Prop :=
  Forall (fun x => x = 1%float \/ x = (-1)%float) s.

(** A call whose objective applies a vector of signs, which for a step has
    one entry per dimension of the function being solved. *)
Definition signed_call (c : CTester.OptCall) : Prop :=
  match c with
  | CTester.CallUpdateDims _ => True
  | CTester.CallInit s => sign_vector s
  | CTester.CallOptimize f s _ =>
    length s = Z.to_nat (resolve_dims f) /\ sign_vector s
  end.

(** *** What a run prints *)

(** The line printed for the function [f] whose statistics are [fs]. *)
Definition report_line (f : CTestFn.t) (fs : CTester.FunctionStats) : CTester.Line :=
  CTester.LineFn (CTester.avgIterations fs) (CTester.rmsIterations fs)
    (100 * double_of_int (CTester.rejectCount fs)
     / double_of_int (CTester.IterCount T))%float
    (CTester.avgCostOnSuccess fs) (CTester.avgCostOnReject fs)
    (CTestFn.Name f) (resolve_dims f).

(** The four lines printed after the last function, from the tester [run]
    leaves. *)
Definition summary_lines (t : CTester.t) : list CTester.Line :=
  [CTester.LineItAvg (CTester.ItAvg t); CTester.LineItRtAvg (CTester.ItRtAvg t);
   CTester.LineRjAvg (CTester.RjAvg t * 100)%float; CTester.LineTicks (CTester.tc t)].

(** The optimizer steps the recorded outcomes of a function stand for. *)
Definition steps_recorded (fs : CTester.FunctionStats) : Z :=
  sumZ (map (steps_of (CTester.InnerIterCount T)) (CTester.iterations fs)).

(** *** The aggregates of a run that began after [clk0] readings of the counter *)

Section Aggregates.
Variable clk0 : nat.

(** The clock and the tick total agree with the steps logged so far. *)
Definition tick_inv (m : CTester.Mach) : Prop :=
  CTester.m_clk m = (clk0 + 2 * count_steps (CTester.m_calls m))%nat
  /\ CTester.m_tc m = wrap64 (ticks env clk0 (count_steps (CTester.m_calls m))).

(** What C8 states of the outcome of a run. *)
Definition aggregates (out : CTester.Outcome) : Prop :=
  let fs := CTester.o_stats out in
  let n := CTester.FnCount T in
  Z.of_nat (length fs) = Z.max 0 n
  /\ CTester.ItAvg (CTester.o_tester out)
     = mean_of (map CTester.avgIterations fs) n
  /\ CTester.ItRtAvg (CTester.o_tester out)
     = mean_of (map (fun s => (CTester.rmsIterations s / CTester.avgIterations s)%float)
                  fs) n
  /\ CTester.RjAvg (CTester.o_tester out) = mean_of (map CTester.rejectRate fs) n
  /\ Forall (fun s => CTester.IterCount T <= CTester.rejectCount s ->
                      CTester.avgIterations s = 1000000%float) fs
  /\ CTester.o_clk out = (clk0 + 2 * count_steps (CTester.o_calls out))%nat
  /\ CTester.tc (CTester.o_tester out)
     = wrap64 (ticks env clk0 (count_steps (CTester.o_calls out))).

End Aggregates.

(** *** Relations between two runs *)

(** Two optimizer objects that agree except for the contents of the sign
    and scratch buffers, which have the right lengths. *)
Definition opt_pre (o1 o2 : CTestOpt.t) : Prop :=
  CTestOpt.fn o1 = CTestOpt.fn o2
  /\ CTestOpt.DoRandomize o1 = CTestOpt.DoRandomize o2
  /\ CTestOpt.Dims o1 = CTestOpt.Dims o2
  /\ CTestOpt.base o1 = CTestOpt.base o2
  /\ length (CTestOpt.signs o1) = Z.to_nat (CTestOpt.Dims o1)
  /\ length (CTestOpt.signs o2) = Z.to_nat (CTestOpt.Dims o1)
  /\ length (CTestOpt.tp o1) = Z.to_nat (CTestOpt.Dims o1)
  /\ length (CTestOpt.tp o2) = Z.to_nat (CTestOpt.Dims o1).

(** ... and that agree on the signs as well. *)
Definition opt_sim (o1 o2 : CTestOpt.t) : Prop :=
  opt_pre o1 o2 /\ CTestOpt.signs o1 = CTestOpt.signs o2.

(** Machines that agree except for the clock, the ticks and the buffers. *)
Definition mach_sim (m1 m2 : CTester.Mach) : Prop :=
  opt_sim (CTester.m_opt m1) (CTester.m_opt m2)
  /\ CTester.m_rnd m1 = CTester.m_rnd m2
  /\ CTester.m_calls m1 = CTester.m_calls m2.

(** The same at the start of a trial, where with randomization the signs are
    still to be drawn. *)
Definition mach_pre (m1 m2 : CTester.Mach) : Prop :=
  opt_pre (CTester.m_opt m1) (CTester.m_opt m2)
  /\ (CTester.DoRandomize T = false ->
      CTestOpt.signs (CTester.m_opt m1) = CTestOpt.signs (CTester.m_opt m2))
  /\ CTester.m_rnd m1 = CTester.m_rnd m2
  /\ CTester.m_calls m1 = CTester.m_calls m2.

(** Locals that agree on the sums, on [Rej] and on the entries of [Iters]
    written so far. *)
Definition locals_sim (j : Z) (l1 l2 : CTester.Locals) : Prop :=
  CTester.AvgIter l1 = CTester.AvgIter l2
  /\ CTester.AvgCost l1 = CTester.AvgCost l2
  /\ CTester.AvgRjCost l1 = CTester.AvgRjCost l2
  /\ CTester.Rej l1 = CTester.Rej l2
  /\ length (CTester.Iters l1) = length (CTester.Iters l2)
  /\ take (Z.to_nat j) (CTester.Iters l1) = take (Z.to_nat j) (CTester.Iters l2).

Definition trial_sim (D j : Z) (x1 x2 : CTester.Mach * CTester.Locals) : Prop :=
  CTestOpt.Dims (CTester.m_opt x1.1) = D
  /\ mach_sim x1.1 x2.1 /\ locals_sim j x1.2 x2.2.

(** The run-level variables of two runs between two functions. *)
Definition acc_sim (a1 a2 : CTester.Acc) : Prop :=
  CTestOpt.DoRandomize (CTester.m_opt (CTester.a_mach a1))
    = CTestOpt.DoRandomize (CTester.m_opt (CTester.a_mach a2))
  /\ CTestOpt.base (CTester.m_opt (CTester.a_mach a1))
     = CTestOpt.base (CTester.m_opt (CTester.a_mach a2))
  /\ CTester.m_rnd (CTester.a_mach a1) = CTester.m_rnd (CTester.a_mach a2)
  /\ CTester.m_calls (CTester.a_mach a1) = CTester.m_calls (CTester.a_mach a2)
  /\ length (CTester.a_Iters a1) = length (CTester.a_Iters a2)
  /\ CTester.a_ItAvg a1 = CTester.a_ItAvg a2
  /\ CTester.a_ItRtAvg a1 = CTester.a_ItRtAvg a2
  /\ CTester.a_RjAvg a1 = CTester.a_RjAvg a2
  /\ CTester.a_stats a1 = CTester.a_stats a2.

(** The optimizer object [updateDims] returns for a length that is not
    negative. *)
Definition fresh_opt (env : Env) (D : Z) (o : CTestOpt.t) : CTestOpt.t :=
  CTestOpt.mk (CTestOpt.fn o) (CTestOpt.DoRandomize o) D
    (replicate (Z.to_nat D) (indet_double env))
    (replicate (Z.to_nat D) (indet_double env))
    (base_updateDims D 0 (CTestOpt.base o)).

(** What two runs from the same seed agree on: the statistics of every
    function, the three aggregate means, the state of the generator and the
    calls made to the optimizer. *)
Definition same_statistics (out1 out2 : CTester.Outcome) : Prop :=
  CTester.o_stats out1 = CTester.o_stats out2
  /\ CTester.ItAvg (CTester.o_tester out1) = CTester.ItAvg (CTester.o_tester out2)
  /\ CTester.ItRtAvg (CTester.o_tester out1) = CTester.ItRtAvg (CTester.o_tester out2)
  /\ CTester.RjAvg (CTester.o_tester out1) = CTester.RjAvg (CTester.o_tester out2)
  /\ CTester.o_rnd out1 = CTester.o_rnd out2
  /\ CTester.o_calls out1 = CTester.o_calls out2.

(** *** The printing flag *)

(** The tester [T] with the printing flag set to [b]. *)
Definition with_DoPrint (b : bool) : CTester.t :=
  CTester.mk (CTester.DefDims T) (CTester.opt T) (CTester.ItAvg T)
    (CTester.ItRtAvg T) (CTester.RjAvg T) (CTester.tc T) (CTester.Funcs T)
    (CTester.FnCount T) (CTester.CostThreshold T) (CTester.IterCount T)
    (CTester.InnerIterCount T) (CTester.DoRandomize T) b.

(** Run-level variables that agree on everything but the lines printed. *)
Definition same_but_stdout (a1 a2 : CTester.Acc) : Prop :=
  CTester.a_mach a1 = CTester.a_mach a2
  /\ CTester.a_Iters a1 = CTester.a_Iters a2
  /\ CTester.a_ItAvg a1 = CTester.a_ItAvg a2
  /\ CTester.a_ItRtAvg a1 = CTester.a_ItRtAvg a2
  /\ CTester.a_RjAvg a1 = CTester.a_RjAvg a2
  /\ CTester.a_stats a1 = CTester.a_stats a2.

(** Outcomes that agree on everything but the lines printed: the statistics,
    the aggregates, the ticks, the optimizer object, the generator, the
    number of counter readings and the calls made. *)
Definition same_results (out1 out2 : CTester.Outcome) : Prop :=
  same_statistics out1 out2
  /\ CTester.tc (CTester.o_tester out1) = CTester.tc (CTester.o_tester out2)
  /\ CTester.opt (CTester.o_tester out1) = CTester.opt (CTester.o_tester out2)
  /\ CTester.o_clk out1 = CTester.o_clk out2.

End Notions.

(** ** Instances used to run the definitions on concrete inputs *)

Module Fixtures.

(** A generator that alternates between 0.25 and 0.75. *)
Definition alt_rnd : CBEORnd :=
  {| RndState := nat;
     getRndValue := fun n => (if Nat.even n then 0.25%float else 0.75%float, S n) |}.

(** An optimizer that starts at the upper bounds and halves every coordinate
    at each step, keeping the least cost seen. *)
Record HalvingState := {
  h_dims : Z;
  h_x : list double;
  h_best : double
}.

Definition halving : @CBEOOptimizerFan alt_rnd :=
  {| OptState := HalvingState;
     base_updateDims := fun d _ s =>
       {| h_dims := d; h_x := replicate (Z.to_nat d) 0%float; h_best := h_best s |};
     base_init := fun hk r s =>
       let '(_, r1) := h_getMinValues hk (replicate (Z.to_nat (h_dims s)) 0%float) r in
       let '(hi, r2) := h_getMaxValues hk (replicate (Z.to_nat (h_dims s)) 0%float) r1 in
       ({| h_dims := h_dims s; h_x := hi; h_best := h_optcost hk hi |}, r2);
     base_optimize := fun hk r s =>
       let x := map (fun v => (v / 2)%float) (h_x s) in
       let c := h_optcost hk x in
       ({| h_dims := h_dims s; h_x := x;
           h_best := if (c <? h_best s)%float then c else h_best s |}, r);
     getBestCost := h_best |}.

Definition sum_squares (p : list double) (N : Z) : double :=
  foldl (fun acc v => (acc + v * v)%float) 0%float (take (Z.to_nat N) p).

(** f(x) = x0^2 on [-10, 10], optimum 0. *)
Definition sphere1 : CTestFn.t :=
  CTestFn.mk "sphere" 1 (-10)%float 10%float 0%float sum_squares.

(** A function of variable dimension whose cost never changes. *)
Definition plateau : CTestFn.t :=
  CTestFn.mk "plateau" 0 (-1)%float 1%float 0%float (fun _ _ => 1%float).

Definition env0 : Env :=
  {| rdtsc := fun n => Z.of_nat (3 * n); indet_double := 7%float; indet_int := 42 |}.

Definition env1 : Env :=
  {| rdtsc := fun n => Z.of_nat (n * n); indet_double := 0%float; indet_int := -5 |}.

Definition opt0 : @CTestOpt.t alt_rnd halving :=
  @CTestOpt.mk alt_rnd halving plateau false 0 [] []
    {| h_dims := 0; h_x := []; h_best := 0%float |}.

(** A freshly constructed tester, before [init]. *)
Definition tester0 : @CTester.t alt_rnd halving :=
  @CTester.mk alt_rnd halving 0 opt0 0%float 0%float 0%float 0 [] 0 0%float 0 0
    false false.

Definition configure (aDefDims : Z) (Corpus : list (option CTestFn.t))
  (aThreshold : double) (aIterCount aInnerIterCount : Z)
  (aDoRandomize aDoPrint : bool) : @CTester.t alt_rnd halving :=
  CTester.init aDefDims Corpus aThreshold aIterCount aInnerIterCount
    aDoRandomize aDoPrint tester0.

(** The machine and the locals at the start of a trial on [sphere1], the
    optimizer initialised at the upper bound. *)
Definition mach_sphere : @CTester.Mach alt_rnd halving :=
  {| CTester.m_opt :=
       @CTestOpt.mk alt_rnd halving sphere1 false 1 [1%float] [7%float]
         {| h_dims := 1; h_x := [10%float]; h_best := 100%float |};
     CTester.m_rnd := 0%nat;
     CTester.m_clk := 0%nat;
     CTester.m_tc := 0;
     CTester.m_calls := [] |}.

(** Python values: floats, lists and [None]. *)
#[warnings="-register-all"]
Inductive PyValue :=
| PyFloat (d : double)
| PyList (items : list PyValue)
| PyNone.

Definition py_values : PyExt.PyAPI :=
  {| PyExt.PyObj := PyValue;
     PyExt.py_iter := fun o => match o with PyList items => Some items | _ => None end;
     PyExt.py_as_double := fun o => match o with PyFloat d => Some d | _ => None end;
     PyExt.py_call := fun _ x => Some (sum_squares x (Z.of_nat (length x))) |}.

(** A minimizer that evaluates the objective at the lower bounds and stops. *)
Definition lower_corner : PyExt.BiteOpt :=
  {| PyExt.biteopt_minimize := fun c => (PyExt.c_lb c, PyExt.c_f c (PyExt.c_lb c));
     PyExt.evaluated := fun c => [PyExt.c_lb c] |}.

Definition py_args (lower upper : list double) : @PyExt.Args py_values :=
  @PyExt.Build_Args py_values PyNone (PyList (map PyFloat lower))
    (PyList (map PyFloat upper)) None None None.

(** The machine at the start of a trial on [plateau] in two dimensions, the
    sign buffer not yet written. *)
Definition mach_plateau : @CTester.Mach alt_rnd halving :=
  {| CTester.m_opt :=
       @CTestOpt.mk alt_rnd halving plateau true 2 [7%float; 7%float]
         [7%float; 7%float]
         {| h_dims := 2; h_x := [0%float; 0%float]; h_best := 0%float |};
     CTester.m_rnd := 0%nat;
     CTester.m_clk := 0%nat;
     CTester.m_tc := 0;
     CTester.m_calls := [] |}.

Definition locals0 (Its : list Z) : CTester.Locals :=
  {| CTester.AvgIter := 0%float; CTester.AvgCost := 0%float;
     CTester.AvgRjCost := 0%float; CTester.Rej := 0; CTester.Iters := Its |}.

End Fixtures.

(** * Properties *)

(** ** Binary64 arithmetic on integers

    The specification of the primitive operations ([FloatAxioms]) reduces
    sums and quotients of small integers to the functions of [SpecFloat];
    the lemmas below follow those functions through rounding. *)

Lemma digits2_pos_size (p : positive) : digits2_pos p = Pos.size p.
Proof. induction p as [p IH|p IH|]; simpl; congruence. Qed.

Lemma Zdigits2_log2 (p : positive) :
  Zdigits2 (Z.pos p) = Z.log2 (Z.pos p) + 1.
Proof.
  unfold Zdigits2. rewrite digits2_pos_size.
  destruct p as [p|p|]; simpl; lia.
Qed.

Lemma iter_pos_nat {A : Type} (f : A -> A) (p : positive) :
  forall x : A, SpecFloat.iter_pos f p x = Nat.iter (Pos.to_nat p) f x.
Proof.
  induction p as [p IH|p IH|]; intros x; cbn [SpecFloat.iter_pos].
  - rewrite !IH, Pos2Nat.inj_xI.
    replace (S (2 * Pos.to_nat p)) with (Pos.to_nat p + S (Pos.to_nat p))%nat by lia.
    rewrite Nat.iter_add, Nat.iter_succ_r. reflexivity.
  - rewrite !IH, Pos2Nat.inj_xO.
    replace (2 * Pos.to_nat p)%nat with (Pos.to_nat p + Pos.to_nat p)%nat by lia.
    rewrite Nat.iter_add. reflexivity.
  - reflexivity.
Qed.

Lemma shr_1_exact (n : nat) :
  forall m M : positive,
  Z.pos m = Z.pos M * 2 ^ Z.of_nat n ->
  Nat.iter n shr_1 {| shr_m := Z.pos m; shr_r := false; shr_s := false |}
  = {| shr_m := Z.pos M; shr_r := false; shr_s := false |}.
Proof.
  induction n as [|n IH]; intros m M Hm.
  - simpl in *. f_equal. lia.
  - rewrite Nat.iter_succ_r.
    rewrite Nat2Z.inj_succ, Z.pow_succ_r in Hm by lia.
    destruct m as [m|m|].
    + rewrite Pos2Z.inj_xI in Hm. lia.
    + cbn [shr_1 orb]. apply IH. rewrite Pos2Z.inj_xO in Hm. lia.
    + lia.
Qed.

Lemma fexp_normal (x : Z) : -1021 <= x -> fexp prec emax x = x - 53.
Proof. intros Hx. unfold fexp, SpecFloat.emin, prec, emax. lia. Qed.

(** Rounding an exact value whose significand is a 53-bit number times a power of two. *)
Lemma binary_round_aux_exact (s : bool) (m M : positive) (e k : Z) :
  0 <= k ->
  Z.pos m = Z.pos M * 2 ^ k ->
  Z.log2 (Z.pos M) = 52 ->
  -1074 <= e + k <= 971 ->
  binary_round_aux prec emax s (Z.pos m) e loc_Exact = S754_finite s M (e + k).
Proof.
  intros Hk Hm HM He.
  assert (Hdm : Zdigits2 (Z.pos m) = k + 53).
  { rewrite Zdigits2_log2, Hm, Z.log2_mul_pow2 by lia. lia. }
  assert (HdM : Zdigits2 (Z.pos M) = 53).
  { rewrite Zdigits2_log2. lia. }
  unfold binary_round_aux, shr_fexp. rewrite Hdm.
  rewrite fexp_normal by lia.
  replace (k + 53 + e - 53 - e) with k by lia.
  cbn [shr_record_of_loc].
  assert (Hshr : shr {| shr_m := Z.pos m; shr_r := false; shr_s := false |} e k
                 = ({| shr_m := Z.pos M; shr_r := false; shr_s := false |}, e + k)).
  { unfold shr. destruct k as [|p|p]; [|  |lia].
    - f_equal; [|lia]. f_equal. lia.
    - rewrite iter_pos_nat. f_equal. apply shr_1_exact.
      rewrite positive_nat_Z. exact Hm. }
  rewrite Hshr. cbn [shr_m loc_of_shr_record round_nearest_even shr_record_of_loc].
  rewrite HdM. rewrite fexp_normal by lia.
  replace (53 + (e + k) - 53 - (e + k)) with 0 by lia.
  cbn [shr shr_m].
  replace (e + k <=? emax - prec) with true; [reflexivity|].
  symmetry. apply Z.leb_le. unfold emax, prec. lia.
Qed.

Lemma log2_range (N : Z) : 1 <= N < 2 ^ 53 -> 0 <= Z.log2 N <= 52.
Proof.
  intros HN. split; [apply Z.log2_nonneg|].
  assert (Z.log2 N < 53) by (apply Z.log2_lt_pow2; lia). lia.
Qed.

Lemma normal_mantissa (N : Z) :
  1 <= N < 2 ^ 53 ->
  Z.pos (Z.to_pos (N * 2 ^ (52 - Z.log2 N))) = N * 2 ^ (52 - Z.log2 N)
  /\ Z.log2 (N * 2 ^ (52 - Z.log2 N)) = 52.
Proof.
  intros HN. pose proof (log2_range N HN) as HL.
  assert (0 < 2 ^ (52 - Z.log2 N)) by (apply Z.pow_pos_nonneg; lia).
  split.
  - rewrite Z2Pos.id; [reflexivity|]. apply Z.mul_pos_pos; lia.
  - rewrite Z.log2_mul_pow2 by lia. lia.
Qed.

Lemma binary_normalize_int (N j : Z) :
  1 <= N < 2 ^ 53 -> 0 <= j ->
  binary_normalize prec emax (N * 2 ^ j) (- j) false = normal N.
Proof.
  intros HN Hj. pose proof (log2_range N HN) as HL.
  destruct (normal_mantissa N HN) as [HMpos HMlog].
  assert (H2j : 0 < 2 ^ j) by (apply Z.pow_pos_nonneg; lia).
  assert (Hpos : 0 < N * 2 ^ j) by (apply Z.mul_pos_pos; lia).
  destruct (N * 2 ^ j) as [|p|p] eqn:Hp; try lia.
  unfold binary_normalize, binary_round.
  assert (Hd : Z.pos (digits2_pos p) = Z.log2 N + j + 1).
  { change (Z.pos (digits2_pos p)) with (Zdigits2 (Z.pos p)).
    rewrite Zdigits2_log2, <- Hp, Z.log2_mul_pow2 by lia. lia. }
  rewrite Hd, fexp_normal by lia.
  replace (Z.log2 N + j + 1 + - j - 53) with (Z.log2 N - 52) by lia.
  unfold shl_align.
  destruct (Z.log2 N - 52 - - j) as [|d|d] eqn:Hdiff.
  - replace (- j) with (- j + 0) at 2 by lia.
    rewrite (binary_round_aux_exact false p (Z.to_pos (N * 2 ^ (52 - Z.log2 N))) (- j) 0);
      try lia.
    + unfold normal. f_equal. lia.
    + rewrite HMpos, <- Hp. replace (52 - Z.log2 N) with j by lia. lia.
    + rewrite HMpos. exact HMlog.
  - rewrite (binary_round_aux_exact false p (Z.to_pos (N * 2 ^ (52 - Z.log2 N))) (- j) (Z.pos d));
      try lia.
    + unfold normal. f_equal. lia.
    + rewrite HMpos, <- Hp. rewrite <- Z.mul_assoc, <- Z.pow_add_r by lia.
      f_equal. f_equal. lia.
    + rewrite HMpos. exact HMlog.
  - replace (Z.log2 N - 52) with (Z.log2 N - 52 + 0) at 2 by lia.
    fold (shift_pos d p).
    rewrite (binary_round_aux_exact false (shift_pos d p) (shift_pos d p) (Z.log2 N - 52) 0);
      try lia.
    + unfold normal. f_equal; [|lia].
      apply Pos2Z.inj. rewrite HMpos, shift_pos_correct, <- Hp, Z.pow_pos_fold.
      replace (52 - Z.log2 N) with (j + Z.pos d) by lia.
      rewrite Z.pow_add_r by lia. ring.
    + rewrite shift_pos_correct, Z.pow_pos_fold, Z.mul_comm, Z.log2_mul_pow2 by lia.
      rewrite <- Hp, Z.log2_mul_pow2 by lia. lia.
Qed.

Lemma shl_align_fst (mx : positive) (ex ez : Z) :
  ez <= ex ->
  Z.pos (fst (shl_align mx ex ez)) = Z.pos mx * 2 ^ (ex - ez).
Proof.
  intros Hle. unfold shl_align.
  destruct (ez - ex) as [|d|d] eqn:Hd; cbn [fst].
  - replace (ex - ez) with 0 by lia. lia.
  - lia.
  - fold (shift_pos d mx). rewrite shift_pos_correct, Z.pow_pos_fold.
    replace (ex - ez) with (Z.pos d) by lia. ring.
Qed.

Lemma SFadd_normal (a b : Z) :
  1 <= a -> 1 <= b -> a + b < 2 ^ 53 ->
  SF64add (normal a) (normal b) = normal (a + b).
Proof.
  intros Ha Hb Hab.
  assert (HA : 1 <= a < 2 ^ 53) by lia. assert (HB : 1 <= b < 2 ^ 53) by lia.
  pose proof (log2_range a HA) as HLa. pose proof (log2_range b HB) as HLb.
  destruct (normal_mantissa a HA) as [Hma _].
  destruct (normal_mantissa b HB) as [Hmb _].
  unfold SF64add, normal, SFadd. cbn [cond_Zopp].
  set (ez := Z.min (Z.log2 a - 52) (Z.log2 b - 52)).
  rewrite !shl_align_fst by (unfold ez; lia).
  rewrite Hma, Hmb.
  rewrite <- !Z.mul_assoc, <- !Z.pow_add_r by (unfold ez; lia).
  replace (52 - Z.log2 a + (Z.log2 a - 52 - ez)) with (- ez) by lia.
  replace (52 - Z.log2 b + (Z.log2 b - 52 - ez)) with (- ez) by lia.
  rewrite <- Z.mul_add_distr_r.
  pose proof (binary_normalize_int (a + b) (- ez) ltac:(lia) ltac:(unfold ez; lia))
    as Hnorm.
  rewrite Z.opp_involutive in Hnorm. exact Hnorm.
Qed.

Lemma new_location_exact (n : Z) : new_location n 0 = loc_Exact.
Proof.
  unfold new_location, new_location_even, new_location_odd.
  destruct (Z.even n); reflexivity.
Qed.

Lemma SFdiv_normal (n q : Z) :
  1 <= n -> 1 <= q -> n * q < 2 ^ 53 ->
  SF64div (normal (n * q)) (normal n) = normal q.
Proof.
  intros Hn Hq Hnq.
  assert (HN : 1 <= n < 2 ^ 53) by nia. assert (HQ : 1 <= q < 2 ^ 53) by nia.
  assert (HNQ : 1 <= n * q < 2 ^ 53) by nia.
  pose proof (log2_range n HN) as HLn. pose proof (log2_range q HQ) as HLq.
  pose proof (log2_range _ HNQ) as HLnq.
  destruct (normal_mantissa n HN) as [Hmn Hln].
  destruct (normal_mantissa q HQ) as [Hmq Hlq].
  destruct (normal_mantissa _ HNQ) as [Hmnq Hlnq].
  assert (Habove := Z.log2_mul_above n q ltac:(lia) ltac:(lia)).
  assert (Hbelow : Z.log2 n <= Z.log2 (n * q)) by (apply Z.log2_le_mono; nia).
  unfold SF64div, normal, SFdiv, SFdiv_core_binary. cbn [xorb].
  rewrite !Zdigits2_log2, Hmn, Hmnq, Hln, Hlnq.
  rewrite fexp_normal by lia.
  replace (Z.min (52 + 1 + (Z.log2 (n * q) - 52) - (52 + 1 + (Z.log2 n - 52)) - 53)
             (Z.log2 (n * q) - 52 - (Z.log2 n - 52)))
    with (Z.log2 (n * q) - Z.log2 n - 53) by lia.
  replace (Z.log2 (n * q) - 52 - (Z.log2 n - 52) - (Z.log2 (n * q) - Z.log2 n - 53))
    with 53 by lia.
  rewrite Z.shiftl_mul_pow2 by lia.
  set (k := 1 + Z.log2 n + Z.log2 q - Z.log2 (n * q)).
  assert (Hk : 0 <= k) by (unfold k; lia).
  set (A := n * q * 2 ^ (52 - Z.log2 (n * q)) * 2 ^ 53).
  set (B := n * 2 ^ (52 - Z.log2 n)).
  set (Q := q * 2 ^ (52 - Z.log2 q) * 2 ^ k).
  assert (Hpow : 2 ^ (52 - Z.log2 (n * q)) * 2 ^ 53
                 = 2 ^ (52 - Z.log2 q) * 2 ^ k * 2 ^ (52 - Z.log2 n)).
  { rewrite <- !Z.pow_add_r by lia. f_equal. unfold k. lia. }
  assert (HAQB : A = B * Q + 0).
  { unfold A, B, Q.
    replace (n * q * 2 ^ (52 - Z.log2 (n * q)) * 2 ^ 53)
      with (n * q * (2 ^ (52 - Z.log2 (n * q)) * 2 ^ 53)) by ring.
    rewrite Hpow. ring. }
  assert (HBpos : 0 < B).
  { unfold B. apply Z.mul_pos_pos; [lia|]. apply Z.pow_pos_nonneg; lia. }
  assert (HQpos : 0 < Q).
  { unfold Q. repeat apply Z.mul_pos_pos; try lia; apply Z.pow_pos_nonneg; lia. }
  pose proof (Z_div_mod A B ltac:(lia)) as Hdm.
  destruct (Z.div_eucl A B) as [q0 r]. destruct Hdm as [Heq Hr].
  destruct (Z.div_mod_unique B q0 Q r 0) as [-> ->]; [lia|lia|lia|].
  rewrite new_location_exact.
  destruct Q as [|pq|pq] eqn:HQv; try lia.
  rewrite (binary_round_aux_exact false pq (Z.to_pos (q * 2 ^ (52 - Z.log2 q))) _ k);
    try lia.
  - f_equal. unfold k. lia.
  - rewrite Hmq. lia.
  - rewrite Hmq. exact Hlq.
Qed.

Lemma double_of_int_normal (N : Z) :
  1 <= N < 2 ^ 53 -> Prim2SF (double_of_int N) = normal N.
Proof.
  intros HN. unfold double_of_int.
  destruct (Z.ltb_spec N 0) as [Hneg|_]; [lia|].
  rewrite of_uint63_spec, Uint63.of_Z_spec.
  rewrite Z.mod_small by (change wB with (2 ^ 63); lia).
  pose proof (binary_normalize_int N 0 HN ltac:(lia)) as Hnorm.
  rewrite Z.pow_0_r, Z.mul_1_r in Hnorm. exact Hnorm.
Qed.

(** *** Rounding a quotient *)

Lemma shr_record_of_loc_m (m : Z) (l : location) : shr_m (shr_record_of_loc m l) = m.
Proof. destruct l as [|[]]; reflexivity. Qed.

Lemma loc_of_shr_record_of_loc (m : Z) (l : location) :
  loc_of_shr_record (shr_record_of_loc m l) = l.
Proof. destruct l as [|[]]; reflexivity. Qed.

Lemma round_nearest_even_bounds (m : Z) (l : location) :
  m <= round_nearest_even m l <= m + 1.
Proof.
  unfold round_nearest_even. destruct l as [|[]]; try lia.
  destruct (Z.even m); lia.
Qed.

Lemma log2_52 (m : Z) : 2 ^ 52 <= m < 2 ^ 53 -> Z.log2 m = 52.
Proof. intros Hm. apply Z.log2_unique; [lia|]. exact Hm. Qed.

Lemma log2_53 (m : Z) : 2 ^ 53 <= m < 2 ^ 54 -> Z.log2 m = 53.
Proof. intros Hm. apply Z.log2_unique; [lia|]. exact Hm. Qed.

(** The second stage of [binary_round_aux]: the rounded significand is
    either a 53-bit number, kept, or exactly [2^53], renormalised. *)
Lemma round_second_stage (s : bool) (mr e : Z) :
  2 ^ 52 <= mr <= 2 ^ 53 -> -1074 <= e <= 970 ->
  exists (m : positive) (er : Z),
    (let '(mrs, e'') := shr_fexp prec emax mr e loc_Exact in
     match shr_m mrs with
     | Z0 => S754_zero s
     | Z.pos m => if e'' <=? emax - prec then S754_finite s m e'' else S754_infinity s
     | Z.neg _ => S754_nan
     end) = S754_finite s m er
    /\ (er = e \/ (er = e + 1 /\ m = (2 ^ 52)%positive)).
Proof.
  intros Hmr He.
  destruct (Z.eq_dec mr (2 ^ 53)) as [->|Hne].
  - exists (2 ^ 52)%positive, (e + 1).
    split; [|right; split; reflexivity].
    unfold shr_fexp. change (Zdigits2 (2 ^ 53)) with 54.
    rewrite fexp_normal by lia.
    replace (54 + e - 53 - e) with 1 by lia.
    cbn [shr_record_of_loc shr SpecFloat.iter_pos].
    change (shr_1 {| shr_m := 2 ^ 53; shr_r := false; shr_s := false |})
      with {| shr_m := 2 ^ 52; shr_r := false; shr_s := false |}.
    cbn [shr_m]. change (2 ^ 52) with (Z.pos (2 ^ 52)).
    replace (e + 1 <=? emax - prec) with true; [reflexivity|].
    symmetry. apply Z.leb_le. unfold emax, prec. lia.
  - assert (Hlt : 2 ^ 52 <= mr < 2 ^ 53) by lia.
    destruct mr as [|m|m]; try lia.
    exists m, e. split; [|left; reflexivity].
    unfold shr_fexp. rewrite Zdigits2_log2, (log2_52 _ Hlt).
    rewrite fexp_normal by lia.
    replace (52 + 1 + e - 53 - e) with 0 by lia.
    cbn [shr_record_of_loc shr shr_m].
    replace (e <=? emax - prec) with true; [reflexivity|].
    symmetry. apply Z.leb_le. unfold emax, prec. lia.
Qed.

(** Rounding a significand of 53 or 54 bits. *)
Lemma binary_round_aux_bounds (s : bool) (q : positive) (e : Z) (l : location) :
  2 ^ 52 <= Z.pos q < 2 ^ 54 -> -1074 <= e <= 968 ->
  exists (m : positive) (er : Z),
    binary_round_aux prec emax s (Z.pos q) e l = S754_finite s m er
    /\ let D := if Z.pos q <? 2 ^ 53 then 0 else 1 in
       (er = e + D \/ (er = e + D + 1 /\ m = (2 ^ 52)%positive)).
Proof.
  intros Hq He. unfold binary_round_aux.
  destruct (Z.ltb_spec (Z.pos q) (2 ^ 53)) as [Hlt|Hge].
  - unfold shr_fexp at 1. rewrite Zdigits2_log2, (log2_52 (Z.pos q)) by lia.
    rewrite fexp_normal by lia.
    replace (52 + 1 + e - 53 - e) with 0 by lia. cbn [shr].
    rewrite shr_record_of_loc_m, loc_of_shr_record_of_loc.
    pose proof (round_nearest_even_bounds (Z.pos q) l) as Hr.
    destruct (round_second_stage s (round_nearest_even (Z.pos q) l) e
                ltac:(lia) ltac:(lia)) as (m & er & Heq & Her).
    exists m, er. split; [exact Heq|]. cbn zeta.
    replace (e + 0) with e by lia. exact Her.
  - unfold shr_fexp at 1. rewrite Zdigits2_log2, (log2_53 (Z.pos q)) by lia.
    rewrite fexp_normal by lia.
    replace (53 + 1 + e - 53 - e) with 1 by lia. cbn [shr SpecFloat.iter_pos].
    set (mrs := shr_1 (shr_record_of_loc (Z.pos q) l)).
    assert (Hm : 2 ^ 52 <= shr_m mrs < 2 ^ 53).
    { unfold mrs. destruct q as [q'|q'|]; [| |lia].
      - pose proof (Pos2Z.inj_xI q') as Hx.
        destruct l as [|[]]; cbn [shr_record_of_loc shr_1 shr_m]; lia.
      - pose proof (Pos2Z.inj_xO q') as Hx.
        destruct l as [|[]]; cbn [shr_record_of_loc shr_1 shr_m]; lia. }
    pose proof (round_nearest_even_bounds (shr_m mrs) (loc_of_shr_record mrs)) as Hr.
    destruct (round_second_stage s
                (round_nearest_even (shr_m mrs) (loc_of_shr_record mrs)) (e + 1)
                ltac:(lia) ltac:(lia)) as (m & er & Heq & Her).
    exists m, er. split; [exact Heq|]. cbn zeta. exact Her.
Qed.

(** The quotient of two integers [a < b] is at most one. *)
Lemma SFdiv_normal_lt (a b : Z) :
  1 <= a -> a < b -> b < 2 ^ 53 ->
  exists (m : positive) (e : Z),
    SF64div (normal a) (normal b) = S754_finite false m e
    /\ (e <= -53 \/ (e = -52 /\ m = (2 ^ 52)%positive)).
Proof.
  intros Ha Hab Hb.
  assert (HA : 1 <= a < 2 ^ 53) by lia. assert (HB : 1 <= b < 2 ^ 53) by lia.
  pose proof (log2_range a HA) as HLa. pose proof (log2_range b HB) as HLb.
  destruct (normal_mantissa a HA) as [Hma Hla].
  destruct (normal_mantissa b HB) as [Hmb Hlb].
  assert (Hmono : Z.log2 a <= Z.log2 b) by (apply Z.log2_le_mono; lia).
  unfold SF64div, normal, SFdiv, SFdiv_core_binary. cbn [xorb].
  rewrite !Zdigits2_log2, Hma, Hmb, Hla, Hlb.
  rewrite fexp_normal by lia.
  replace (Z.min (52 + 1 + (Z.log2 a - 52) - (52 + 1 + (Z.log2 b - 52)) - 53)
             (Z.log2 a - 52 - (Z.log2 b - 52)))
    with (Z.log2 a - Z.log2 b - 53) by lia.
  replace (Z.log2 a - 52 - (Z.log2 b - 52) - (Z.log2 a - Z.log2 b - 53))
    with 53 by lia.
  rewrite Z.shiftl_mul_pow2 by lia.
  set (A := a * 2 ^ (52 - Z.log2 a)) in *.
  set (B := b * 2 ^ (52 - Z.log2 b)) in *.
  assert (HAr : 2 ^ 52 <= A < 2 ^ 53).
  { pose proof (Z.log2_spec A) as Hs. rewrite Hla in Hs.
    assert (0 < A) by (unfold A; apply Z.mul_pos_pos; [lia|apply Z.pow_pos_nonneg; lia]).
    apply Hs. lia. }
  assert (HBr : 2 ^ 52 <= B < 2 ^ 53).
  { pose proof (Z.log2_spec B) as Hs. rewrite Hlb in Hs.
    assert (0 < B) by (unfold B; apply Z.mul_pos_pos; [lia|apply Z.pow_pos_nonneg; lia]).
    apply Hs. lia. }
  pose proof (Z_div_mod (A * 2 ^ 53) B ltac:(lia)) as Hdm.
  destruct (Z.div_eucl (A * 2 ^ 53) B) as [q0 r]. destruct Hdm as [Heq Hr].
  assert (Hq0 : 2 ^ 52 <= q0 < 2 ^ 54) by nia.
  destruct q0 as [|pq|pq]; try lia.
  destruct (binary_round_aux_bounds false pq (Z.log2 a - Z.log2 b - 53)
              (new_location B r) Hq0 ltac:(lia)) as (m & er & Hround & Her).
  exists m, er. split; [exact Hround|].
  cbn zeta in Her.
  destruct (Z.ltb_spec (Z.pos pq) (2 ^ 53)) as [Hlt|Hge].
  - destruct Her as [->|[-> ->]]; [left; lia|].
    destruct (Z.eq_dec (Z.log2 a) (Z.log2 b)); [right; split; [lia|reflexivity]|left; lia].
  - assert (HAB : B <= A) by nia.
    assert (Hstrict : Z.log2 a < Z.log2 b).
    { destruct (Z.eq_dec (Z.log2 a) (Z.log2 b)) as [E|NE]; [|lia].
      exfalso. unfold A, B in HAB. rewrite E in HAB.
      assert (0 < 2 ^ (52 - Z.log2 b)) by (apply Z.pow_pos_nonneg; lia). nia. }
    destruct Her as [->|[-> ->]]; [left; lia|].
    destruct (Z.eq_dec (Z.log2 a + 1) (Z.log2 b));
      [right; split; [lia|reflexivity]|left; lia].
Qed.

Lemma Prim2SF_one : Prim2SF 1%float = S754_finite false (2 ^ 52) (-52).
Proof. reflexivity. Qed.

Lemma normal_one : normal 1 = S754_finite false (2 ^ 52) (-52).
Proof. reflexivity. Qed.

(** A ratio of counts lies between 0 and 1. *)
Lemma ratio_bounds (a b : Z) :
  0 <= a <= b -> 1 <= b < 2 ^ 53 ->
  (0 <=? double_of_int a / double_of_int b)%float = true
  /\ (double_of_int a / double_of_int b <=? 1)%float = true.
Proof.
  intros Ha Hb.
  rewrite !FloatAxioms.leb_spec, FloatAxioms.div_spec, (double_of_int_normal b Hb), Prim2SF_one.
  change (Prim2SF 0%float) with (S754_zero false).
  destruct (Z.eq_dec a 0) as [->|Hnz].
  - change (Prim2SF (double_of_int 0)) with (S754_zero false).
    unfold normal, SF64div, SFdiv. split; reflexivity.
  - rewrite (double_of_int_normal a) by lia.
    destruct (Z.eq_dec a b) as [->|Hne].
    + pose proof (SFdiv_normal b 1 ltac:(lia) ltac:(lia) ltac:(lia)) as Hd.
      rewrite Z.mul_1_r in Hd. rewrite Hd, normal_one. split; reflexivity.
    + destruct (SFdiv_normal_lt a b ltac:(lia) ltac:(lia) ltac:(lia))
        as (m & e & -> & He).
      split; [reflexivity|].
      unfold SFleb, SFcompare.
      destruct He as [He|[-> ->]].
      * destruct (Z.compare_spec e (-52)); first [reflexivity|lia].
      * reflexivity.
Qed.

(** *** Sums of the sentinel *)

Lemma holds_int_add (x : float) (N : Z) :
  0 <= N -> N + 1000000 < 2 ^ 53 -> holds_int x N ->
  holds_int (x + 1000000)%float (N + 1000000).
Proof.
  intros HN Hlt Hx. unfold holds_int in *.
  replace (N + 1000000 =? 0) with false by (symmetry; apply Z.eqb_neq; lia).
  destruct (Z.eqb_spec N 0) as [->|Hnz].
  - rewrite Hx. reflexivity.
  - rewrite FloatAxioms.add_spec, Hx.
    change (Prim2SF 1000000%float) with (normal 1000000).
    apply SFadd_normal; lia.
Qed.

Lemma holds_int_mean (x : float) (n : Z) :
  1 <= n -> n * 1000000 < 2 ^ 53 -> holds_int x (n * 1000000) ->
  (x / double_of_int n)%float = 1000000%float.
Proof.
  intros Hn Hlt Hx. unfold holds_int in Hx.
  replace (n * 1000000 =? 0) with false in Hx by (symmetry; apply Z.eqb_neq; lia).
  apply Prim2SF_inj.
  rewrite FloatAxioms.div_spec, Hx, (double_of_int_normal n) by lia.
  change (Prim2SF 1000000%float) with (normal 1000000).
  apply SFdiv_normal; lia.
Qed.

(** *** Comparisons *)

Lemma leb_not_gt (x y : float) : (x <=? y)%float = true -> (y <? x)%float = false.
Proof.
  rewrite FloatAxioms.leb_spec, FloatAxioms.ltb_spec. unfold SFleb, SFltb, SFcompare.
  destruct (Prim2SF x) as [sx|sx| |sx mx ex], (Prim2SF y) as [sy|sy| |sy my ey];
    try destruct sx; try destruct sy; try reflexivity; try discriminate.
  - assert (Hanti : Pos.compare_cont Eq my mx = CompOpp (Pos.compare_cont Eq mx my))
      by (rewrite Pos.compare_cont_antisym; reflexivity).
    rewrite (Z.compare_antisym ex ey), Hanti.
    destruct (ex ?= ey); cbn [CompOpp]; try reflexivity; try discriminate.
    destruct (Pos.compare_cont Eq mx my); cbn [CompOpp]; try reflexivity; discriminate.
  - assert (Hanti : Pos.compare_cont Eq my mx = CompOpp (Pos.compare_cont Eq mx my))
      by (rewrite Pos.compare_cont_antisym; reflexivity).
    rewrite (Z.compare_antisym ex ey), Hanti.
    destruct (ex ?= ey); cbn [CompOpp]; try reflexivity; try discriminate.
    destruct (Pos.compare_cont Eq mx my); cbn [CompOpp]; try reflexivity; discriminate.
Qed.

(** ** Loops that fill an array *)

Lemma for_loop_write {A : Type} (g : nat -> A) (n i : nat) (l : list A) :
  (i + n <= length l)%nat ->
  for_loop n (Z.of_nat i) (fun k l => <[Z.to_nat k := g (Z.to_nat k)]> l) l
  = take i l ++ map g (seq i n) ++ drop (i + n) l.
Proof.
  revert i l. induction n as [|n IH]; intros i l Hlen; simpl.
  - rewrite Nat.add_0_r, take_drop. reflexivity.
  - replace (Z.of_nat i + 1) with (Z.of_nat (S i)) by lia.
    rewrite IH by (rewrite length_insert; lia).
    rewrite Nat2Z.id.
    assert (Hi : (i < length l)%nat) by lia.
    rewrite (take_S_r (<[i:=g i]> l) i (g i))
      by (apply list_lookup_insert_eq; exact Hi).
    rewrite take_insert_ge by lia.
    rewrite drop_insert_lt by lia.
    rewrite <- app_assoc. simpl.
    replace (S (i + n))%nat with (i + S n)%nat by lia. reflexivity.
Qed.

Lemma for_loop_draw `{CBEORnd} {A : Type} (g : double -> A) (n i : nat)
  (l : list A) (r : RndState) :
  (i + n <= length l)%nat ->
  for_loop n (Z.of_nat i)
    (fun k '(l, r) =>
       let '(x, r') := getRndValue r in (<[Z.to_nat k := g x]> l, r'))
    (l, r)
  = (take i l ++ map g (draws n r).1 ++ drop (i + n) l, (draws n r).2).
Proof.
  revert i l r. induction n as [|n IH]; intros i l r Hlen; simpl.
  - rewrite Nat.add_0_r, take_drop. reflexivity.
  - destruct (getRndValue r) as [x r1] eqn:Hx.
    replace (Z.of_nat i + 1) with (Z.of_nat (S i)) by lia.
    rewrite IH by (rewrite length_insert; lia).
    destruct (draws n r1) as [xs r2] eqn:Hxs. simpl.
    rewrite Nat2Z.id.
    assert (Hi : (i < length l)%nat) by lia.
    rewrite (take_S_r (<[i:=g x]> l) i (g x))
      by (apply list_lookup_insert_eq; exact Hi).
    rewrite take_insert_ge by lia.
    rewrite drop_insert_lt by lia.
    rewrite <- app_assoc. simpl.
    replace (S (i + n))%nat with (i + S n)%nat by lia. reflexivity.
Qed.

Lemma for_lt_write {A : Type} (g : nat -> A) (hi : Z) (l : list A) :
  (Z.to_nat hi <= length l)%nat ->
  for_lt hi (fun k l => <[Z.to_nat k := g (Z.to_nat k)]> l) l
  = map g (seq 0 (Z.to_nat hi)) ++ drop (Z.to_nat hi) l.
Proof. intros Hlen. exact (for_loop_write g (Z.to_nat hi) 0 l Hlen). Qed.

Lemma for_lt_draw `{CBEORnd} {A : Type} (g : double -> A) (hi : Z)
  (l : list A) (r : RndState) :
  (Z.to_nat hi <= length l)%nat ->
  for_lt hi
    (fun k '(l, r) =>
       let '(x, r') := getRndValue r in (<[Z.to_nat k := g x]> l, r'))
    (l, r)
  = (map g (draws (Z.to_nat hi) r).1 ++ drop (Z.to_nat hi) l,
     (draws (Z.to_nat hi) r).2).
Proof. intros Hlen. exact (for_loop_draw g (Z.to_nat hi) 0 l r Hlen). Qed.

Lemma map_const_seq {A : Type} (v : A) (i n : nat) :
  map (fun _ => v) (seq i n) = replicate n v.
Proof.
  revert i. induction n as [|n IH]; intros i; simpl; [reflexivity|].
  rewrite IH. reflexivity.
Qed.

Lemma length_draws `{CBEORnd} (n : nat) (r : RndState) :
  length (draws n r).1 = n.
Proof.
  revert r. induction n as [|n IH]; intros r; simpl; [reflexivity|].
  destruct (getRndValue r) as [x r1]. specialize (IH r1).
  destruct (draws n r1) as [xs r2]. simpl in *. lia.
Qed.

Lemma map_lookup_total_seq (f : double -> double -> double) (p s : list double) :
  length p = length s ->
  map (fun k => f (p !!! k) (s !!! k)) (seq 0 (length p)) = zip_with f p s.
Proof.
  intros Hlen. apply list_eq. intros i.
  rewrite list_lookup_fmap, lookup_zip_with.
  destruct (decide (i < length p)%nat) as [Hi|Hi].
  - rewrite lookup_seq_lt by exact Hi. simpl.
    destruct (lookup_lt_is_Some_2 p i Hi) as [x Hx].
    destruct (lookup_lt_is_Some_2 s i ltac:(lia)) as [y Hy].
    rewrite Hx, Hy. simpl.
    rewrite (list_lookup_total_correct p i x Hx).
    rewrite (list_lookup_total_correct s i y Hy). reflexivity.
  - rewrite lookup_seq_ge by lia. simpl.
    rewrite (lookup_ge_None_2 p i) by lia. reflexivity.
Qed.

(** Loops whose body may fail: an invariant that every completed pass
    preserves holds when the loop completes. *)
Lemma for_loopM_inv {St : Type} (P : Z -> St -> Prop) (body : Z -> St -> res St)
  (n : nat) :
  forall (i : Z) (s s' : St),
  P i s ->
  (forall k x x', i <= k < i + Z.of_nat n -> P k x -> body k x = Done x' ->
     P (k + 1) x') ->
  for_loopM n i body s = Done s' ->
  P (i + Z.of_nat n) s'.
Proof.
  induction n as [|n IH]; intros i s s' HP Hstep Hrun.
  - simpl in Hrun. injection Hrun as <-. replace (i + Z.of_nat 0) with i by lia.
    exact HP.
  - cbn [for_loopM] in Hrun. destruct (body i s) as [x| |] eqn:Hb;
      try discriminate Hrun.
    replace (i + Z.of_nat (S n)) with (i + 1 + Z.of_nat n) by lia.
    apply (IH (i + 1) x s'); [|intros k y y' Hk; apply Hstep; lia|exact Hrun].
    apply (Hstep i s x); [lia|exact HP|exact Hb].
Qed.

(** A loop whose every pass completes, completes. *)
Lemma for_loopM_total {St : Type} (P : Z -> St -> Prop) (body : Z -> St -> res St)
  (n : nat) :
  forall (i : Z) (s : St),
  P i s ->
  (forall k x, i <= k < i + Z.of_nat n -> P k x ->
     exists x', body k x = Done x' /\ P (k + 1) x') ->
  exists s', for_loopM n i body s = Done s' /\ P (i + Z.of_nat n) s'.
Proof.
  induction n as [|n IH]; intros i s HP Hstep.
  - exists s. split; [reflexivity|]. replace (i + Z.of_nat 0) with i by lia.
    exact HP.
  - destruct (Hstep i s ltac:(lia) HP) as (x & Hb & HPx).
    destruct (IH (i + 1) x HPx) as (s' & Hrun & HP').
    + intros k y Hk. apply Hstep. lia.
    + exists s'. cbn [for_loopM]. rewrite Hb. split; [exact Hrun|].
      replace (i + Z.of_nat (S n)) with (i + 1 + Z.of_nat n) by lia. exact HP'.
Qed.

(** ** The bound getters (C7) *)

Section Bounds.
Context `{Opt : CBEOOptimizerFan}.

(** C7. The bound getters write every one of the first [Dims] entries of the
    output buffer.  With randomization, entry [i] is the function's bound
    times [0.5 + x_i * 0.5], where [x_i] is the [i]-th of [Dims] successive
    draws of the generator (one draw per entry, none shared); without it,
    every entry is the bound itself and the generator is left alone. *)
Theorem bound_getters_spec (o : CTestOpt.t) (p : list double) (r : RndState) :
  let n := Z.to_nat (CTestOpt.Dims o) in
  let lo := CTestFn.RangeMin (CTestOpt.fn o) in
  let hi := CTestFn.RangeMax (CTestOpt.fn o) in
  (n <= length p)%nat ->
  (CTestOpt.DoRandomize o = true ->
   CTestOpt.getMinValues o p r
     = (map (fun x => (lo * range_factor x)%float) (draws n r).1 ++ drop n p,
        (draws n r).2)
   /\ CTestOpt.getMaxValues o p r
     = (map (fun x => (hi * range_factor x)%float) (draws n r).1 ++ drop n p,
        (draws n r).2))
  /\ (CTestOpt.DoRandomize o = false ->
      CTestOpt.getMinValues o p r = (replicate n lo ++ drop n p, r)
      /\ CTestOpt.getMaxValues o p r = (replicate n hi ++ drop n p, r)).
Proof.
  intros n lo hi Hlen.
  unfold CTestOpt.getMinValues, CTestOpt.getMaxValues.
  split; intros ->.
  - split.
    + exact (for_lt_draw (fun x => (lo * range_factor x)%float) _ p r Hlen).
    + exact (for_lt_draw (fun x => (hi * range_factor x)%float) _ p r Hlen).
  - rewrite <- (map_const_seq lo 0 n), <- (map_const_seq hi 0 n).
    split; f_equal.
    + exact (for_lt_write (fun _ => lo) _ p Hlen).
    + exact (for_lt_write (fun _ => hi) _ p Hlen).
Qed.

End Bounds.

Lemma bound_getters_spec_witness :
  let o := CTestOpt.mk Fixtures.sphere1 true 2 [] []
             (CTestOpt.base Fixtures.opt0) in
  CTestOpt.getMinValues o [0; 0; 9]%float 0%nat
  = ([-6.25; -8.75; 9]%float, 2%nat).
Proof.
  intros o.
  destruct (bound_getters_spec o [0; 0; 9]%float 0%nat) as [Hr _].
  - simpl. lia.
  - destruct (Hr eq_refl) as [Hmin _]. rewrite Hmin. reflexivity.
Defined.

(** ** The inner loop of a trial *)

Section InnerLoop.
Context `{Opt : CBEOOptimizerFan}.
Variable env : Env.
Variable T : CTester.t.

Lemma inner_loop_success (d : nat) :
  forall (fuel : nat) (j i : Z) (m : CTester.Mach) (l : CTester.Locals),
  (1 <= d <= fuel)%nat ->
  converged_after env T d m = true ->
  (forall d', (1 <= d' < d)%nat ->
     converged_after env T d' m = false /\ i + Z.of_nat d' <> CTester.InnerIterCount T) ->
  CTester.inner_loop env T fuel j i m l
  = Done (after_steps env d m,
          record_success j (i + Z.of_nat d) (best_after env d m) l).
Proof.
  induction d as [|d IH]; intros fuel j i m l [Hd Hf] Hc Hbefore; [lia|].
  destruct fuel as [|fuel]; [lia|].
  destruct d as [|d].
  - simpl. unfold converged_after in Hc. simpl in Hc. rewrite Hc.
    reflexivity.
  - assert (H1 : (1 <= 1 < S (S d))%nat) by lia.
    destruct (Hbefore 1%nat H1) as [Hc1 Hn1].
    unfold converged_after in Hc1. simpl in Hc1.
    cbn [CTester.inner_loop]. rewrite Hc1.
    destruct (Z.eqb_spec (i + 1) (CTester.InnerIterCount T)) as [E|_];
      [exfalso; apply Hn1; exact E|].
    rewrite (IH fuel j (i + 1) (CTester.timed_optimize env m) l).
    + cbn [after_steps]. unfold best_after. cbn [after_steps].
      do 3 f_equal. lia.
    + lia.
    + exact Hc.
    + intros d' Hd'. destruct (Hbefore (S d')) as [Hc' Hn']; [lia|].
      split; [exact Hc'|]. lia.
Qed.

Lemma inner_loop_reject (n : nat) :
  forall (fuel : nat) (j i : Z) (m : CTester.Mach) (l : CTester.Locals),
  (1 <= n <= fuel)%nat ->
  i + Z.of_nat n = CTester.InnerIterCount T ->
  (forall d, (1 <= d <= n)%nat -> converged_after env T d m = false) ->
  CTester.inner_loop env T fuel j i m l
  = Done (after_steps env n m, record_reject j (best_after env n m) l).
Proof.
  induction n as [|n IH]; intros fuel j i m l [Hn Hf] Hi Hnone; [lia|].
  destruct fuel as [|fuel]; [lia|].
  assert (Hc1 := Hnone 1%nat ltac:(lia)).
  unfold converged_after in Hc1. simpl in Hc1.
  cbn [CTester.inner_loop]. rewrite Hc1.
  destruct n as [|n].
  - replace (i + 1 =? CTester.InnerIterCount T) with true
      by (symmetry; apply Z.eqb_eq; lia).
    reflexivity.
  - replace (i + 1 =? CTester.InnerIterCount T) with false
      by (symmetry; apply Z.eqb_neq; lia).
    rewrite (IH fuel j (i + 1) (CTester.timed_optimize env m) l).
    + reflexivity.
    + lia.
    + lia.
    + intros d Hd. apply (Hnone (S d)). lia.
Qed.

(** Either some step among the first [n] meets the stop condition, and then
    there is a first one, or none does. *)
Lemma first_converged (n : nat) (m : CTester.Mach) :
  (exists s, (1 <= s <= n)%nat /\ converged_after env T s m = true
             /\ forall s', (1 <= s' < s)%nat -> converged_after env T s' m = false)
  \/ (forall s, (1 <= s <= n)%nat -> converged_after env T s m = false).
Proof.
  induction n as [|n [(s & Hs & Hc & Hb)|Hnone]].
  - right. intros s Hs. lia.
  - left. exists s. split; [lia|]. split; assumption.
  - destruct (converged_after env T (S n) m) eqn:E.
    + left. exists (S n). split; [lia|]. split; [exact E|].
      intros s' Hs'. apply Hnone. lia.
    + right. intros s Hs. destruct (Nat.eq_dec s (S n)) as [->|Hne];
        [exact E|apply Hnone; lia].
Qed.

End InnerLoop.

Example inner_loop_sphere :
  CTester.inner_loop Fixtures.env0
    (Fixtures.configure 1 [Some Fixtures.sphere1; None] 0.5%float 1 20 false false)
    20 0 0 Fixtures.mach_sphere (Fixtures.locals0 [42])
  = Done (after_steps Fixtures.env0 4 Fixtures.mach_sphere,
          record_success 0 4 0.390625%float (Fixtures.locals0 [42])).
Proof. vm_compute. reflexivity. Qed.

(** ** The sign vector of a trial (C6) *)

Section Signs.
Context `{Opt : CBEOOptimizerFan}.
Variable env : Env.
Variable T : CTester.t.

Lemma same_view_refl (o : CTestOpt.t) : same_view o o.
Proof. destruct o. reflexivity. Qed.

Lemma same_view_trans (o1 o2 o3 : CTestOpt.t) :
  same_view o1 o2 -> same_view o2 o3 -> same_view o1 o3.
Proof.
  unfold same_view. intros H12 H23. rewrite H23 at 1. rewrite H12 at 1.
  destruct o1. reflexivity.
Qed.

Lemma same_view_signs (o o' : CTestOpt.t) :
  same_view o o' -> CTestOpt.signs o' = CTestOpt.signs o.
Proof. intros ->. reflexivity. Qed.

Lemma same_view_fn (o o' : CTestOpt.t) :
  same_view o o' -> CTestOpt.fn o' = CTestOpt.fn o.
Proof. intros ->. reflexivity. Qed.

Lemma same_view_Dims (o o' : CTestOpt.t) :
  same_view o o' -> CTestOpt.Dims o' = CTestOpt.Dims o.
Proof. intros ->. reflexivity. Qed.

Lemma timed_optimize_view (m : CTester.Mach) :
  same_view (CTester.m_opt m) (CTester.m_opt (CTester.timed_optimize env m))
  /\ CTester.m_calls (CTester.timed_optimize env m)
     = CTester.m_calls m
       ++ [CTester.CallOptimize (CTestOpt.fn (CTester.m_opt m))
             (CTestOpt.signs (CTester.m_opt m)) (best_after env 1 m)].
Proof.
  unfold best_after. cbn [after_steps].
  unfold CTester.timed_optimize, CTestOpt.optimize.
  destruct (base_optimize _ _ _) as [b r]. simpl.
  split; [|reflexivity]. unfold same_view. reflexivity.
Qed.

Lemma after_steps_view (s : nat) (m : CTester.Mach) :
  same_view (CTester.m_opt m) (CTester.m_opt (after_steps env s m))
  /\ CTester.m_calls (after_steps env s m)
     = CTester.m_calls m ++ step_calls env s m.
Proof.
  unfold step_calls.
  revert m. induction s as [|s IH]; intros m.
  - split; [apply same_view_refl|]. simpl. rewrite app_nil_r. reflexivity.
  - destruct (timed_optimize_view m) as [Hv Hc].
    destruct (IH (CTester.timed_optimize env m)) as [Hv' Hc'].
    cbn [after_steps].
    split; [eapply same_view_trans; eassumption|].
    rewrite Hc', Hc, (same_view_signs _ _ Hv), (same_view_fn _ _ Hv), <- app_assoc.
    f_equal. cbn [seq map app]. f_equal.
    rewrite <- (fmap_S_seq 1 s), <- list_fmap_compose. reflexivity.
Qed.

(** Whenever the loop returns, it has made some number [d >= 1] of steps, and
    recorded a success at the first step that met the stop condition or a
    reject at step [InnerIterCount]. *)
Lemma inner_loop_done (fuel : nat) :
  forall (j i : Z) (m m' : CTester.Mach) (l l' : CTester.Locals),
  CTester.inner_loop env T fuel j i m l = Done (m', l') ->
  exists d : nat,
    (1 <= d <= fuel)%nat
    /\ m' = after_steps env d m
    /\ (forall d', (1 <= d' < d)%nat ->
          converged_after env T d' m = false
          /\ i + Z.of_nat d' <> CTester.InnerIterCount T)
    /\ ((converged_after env T d m = true
         /\ l' = record_success j (i + Z.of_nat d) (best_after env d m) l)
        \/ (converged_after env T d m = false
            /\ i + Z.of_nat d = CTester.InnerIterCount T
            /\ l' = record_reject j (best_after env d m) l)).
Proof.
  induction fuel as [|fuel IH]; intros j i m m' l l' Hrun; [discriminate Hrun|].
  cbn [CTester.inner_loop] in Hrun.
  destruct (CTester.converged T (CTester.m_opt (CTester.timed_optimize env m)))
    eqn:Hc.
  - injection Hrun as <- <-. exists 1%nat. split; [lia|]. split; [reflexivity|].
    split; [intros d' Hd'; lia|]. left. split; [exact Hc|reflexivity].
  - destruct (Z.eqb_spec (i + 1) (CTester.InnerIterCount T)) as [E|NE].
    + injection Hrun as <- <-. exists 1%nat. split; [lia|]. split; [reflexivity|].
      split; [intros d' Hd'; lia|]. right. split; [exact Hc|].
      split; [exact E|reflexivity].
    + apply IH in Hrun as (d & Hd & -> & Hb & Hcase).
      exists (S d). split; [lia|]. split; [reflexivity|]. split.
      * intros d' Hd'. destruct d' as [|[|d']]; [lia|split; [exact Hc|lia]|].
        destruct (Hb (S d') ltac:(lia)) as [Hc' Hn']. split; [exact Hc'|lia].
      * replace (i + Z.of_nat (S d)) with (i + 1 + Z.of_nat d) by lia.
        exact Hcase.
Qed.

Lemma draw_signs_spec (Dims : Z) (m : CTester.Mach) :
  length (CTestOpt.signs (CTester.m_opt m)) = Z.to_nat Dims ->
  CTester.draw_signs Dims m
  = {| CTester.m_opt :=
         CTestOpt.set_signs
           (map sign_of_draw (draws (Z.to_nat Dims) (CTester.m_rnd m)).1)
           (CTester.m_opt m);
       CTester.m_rnd := (draws (Z.to_nat Dims) (CTester.m_rnd m)).2;
       CTester.m_clk := CTester.m_clk m;
       CTester.m_tc := CTester.m_tc m;
       CTester.m_calls := CTester.m_calls m |}.
Proof.
  intros Hlen. unfold CTester.draw_signs.
  rewrite (for_lt_draw sign_of_draw Dims) by lia.
  rewrite drop_ge by lia. rewrite app_nil_r. reflexivity.
Qed.

Lemma unit_signs_spec (Dims : Z) (o : CTestOpt.t) :
  length (CTestOpt.signs o) = Z.to_nat Dims ->
  CTester.unit_signs Dims o
  = CTestOpt.set_signs (replicate (Z.to_nat Dims) 1%float) o.
Proof.
  intros Hlen. unfold CTester.unit_signs.
  rewrite (for_lt_write (fun _ => 1%float) Dims) by lia.
  rewrite drop_ge by lia. rewrite app_nil_r, map_const_seq. reflexivity.
Qed.

Lemma init_optimizer_view (m : CTester.Mach) :
  same_view (CTester.m_opt m) (CTester.m_opt (CTester.init_optimizer m))
  /\ CTester.m_calls (CTester.init_optimizer m)
     = CTester.m_calls m ++ [CTester.CallInit (CTestOpt.signs (CTester.m_opt m))].
Proof.
  unfold CTester.init_optimizer, CTestOpt.init.
  destruct (base_init _ _ _) as [b r]. simpl.
  split; [|reflexivity]. unfold same_view. reflexivity.
Qed.

(** A completed trial made [d >= 1] steps from [trial_start T], stopping at the
    first step that met the stop condition or at step [InnerIterCount]. *)
Lemma trial_shape (fuel : nat) (Dims j : Z) (m m' : CTester.Mach)
  (l l' : CTester.Locals) :
  CTester.trial env T fuel Dims j (m, l) = Done (m', l') ->
  exists d : nat,
    (1 <= d)%nat
    /\ m' = after_steps env d (trial_start T Dims m)
    /\ ((converged_after env T d (trial_start T Dims m) = true
         /\ (1 <= CTester.InnerIterCount T -> Z.of_nat d <= CTester.InnerIterCount T)
         /\ l' = record_success j (Z.of_nat d)
                  (best_after env d (trial_start T Dims m)) l)
        \/ (converged_after env T d (trial_start T Dims m) = false
            /\ Z.of_nat d = CTester.InnerIterCount T
            /\ l' = record_reject j (best_after env d (trial_start T Dims m)) l)).
Proof.
  unfold CTester.trial. fold (trial_start T Dims m). intros Hrun.
  apply inner_loop_done in Hrun as (d & Hd & -> & Hb & Hcase).
  exists d. split; [lia|]. split; [reflexivity|].
  destruct Hcase as [[Hc ->]|(Hc & HdN & ->)].
  - left. split; [exact Hc|]. split; [|f_equal].
    intros HN.
    destruct (Z_lt_le_dec (CTester.InnerIterCount T) (Z.of_nat d)) as [Hgt|Hle];
      [|exact Hle].
    exfalso.
    destruct (Hb (Z.to_nat (CTester.InnerIterCount T)) ltac:(lia)) as [_ Hne].
    lia.
  - right. split; [exact Hc|]. split; [lia|reflexivity].
Qed.

Lemma draw_signs_view (Dims : Z) (m : CTester.Mach) :
  CTestOpt.fn (CTester.m_opt (CTester.draw_signs Dims m))
    = CTestOpt.fn (CTester.m_opt m)
  /\ CTester.m_calls (CTester.draw_signs Dims m) = CTester.m_calls m
  /\ CTester.m_clk (CTester.draw_signs Dims m) = CTester.m_clk m
  /\ CTester.m_tc (CTester.draw_signs Dims m) = CTester.m_tc m.
Proof.
  unfold CTester.draw_signs. destruct (for_lt _ _ _) as [s r]. auto.
Qed.

Lemma trial_start_fn (Dims : Z) (m : CTester.Mach) :
  CTestOpt.fn (CTester.m_opt (trial_start T Dims m)) = CTestOpt.fn (CTester.m_opt m).
Proof.
  unfold trial_start.
  destruct (init_optimizer_view
    (if CTester.DoRandomize T then CTester.draw_signs Dims m else m)) as [Hv _].
  rewrite (same_view_fn _ _ Hv).
  destruct (CTester.DoRandomize T); [apply draw_signs_view|reflexivity].
Qed.

Lemma trial_start_signs (Dims : Z) (m : CTester.Mach) :
  length (CTestOpt.signs (CTester.m_opt m)) = Z.to_nat Dims ->
  CTestOpt.signs (CTester.m_opt (trial_start T Dims m)) = trial_signs T Dims m.
Proof.
  intros Hlen. unfold trial_start, trial_signs.
  destruct (init_optimizer_view
    (if CTester.DoRandomize T then CTester.draw_signs Dims m else m)) as [Hv _].
  rewrite (same_view_signs _ _ Hv).
  destruct (CTester.DoRandomize T); [|reflexivity].
  rewrite (draw_signs_spec Dims m Hlen). reflexivity.
Qed.

(** The calls a trial adds to the log, whatever the signs. *)
Lemma trial_log (fuel : nat) (Dims j : Z) (m m' : CTester.Mach)
  (l l' : CTester.Locals) (d : nat) :
  m' = after_steps env d (trial_start T Dims m) ->
  CTester.m_calls m'
  = CTester.m_calls m
    ++ CTester.CallInit
         (CTestOpt.signs
            (CTester.m_opt
               (if CTester.DoRandomize T then CTester.draw_signs Dims m else m)))
       :: step_calls env d (trial_start T Dims m).
Proof.
  intros ->.
  destruct (after_steps_view d (trial_start T Dims m)) as [_ Hc]. rewrite Hc.
  unfold trial_start at 1.
  destruct (init_optimizer_view
    (if CTester.DoRandomize T then CTester.draw_signs Dims m else m)) as [_ Hc0].
  rewrite Hc0, <- app_assoc.
  destruct (CTester.DoRandomize T); [|reflexivity].
  destruct (draw_signs_view Dims m) as (_ & -> & _). reflexivity.
Qed.

Lemma trial_calls (fuel : nat) (Dims j : Z) (m m' : CTester.Mach)
  (l l' : CTester.Locals) :
  length (CTestOpt.signs (CTester.m_opt m)) = Z.to_nat Dims ->
  CTester.trial env T fuel Dims j (m, l) = Done (m', l') ->
  exists costs : list double,
    CTester.m_calls m'
    = CTester.m_calls m
      ++ CTester.CallInit (trial_signs T Dims m)
         :: map (CTester.CallOptimize (CTestOpt.fn (CTester.m_opt m))
                   (trial_signs T Dims m)) costs
    /\ CTestOpt.signs (CTester.m_opt m') = trial_signs T Dims m
    /\ CTestOpt.fn (CTester.m_opt m') = CTestOpt.fn (CTester.m_opt m).
Proof.
  intros Hlen Hrun.
  apply trial_shape in Hrun as (d & _ & Hm' & _).
  exists (map (fun k => best_after env k (trial_start T Dims m)) (seq 1 d)).
  rewrite (trial_log fuel Dims j m m' l l' d Hm').
  destruct (after_steps_view d (trial_start T Dims m)) as [Hv _].
  rewrite Hm', (same_view_signs _ _ Hv), (same_view_fn _ _ Hv).
  rewrite (trial_start_signs Dims m Hlen), trial_start_fn.
  split; [|split; reflexivity].
  f_equal. f_equal.
  - unfold trial_signs. destruct (CTester.DoRandomize T); [|reflexivity].
    rewrite (draw_signs_spec Dims m Hlen). reflexivity.
  - unfold step_calls.
    rewrite (trial_start_signs Dims m Hlen), trial_start_fn, <- list_fmap_compose.
    reflexivity.
Qed.

End Signs.

(** ** The classification of a trial (C1) *)

Section Classification.
Context `{Opt : CBEOOptimizerFan}.
Variable env : Env.
Variable T : CTester.t.

(** The stop condition of lines 234-235 is the comparison of the spec, on the
    best cost after the step and the optimum of the function of the trial. *)
Lemma converged_after_threshold (s : nat) (m : CTester.Mach) :
  converged_after env T s m
  = within_threshold T (CTestOpt.fn (CTester.m_opt m)) (best_after env s m).
Proof.
  unfold converged_after, CTester.converged, within_threshold, best_after.
  destruct (after_steps_view env s m) as [Hview _].
  rewrite (same_view_fn _ _ Hview). reflexivity.
Qed.

(** C1, for [InnerIterCount >= 1].  The loop of trial [j] on the function [f]
    always ends, in one of two ways.  Success: [s] is the first step among
    [1 .. InnerIterCount] after which the best cost minus the known optimum
    of [f] is strictly less than [CostThreshold]; the loop stops there,
    [Iters[j] = s], [s] is added to [AvgIter] and the best cost to [AvgCost].
    Reject: after no step among [1 .. InnerIterCount] is the best cost minus
    the optimum less than the threshold; the loop stops after step
    [InnerIterCount], [Iters[j] = -1], the best cost is added to [AvgRjCost]
    and [Rej] grows by one. *)
Theorem inner_loop_classifies (fuel : nat) (j : Z) (m : CTester.Mach)
  (l : CTester.Locals) :
  let f := CTestOpt.fn (CTester.m_opt m) in
  1 <= CTester.InnerIterCount T ->
  (Z.to_nat (CTester.InnerIterCount T) <= fuel)%nat ->
  (exists s : nat,
     1 <= Z.of_nat s <= CTester.InnerIterCount T
     /\ within_threshold T f (best_after env s m) = true
     /\ (forall s', (1 <= s' < s)%nat ->
           within_threshold T f (best_after env s' m) = false)
     /\ CTester.inner_loop env T fuel j 0 m l
        = Done (after_steps env s m,
                record_success j (Z.of_nat s) (best_after env s m) l))
  \/ ((forall s : nat, 1 <= Z.of_nat s <= CTester.InnerIterCount T ->
         within_threshold T f (best_after env s m) = false)
      /\ CTester.inner_loop env T fuel j 0 m l
         = Done (after_steps env (Z.to_nat (CTester.InnerIterCount T)) m,
                 record_reject j
                   (best_after env (Z.to_nat (CTester.InnerIterCount T)) m) l)).
Proof.
  intros f HN Hfuel. unfold f.
  destruct (first_converged env T (Z.to_nat (CTester.InnerIterCount T)) m)
    as [(s & Hs & Hc & Hb)|Hnone].
  - left. exists s. split; [lia|].
    split; [rewrite <- converged_after_threshold; exact Hc|].
    split; [intros s' Hs'; rewrite <- converged_after_threshold; apply Hb; exact Hs'|].
    rewrite (inner_loop_success env T s fuel j 0 m l); [reflexivity|lia|exact Hc|].
    intros d' Hd'. split; [apply Hb; exact Hd'|lia].
  - right. split.
    + intros s Hs. rewrite <- converged_after_threshold. apply Hnone. lia.
    + apply inner_loop_reject; [lia|lia|exact Hnone].
Qed.

End Classification.

Lemma inner_loop_classifies_witness :
  let T := Fixtures.configure 1 [Some Fixtures.sphere1; None] 0.5%float 1 20 false false in
  let m := Fixtures.mach_sphere in
  let l := Fixtures.locals0 [42] in
  1 <= CTester.InnerIterCount T
  /\ (Z.to_nat (CTester.InnerIterCount T) <= 20)%nat
  /\ exists m' l', CTester.inner_loop Fixtures.env0 T 20 0 0 m l = Done (m', l').
Proof.
  intros T m l. split; [simpl; lia|]. split; [simpl; lia|].
  destruct (inner_loop_classifies Fixtures.env0 T 20 0 m l)
    as [(s & _ & _ & _ & E)|[_ E]].
  - simpl. lia.
  - simpl. lia.
  - eexists _, _. exact E.
  - eexists _, _. exact E.
Defined.

(** Without the bound on [InnerIterCount]: with [InnerIterCount = 0] the
    trial on [sphere1] is classified a success at step 1 (best cost 25,
    threshold 1000), although no step lies in [1 .. InnerIterCount]. *)
Lemma success_outside_step_range :
  let T := Fixtures.configure 1 [Some Fixtures.sphere1; None] 1000%float 1 0
             false false in
  let m := Fixtures.mach_sphere in
  let l := Fixtures.locals0 [42] in
  CTester.inner_loop Fixtures.env0 T 5 0 0 m l
  = Done (after_steps Fixtures.env0 1 m, record_success 0 1 25%float l)
  /\ ~ (exists s : nat,
          1 <= Z.of_nat s <= CTester.InnerIterCount T
          /\ within_threshold T Fixtures.sphere1 (best_after Fixtures.env0 s m)
             = true).
Proof.
  intros T m l. split; [vm_compute; reflexivity|].
  intros (s & Hs & _). cbn in Hs. lia.
Qed.

(** ** One function of the corpus *)

Section PerFunction.
Context `{Opt : CBEOOptimizerFan}.
Variable env : Env.
Variable T : CTester.t.

Lemma run_fn_unfold (fuel : nat) (k : Z) (a : CTester.Acc) :
  CTester.run_fn env T fuel k a
  = match CTester.Funcs T !! Z.to_nat k with
    | Some (Some f) =>
      o ← CTestOpt.updateDims env (resolve_dims T f) 0
            (CTestOpt.set_fn f (CTester.m_opt (CTester.a_mach a)));
      ml ← for_ltM (CTester.IterCount T)
             (CTester.trial env T fuel (resolve_dims T f)) (fn_entry T a f o);
      Done (fn_exit T a f ml)
    | _ => Throw null_dereference
    end.
Proof.
  unfold CTester.run_fn.
  destruct (CTester.Funcs T !! Z.to_nat k) as [[f|]|]; try reflexivity.
  fold (resolve_dims T f).
  destruct (CTestOpt.updateDims env (resolve_dims T f) 0 _) as [o| |];
    try reflexivity.
  cbn [mbind res_bind]. fold (fn_entry T a f o).
  destruct (for_ltM _ _ (fn_entry T a f o)) as [[m l]| |]; try reflexivity.
  cbn [mbind res_bind]. unfold fn_exit, fn_line, stats_of. cbn [fst snd].
  destruct (CTester.IterCount T <=? CTester.Rej l); reflexivity.
Qed.

Lemma updateDims_done (D : Z) (o o1 : CTestOpt.t) :
  CTestOpt.updateDims env D 0 o = Done o1 ->
  0 <= D
  /\ o1 = CTestOpt.mk (CTestOpt.fn o) (CTestOpt.DoRandomize o) D
            (replicate (Z.to_nat D) (indet_double env))
            (replicate (Z.to_nat D) (indet_double env))
            (base_updateDims D 0 (CTestOpt.base o)).
Proof.
  unfold CTestOpt.updateDims, new_array.
  destruct (Z.ltb_spec D 0) as [Hneg|Hpos]; [discriminate|].
  cbn [mbind res_bind]. intros Hd. injection Hd as <-. split; [lia|reflexivity].
Qed.

(** What a completed pass over one function consists of. *)
Lemma run_fn_done (fuel : nat) (k : Z) (a a' : CTester.Acc) :
  CTester.run_fn env T fuel k a = Done a' ->
  exists f o ml,
    CTester.Funcs T !! Z.to_nat k = Some (Some f)
    /\ CTestOpt.updateDims env (resolve_dims T f) 0
         (CTestOpt.set_fn f (CTester.m_opt (CTester.a_mach a))) = Done o
    /\ for_ltM (CTester.IterCount T)
         (CTester.trial env T fuel (resolve_dims T f)) (fn_entry T a f o) = Done ml
    /\ a' = fn_exit T a f ml.
Proof.
  rewrite run_fn_unfold.
  destruct (CTester.Funcs T !! Z.to_nat k) as [[f|]|]; try discriminate.
  destruct (CTestOpt.updateDims env (resolve_dims T f) 0 _) as [o| |] eqn:Hu;
    try discriminate.
  cbn [mbind res_bind].
  destruct (for_ltM _ _ (fn_entry T a f o)) as [ml| |] eqn:Hl; try discriminate.
  cbn [mbind res_bind]. intros Hd. injection Hd as <-.
  exists f, o, ml. auto.
Qed.

End PerFunction.

Section SignsPerFunction.
Context `{Opt : CBEOOptimizerFan}.
Variable env : Env.
Variable T : CTester.t.

Lemma optcost_spec (o : CTestOpt.t) (p : list double) :
  length p = Z.to_nat (CTestOpt.Dims o) ->
  length (CTestOpt.signs o) = Z.to_nat (CTestOpt.Dims o) ->
  length (CTestOpt.tp o) = Z.to_nat (CTestOpt.Dims o) ->
  CTestOpt.optcost o p
  = CTestFn.Calc (CTestOpt.fn o)
      (zip_with PrimFloat.mul p (CTestOpt.signs o)) (CTestOpt.Dims o).
Proof.
  intros Hp Hs Ht. unfold CTestOpt.optcost, CTestOpt.optcost_tp.
  rewrite (for_lt_write
             (fun k => (p !!! k * CTestOpt.signs o !!! k)%float)) by lia.
  rewrite drop_ge by lia. rewrite app_nil_r, <- Hp.
  rewrite map_lookup_total_seq by lia. reflexivity.
Qed.

Lemma trials_unit_signs (fuel : nat) (D : Z) (m m' : CTester.Mach)
  (l l' : CTester.Locals) :
  CTester.DoRandomize T = false ->
  CTestOpt.signs (CTester.m_opt m) = replicate (Z.to_nat D) 1%float ->
  for_ltM (CTester.IterCount T) (CTester.trial env T fuel D) (m, l)
    = Done (m', l') ->
  CTestOpt.signs (CTester.m_opt m') = replicate (Z.to_nat D) 1%float
  /\ exists cs, CTester.m_calls m' = CTester.m_calls m ++ cs
                /\ Forall (uses_signs (replicate (Z.to_nat D) 1%float)) cs.
Proof.
  intros Hnr Hs Hrun. unfold for_ltM in Hrun.
  apply (for_loopM_inv
    (fun _ ml =>
       CTestOpt.signs (CTester.m_opt ml.1) = replicate (Z.to_nat D) 1%float
       /\ exists cs, CTester.m_calls ml.1 = CTester.m_calls m ++ cs
                     /\ Forall (uses_signs (replicate (Z.to_nat D) 1%float)) cs))
    in Hrun.
  - exact Hrun.
  - split; [exact Hs|]. exists []. rewrite app_nil_r. split; [reflexivity|].
    constructor.
  - intros j [m1 l1] [m2 l2] _ [Hs1 (cs & Hc & Hall)] Hstep. cbn [fst] in *.
    apply trial_calls in Hstep as (costs & Hcalls & Hsigns & _).
    + unfold trial_signs in *. rewrite Hnr in *.
      split; [congruence|].
      exists (cs ++ CTester.CallInit (replicate (Z.to_nat D) 1%float)
                 :: map (CTester.CallOptimize (CTestOpt.fn (CTester.m_opt m1))
                           (replicate (Z.to_nat D) 1%float)) costs).
      split.
      * rewrite Hcalls, Hc, Hs1, <- app_assoc. reflexivity.
      * apply Forall_app. split; [exact Hall|].
        constructor; [left; reflexivity|].
        apply Forall_fmap, Forall_forall. intros c _. right. eauto.
    + rewrite Hs1, length_replicate. reflexivity.
Qed.

(** C6. (1) A trial entered with a sign buffer of [Dims] entries makes all
    its optimizer calls - the initialisation and every step - with one sign
    vector: with randomization, the vector whose [i]-th entry is [+1] when the
    [i]-th of [Dims] successive draws made at the start of the trial is below
    0.5 and [-1] otherwise; without it, the vector the trial was entered with.
    (2) Without randomization, every optimizer call made for a function uses
    the all [+1] vector.  (3) The objective returns the function's cost at the
    vector whose [i]-th entry is [p[i] * signs[i]]. *)
Theorem sign_vector_fixed :
  (forall (fuel : nat) (Dims j : Z) (m m' : CTester.Mach) (l l' : CTester.Locals),
     length (CTestOpt.signs (CTester.m_opt m)) = Z.to_nat Dims ->
     CTester.trial env T fuel Dims j (m, l) = Done (m', l') ->
     let s :=
       if CTester.DoRandomize T then
         map sign_of_draw (draws (Z.to_nat Dims) (CTester.m_rnd m)).1
       else CTestOpt.signs (CTester.m_opt m) in
     CTestOpt.signs (CTester.m_opt m') = s
     /\ exists costs : list double,
          CTester.m_calls m'
          = CTester.m_calls m
            ++ CTester.CallInit s
               :: map (CTester.CallOptimize (CTestOpt.fn (CTester.m_opt m)) s) costs)
  /\ (forall (fuel : nat) (k : Z) (a a' : CTester.Acc),
        CTester.DoRandomize T = false ->
        CTester.run_fn env T fuel k a = Done a' ->
        exists f cs,
          CTester.Funcs T !! Z.to_nat k = Some (Some f)
          /\ CTester.m_calls (CTester.a_mach a')
             = CTester.m_calls (CTester.a_mach a)
               ++ CTester.CallUpdateDims (resolve_dims T f) :: cs
          /\ Forall (uses_signs (replicate (Z.to_nat (resolve_dims T f)) 1%float))
               cs)
  /\ (forall (o : CTestOpt.t) (p : list double),
        length p = Z.to_nat (CTestOpt.Dims o) ->
        length (CTestOpt.signs o) = Z.to_nat (CTestOpt.Dims o) ->
        length (CTestOpt.tp o) = Z.to_nat (CTestOpt.Dims o) ->
        CTestOpt.optcost o p
        = CTestFn.Calc (CTestOpt.fn o)
            (zip_with PrimFloat.mul p (CTestOpt.signs o)) (CTestOpt.Dims o)).
Proof.
  split; [|split].
  - intros fuel Dims j m m' l l' Hlen Hrun s.
    destruct (trial_calls env T fuel Dims j m m' l l' Hlen Hrun)
      as (costs & Hcalls & Hsigns & _).
    split; [exact Hsigns|]. exists costs. exact Hcalls.
  - intros fuel k a a' Hnr Hrun.
    apply run_fn_done in Hrun as (f & o & [m l] & Hf & Hu & Hl & ->).
    apply updateDims_done in Hu as [HD ->].
    exists f. unfold fn_entry in Hl. rewrite Hnr in Hl. cbn [negb] in Hl.
    rewrite unit_signs_spec in Hl by (simpl; rewrite length_replicate; reflexivity).
    apply trials_unit_signs in Hl as [_ (cs & Hc & Hall)];
      [|exact Hnr|reflexivity].
    exists cs. split; [exact Hf|]. split; [|exact Hall].
    simpl. rewrite Hc. simpl. rewrite <- app_assoc. reflexivity.
  - exact optcost_spec.
Qed.

End SignsPerFunction.

(** ** The trials of one function *)

Section Trials.
Context `{Opt : CBEOOptimizerFan}.
Variable env : Env.
Variable T : CTester.t.

(** A completed trial recorded a success at some step [s >= 1] (at most
    [InnerIterCount] when that is positive), or a reject. *)
Lemma trial_done (fuel : nat) (Dims j : Z) (m m' : CTester.Mach)
  (l l' : CTester.Locals) :
  CTester.trial env T fuel Dims j (m, l) = Done (m', l') ->
  exists (s : Z) (best : double),
    (CTester.converged T (CTester.m_opt m') = true
     /\ 1 <= s /\ (1 <= CTester.InnerIterCount T -> s <= CTester.InnerIterCount T)
     /\ l' = record_success j s best l)
    \/ (CTester.converged T (CTester.m_opt m') = false
        /\ l' = record_reject j best l).
Proof.
  intros Hrun.
  apply trial_shape in Hrun as (d & Hd & -> & Hcase).
  exists (Z.of_nat d), (best_after env d (trial_start T Dims m)).
  destruct Hcase as [(Hc & HdN & ->)|(Hc & _ & ->)].
  - left. split; [exact Hc|]. split; [lia|]. split; [exact HdN|reflexivity].
  - right. split; [exact Hc|reflexivity].
Qed.

Lemma trial_total (fuel : nat) (Dims j : Z) (m : CTester.Mach) (l : CTester.Locals) :
  1 <= CTester.InnerIterCount T ->
  (Z.to_nat (CTester.InnerIterCount T) <= fuel)%nat ->
  exists ml', CTester.trial env T fuel Dims j (m, l) = Done ml'.
Proof.
  intros HN Hfuel. unfold CTester.trial. fold (trial_start T Dims m).
  destruct (first_converged env T (Z.to_nat (CTester.InnerIterCount T))
              (trial_start T Dims m)) as [(s & Hs & Hc & Hb)|Hnone].
  - rewrite (inner_loop_success env T s fuel j 0 (trial_start T Dims m) l);
      [eexists; reflexivity|lia|exact Hc|].
    intros d' Hd'. split; [apply Hb; exact Hd'|lia].
  - rewrite (inner_loop_reject env T (Z.to_nat (CTester.InnerIterCount T)) fuel j 0
               (trial_start T Dims m) l); [eexists; reflexivity|lia|lia|exact Hnone].
Qed.

Lemma take_insert_snoc {A : Type} (l : list A) (j : nat) (v : A) :
  (j < length l)%nat -> take (S j) (<[j := v]> l) = take j l ++ [v].
Proof.
  intros Hj. rewrite (take_S_r (<[j := v]> l) j v)
    by (apply list_lookup_insert_eq; exact Hj).
  rewrite take_insert_ge by lia. reflexivity.
Qed.

Lemma trials_inv_step (j : Z) (l l' : CTester.Locals) (s : Z) (best : double) :
  0 <= j < CTester.IterCount T ->
  trials_inv T j l ->
  (1 <= s /\ (1 <= CTester.InnerIterCount T -> s <= CTester.InnerIterCount T)
   /\ l' = record_success j s best l)
  \/ l' = record_reject j best l ->
  trials_inv T (j + 1) l'.
Proof.
  intros Hj (Hlen & Hall & Hrej & Hrj0 & Hsucc0) Hcase.
  assert (Hjn : (Z.to_nat j < length (CTester.Iters l))%nat) by lia.
  assert (Hcount : Z.of_nat (length (filter (fun x => x = -1)
                     (take (Z.to_nat j) (CTester.Iters l)))) <= j).
  { pose proof (length_filter (fun x => x = -1)
                  (take (Z.to_nat j) (CTester.Iters l))) as Hf.
    rewrite length_take in Hf. lia. }
  unfold trials_inv.
  replace (Z.to_nat (j + 1)) with (S (Z.to_nat j)) by lia.
  destruct Hcase as [(Hs1 & Hs2 & ->)| ->]; cbn [record_success record_reject
    CTester.Iters CTester.Rej CTester.AvgRjCost CTester.AvgCost CTester.AvgIter];
    rewrite length_insert, take_insert_snoc by exact Hjn;
    rewrite filter_app, length_app.
  - rewrite filter_cons_False, filter_nil by lia.
    split; [exact Hlen|]. split; [|split; [|split]].
    + apply Forall_app. split; [exact Hall|]. constructor; [|constructor].
      right. split; assumption.
    + simpl. lia.
    + exact Hrj0.
    + intros Heq. lia.
  - rewrite filter_cons_True, filter_nil by reflexivity.
    split; [exact Hlen|]. split; [|split; [|split]].
    + apply Forall_app. split; [exact Hall|]. constructor; [|constructor].
      left. reflexivity.
    + simpl. lia.
    + intros Heq. lia.
    + intros Heq. apply Hsucc0. lia.
Qed.

Lemma trials_inv_loop (fuel : nat) (Dims : Z) (m m' : CTester.Mach)
  (l l' : CTester.Locals) :
  0 <= CTester.IterCount T ->
  trials_inv T 0 l ->
  for_ltM (CTester.IterCount T) (CTester.trial env T fuel Dims) (m, l)
    = Done (m', l') ->
  trials_inv T (CTester.IterCount T) l'.
Proof.
  intros HK Hinv Hrun. unfold for_ltM in Hrun.
  apply (for_loopM_inv (fun j ml => trials_inv T j ml.2)) in Hrun.
  - cbn [snd] in Hrun. rewrite Z2Nat.id in Hrun by lia. exact Hrun.
  - exact Hinv.
  - intros j [m1 l1] [m2 l2] Hj Hinv1 Hstep. cbn [snd] in *.
    apply trial_done in Hstep as (s & best & Hcase).
    apply (trials_inv_step j l1 l2 s best); [lia|exact Hinv1|].
    destruct Hcase as [(_ & Hs1 & Hs2 & ->)|[_ ->]]; [left|right]; auto.
Qed.

Lemma trials_total (fuel : nat) (Dims : Z) (ml : CTester.Mach * CTester.Locals) :
  1 <= CTester.InnerIterCount T ->
  (Z.to_nat (CTester.InnerIterCount T) <= fuel)%nat ->
  exists ml',
    for_ltM (CTester.IterCount T) (CTester.trial env T fuel Dims) ml = Done ml'.
Proof.
  intros HN Hfuel. unfold for_ltM.
  destruct (for_loopM_total (fun _ _ => True)
              (CTester.trial env T fuel Dims)
              (Z.to_nat (CTester.IterCount T)) 0 ml I) as (ml' & Hrun & _).
  - intros j [m l] _ _.
    destruct (trial_total fuel Dims j m l HN Hfuel) as (x & Hx).
    exists x. split; [exact Hx|exact I].
  - exists ml'. exact Hrun.
Qed.

End Trials.

(** ** The whole run *)

Section Run.
Context `{Opt : CBEOOptimizerFan}.
Variable env : Env.
Variable T : CTester.t.

Lemma run_unfold (fuel : nat) (r : RndState) (clk : nat) :
  CTester.run env T fuel r clk
  = (Iters0 ← new_array (CTester.IterCount T) (indet_int env);
     a ← for_ltM (CTester.FnCount T) (CTester.run_fn env T fuel) (acc0 T r clk Iters0);
     Done (finish T a)).
Proof. reflexivity. Qed.

Lemma run_done (fuel : nat) (r : RndState) (clk : nat) (out : CTester.Outcome) :
  CTester.run env T fuel r clk = Done out ->
  0 <= CTester.IterCount T
  /\ exists a,
       for_ltM (CTester.FnCount T) (CTester.run_fn env T fuel)
         (acc0 T r clk (replicate (Z.to_nat (CTester.IterCount T)) (indet_int env)))
       = Done a
       /\ out = finish T a.
Proof.
  rewrite run_unfold. unfold new_array.
  destruct (Z.ltb_spec (CTester.IterCount T) 0) as [Hneg|Hpos]; [discriminate|].
  cbn [mbind res_bind].
  destruct (for_ltM _ _ _) as [a| |] eqn:Hl; try discriminate.
  cbn [mbind res_bind]. intros Hd. injection Hd as <-.
  split; [exact Hpos|]. exists a. auto.
Qed.

(** The locals on entry to the first trial satisfy the invariant. *)
Lemma trials_inv_entry (a : CTester.Acc) (f : CTestFn.t) (o : CTestOpt.t) :
  length (CTester.a_Iters a) = Z.to_nat (CTester.IterCount T) ->
  trials_inv T 0 (fn_entry T a f o).2.
Proof.
  intros Hlen. unfold trials_inv, fn_entry. cbn [snd CTester.Iters CTester.Rej
    CTester.AvgRjCost CTester.AvgCost CTester.AvgIter].
  rewrite take_0. split; [exact Hlen|]. split; [constructor|].
  split; [reflexivity|]. split; [reflexivity|]. split; reflexivity.
Qed.

(** A property of the locals after the last trial of any function of the
    corpus holds of every entry of the statistics [run] computed. *)
Lemma run_stats_Forall (Q : CTester.FunctionStats -> Prop) (fuel : nat)
  (r : RndState) (clk : nat) (out : CTester.Outcome) :
  (forall k a f o m l,
     0 <= k < CTester.FnCount T ->
     CTester.Funcs T !! Z.to_nat k = Some (Some f) ->
     length (CTester.a_Iters a) = Z.to_nat (CTester.IterCount T) ->
     CTestOpt.updateDims env (resolve_dims T f) 0
       (CTestOpt.set_fn f (CTester.m_opt (CTester.a_mach a))) = Done o ->
     for_ltM (CTester.IterCount T)
       (CTester.trial env T fuel (resolve_dims T f)) (fn_entry T a f o)
     = Done (m, l) ->
     trials_inv T (CTester.IterCount T) l ->
     Q (stats_of T l)) ->
  CTester.run env T fuel r clk = Done out ->
  Forall Q (CTester.o_stats out)
  /\ Z.of_nat (length (CTester.o_stats out)) = Z.max 0 (CTester.FnCount T).
Proof.
  intros HQ Hrun. apply run_done in Hrun as (HK & a & Hloop & ->).
  cbn [finish CTester.o_stats]. unfold for_ltM in Hloop.
  apply (for_loopM_inv
    (fun k a =>
       length (CTester.a_Iters a) = Z.to_nat (CTester.IterCount T)
       /\ Forall Q (CTester.a_stats a)
       /\ Z.of_nat (length (CTester.a_stats a)) = k)) in Hloop.
  - destruct Hloop as (_ & Hall & Hlen). split; [exact Hall|]. lia.
  - cbn [acc0 CTester.a_Iters CTester.a_stats].
    rewrite length_replicate. split; [reflexivity|]. split; [constructor|reflexivity].
  - intros k a1 a2 Hk (Hlen & Hall & Hn) Hstep.
    apply run_fn_done in Hstep as (f & o & [m l] & Hf & Hu & Hl & ->).
    pose proof (trials_inv_loop env T fuel _ _ _ _ _ HK
                  (trials_inv_entry a1 f o Hlen) Hl) as Hinv.
    cbn [fn_exit CTester.a_Iters CTester.a_stats fst snd].
    split; [apply Hinv|]. split.
    + apply Forall_app. split; [exact Hall|]. constructor; [|constructor].
      apply (HQ k a1 f o m l); try assumption. lia.
    + rewrite length_app. simpl. lia.
Qed.

(** The corpus entries below [FnCount] are functions when [FnCount] was
    counted by [init]. *)
Lemma funcs_lookup (Corpus : list (option CTestFn.t)) (k : nat) :
  Z.of_nat k < CTester.count_until_null Corpus ->
  exists f, Corpus !! k = Some (Some f).
Proof.
  revert k. induction Corpus as [|[f|] Corpus IH]; intros k Hk;
    cbn [CTester.count_until_null] in Hk; try lia.
  destruct k as [|k]; [exists f; reflexivity|].
  apply IH. lia.
Qed.

Lemma count_until_null_nonneg (Corpus : list (option CTestFn.t)) :
  0 <= CTester.count_until_null Corpus.
Proof.
  induction Corpus as [|[f|] Corpus IH]; cbn [CTester.count_until_null]; lia.
Qed.

Lemma run_fn_total (fuel : nat) (k : Z) (a : CTester.Acc) :
  valid_config T ->
  (Z.to_nat (CTester.InnerIterCount T) <= fuel)%nat ->
  0 <= k < CTester.FnCount T ->
  exists a', CTester.run_fn env T fuel k a = Done a'.
Proof.
  intros (Hcount & HK & HN & Hdims) Hfuel Hk.
  rewrite run_fn_unfold.
  destruct (funcs_lookup (CTester.Funcs T) (Z.to_nat k) ltac:(lia)) as [f Hf].
  rewrite Hf.
  assert (HD : 0 <= resolve_dims T f) by (apply (Hdims (Z.to_nat k)); [exact Hf|lia]).
  unfold CTestOpt.updateDims, new_array.
  destruct (Z.ltb_spec (resolve_dims T f) 0) as [Hneg|_]; [lia|].
  cbn [mbind res_bind].
  destruct (trials_total env T fuel (resolve_dims T f)
              (fn_entry T a f
                 (CTestOpt.mk
                    (CTestOpt.fn (CTestOpt.set_fn f (CTester.m_opt (CTester.a_mach a))))
                    (CTestOpt.DoRandomize
                       (CTestOpt.set_fn f (CTester.m_opt (CTester.a_mach a))))
                    (resolve_dims T f)
                    (replicate (Z.to_nat (resolve_dims T f)) (indet_double env))
                    (replicate (Z.to_nat (resolve_dims T f)) (indet_double env))
                    (base_updateDims (resolve_dims T f) 0
                       (CTestOpt.base
                          (CTestOpt.set_fn f (CTester.m_opt (CTester.a_mach a)))))))
              HN Hfuel) as (ml & Hml).
  rewrite Hml. cbn [mbind res_bind]. eexists. reflexivity.
Qed.

(** With a valid configuration and enough fuel for one trial, [run] returns. *)
Lemma run_total (fuel : nat) (r : RndState) (clk : nat) :
  valid_config T ->
  (Z.to_nat (CTester.InnerIterCount T) <= fuel)%nat ->
  exists out, CTester.run env T fuel r clk = Done out.
Proof.
  intros Hv Hfuel. pose proof Hv as (Hcount & HK & HN & Hdims).
  rewrite run_unfold. unfold new_array.
  destruct (Z.ltb_spec (CTester.IterCount T) 0) as [Hneg|_]; [lia|].
  cbn [mbind res_bind]. unfold for_ltM.
  destruct (for_loopM_total (fun _ _ => True) (CTester.run_fn env T fuel)
              (Z.to_nat (CTester.FnCount T)) 0
              (acc0 T r clk (replicate (Z.to_nat (CTester.IterCount T)) (indet_int env)))
              I) as (a & Ha & _).
  - intros k a Hk _.
    destruct (run_fn_total fuel k a Hv Hfuel ltac:(lia)) as (a' & Ha').
    exists a'. split; [exact Ha'|exact I].
  - rewrite Ha. cbn [mbind res_bind]. eexists. reflexivity.
Qed.

End Run.

(** ** Counting the outcomes of the trials *)

Lemma successes_rejects (N : Z) (its : list Z) :
  Forall (fun x => x = -1 \/ 1 <= x <= N) its ->
  (length (successes its) + length (rejects its) = length its)%nat.
Proof.
  unfold successes, rejects.
  induction 1 as [|x its [->|[Hx _]] _ IH].
  - reflexivity.
  - rewrite filter_cons_False, filter_cons_True by lia. simpl. lia.
  - rewrite filter_cons_True, filter_cons_False by lia. simpl. lia.
Qed.

Section Counting.
Context `{Opt : CBEOOptimizerFan}.
Variable env : Env.
Variable T : CTester.t.

Lemma outcomes_counted_stats (l : CTester.Locals) :
  1 <= CTester.IterCount T < 2 ^ 31 ->
  1 <= CTester.InnerIterCount T ->
  trials_inv T (CTester.IterCount T) l ->
  outcomes_counted T (stats_of T l).
Proof.
  intros HK HN (Hlen & Hall & Hrej & _ & _).
  unfold outcomes_counted, stats_of.
  cbn [CTester.iterations CTester.rejectCount CTester.rejectRate].
  set (its := take (Z.to_nat (CTester.IterCount T)) (CTester.Iters l)) in *.
  assert (Hlits : length its = Z.to_nat (CTester.IterCount T)).
  { unfold its. rewrite length_take. lia. }
  assert (Hall' : Forall (fun x => x = -1 \/ 1 <= x <= CTester.InnerIterCount T) its).
  { eapply Forall_impl; [exact Hall|]. intros x [->|[H1 H2]]; [left; reflexivity|].
    right. split; [exact H1|]. apply H2. exact HN. }
  pose proof (successes_rejects _ its Hall') as Hsum.
  split; [lia|]. split; [exact Hall'|]. split; [exact Hrej|].
  fold (rejects its) in Hrej. split; [lia|].
  apply ratio_bounds; lia.
Qed.

End Counting.

(** ** Total failure and the sentinel (C4) *)

Section Sentinel.
Context `{Opt : CBEOOptimizerFan}.
Variable env : Env.
Variable T : CTester.t.

Lemma converged_after_log (d : nat) (m : CTester.Mach) :
  (1 <= d)%nat ->
  Forall (stays_above T) (step_calls env d m) ->
  converged_after env T d m = false.
Proof.
  intros Hd Hall. unfold step_calls in Hall.
  rewrite Forall_fmap, Forall_forall in Hall.
  specialize (Hall d ltac:(apply elem_of_seq; lia)). cbn in Hall.
  unfold converged_after, CTester.converged.
  destruct (after_steps_view env d m) as [Hv _].
  rewrite (same_view_fn _ _ Hv). exact Hall.
Qed.

Lemma trial_rejected (fuel : nat) (Dims j : Z) (m m' : CTester.Mach)
  (l l' : CTester.Locals) :
  CTester.trial env T fuel Dims j (m, l) = Done (m', l') ->
  exists cs,
    CTester.m_calls m' = CTester.m_calls m ++ cs
    /\ (Forall (stays_above T) cs -> CTester.Rej l' = CTester.Rej l + 1).
Proof.
  intros Hrun. apply trial_shape in Hrun as (d & Hd & Hm' & Hcase).
  eexists. split; [exact (trial_log env T fuel Dims j m m' l l' d Hm')|].
  intros Hall. apply Forall_cons in Hall as [_ Hall].
  pose proof (converged_after_log d _ Hd Hall) as Hnc.
  destruct Hcase as [(Hc & _)|(_ & _ & ->)]; [congruence|reflexivity].
Qed.

Lemma trials_all_rejected (fuel : nat) (Dims : Z) (m m' : CTester.Mach)
  (l l' : CTester.Locals) :
  0 <= CTester.IterCount T ->
  CTester.Rej l = 0 ->
  for_ltM (CTester.IterCount T) (CTester.trial env T fuel Dims) (m, l)
    = Done (m', l') ->
  exists cs,
    CTester.m_calls m' = CTester.m_calls m ++ cs
    /\ (Forall (stays_above T) cs -> CTester.Rej l' = CTester.IterCount T).
Proof.
  intros HK Hrej0 Hrun. unfold for_ltM in Hrun.
  apply (for_loopM_inv
    (fun j ml =>
       exists cs, CTester.m_calls ml.1 = CTester.m_calls m ++ cs
                  /\ (Forall (stays_above T) cs -> CTester.Rej ml.2 = j))) in Hrun.
  - cbn [fst snd] in Hrun. rewrite Z2Nat.id in Hrun by lia. exact Hrun.
  - exists []. cbn [fst snd]. rewrite app_nil_r. auto.
  - intros j [m1 l1] [m2 l2] _ (cs & Hc & Hr) Hstep. cbn [fst snd] in *.
    apply trial_rejected in Hstep as (cs' & Hc' & Hr').
    exists (cs ++ cs'). split; [rewrite Hc', Hc, <- app_assoc; reflexivity|].
    intros Hall. apply Forall_app in Hall as [H1 H2].
    rewrite (Hr' H2), (Hr H1). reflexivity.
Qed.

Lemma sentinel_rule (l : CTester.Locals) :
  CTester.IterCount T <= CTester.Rej l ->
  CTester.avgIterations (stats_of T l) = 1000000%float
  /\ CTester.rmsIterations (stats_of T l) = 1000000%float.
Proof.
  intros Hle. unfold stats_of. cbn [CTester.avgIterations CTester.rmsIterations].
  replace (CTester.IterCount T <=? CTester.Rej l) with true
    by (symmetry; apply Z.leb_le; exact Hle).
  split; reflexivity.
Qed.

Lemma run_fn_all_rejected (fuel : nat) (k : Z) (a a' : CTester.Acc) :
  0 <= CTester.IterCount T ->
  CTester.run_fn env T fuel k a = Done a' ->
  exists cs fs,
    CTester.m_calls (CTester.a_mach a') = CTester.m_calls (CTester.a_mach a) ++ cs
    /\ CTester.a_stats a' = CTester.a_stats a ++ [fs]
    /\ CTester.a_ItAvg a' = (CTester.a_ItAvg a + CTester.avgIterations fs)%float
    /\ (Forall (stays_above T) cs -> total_failure T fs).
Proof.
  intros HK Hrun.
  apply run_fn_done in Hrun as (f & o & [m l] & Hf & Hu & Hl & ->).
  apply trials_all_rejected in Hl as (cs & Hc & Hr); [|exact HK|reflexivity].
  exists (CTester.CallUpdateDims (resolve_dims T f) :: cs), (stats_of T l).
  cbn [fn_exit fst snd CTester.a_mach CTester.a_stats CTester.a_ItAvg].
  split; [|split; [reflexivity|split; [reflexivity|]]].
  - rewrite Hc. unfold fn_entry. cbn [fst CTester.m_calls].
    rewrite <- app_assoc. reflexivity.
  - intros Hall. apply Forall_cons in Hall as [_ Hall]. specialize (Hr Hall).
    unfold total_failure. split; [exact Hr|].
    apply sentinel_rule. lia.
Qed.

(** C4. (1) For every function [run] processed, [Rej >= IterCount] makes
    both the average and the RMS of the iterations 1,000,000.  (2) When no
    best cost reported after a step of the run is within the threshold of the
    known optimum, every function has [Rej = IterCount] and an average of
    1,000,000, and for a corpus of at least one function (and fewer than 2^31)
    the aggregate average is 1,000,000 as well.  (3) For a valid
    configuration and enough fuel for one trial, [run] does return. *)
Theorem total_failure_sentinel (fuel : nat) (r : RndState) (clk : nat) :
  (forall out, CTester.run env T fuel r clk = Done out ->
     Forall (fun fs => CTester.IterCount T <= CTester.rejectCount fs ->
                       CTester.avgIterations fs = 1000000%float
                       /\ CTester.rmsIterations fs = 1000000%float)
       (CTester.o_stats out))
  /\ (forall out, CTester.run env T fuel r clk = Done out ->
        Forall (stays_above T) (CTester.o_calls out) ->
        Forall (total_failure T) (CTester.o_stats out)
        /\ (1 <= CTester.FnCount T < 2 ^ 31 ->
            CTester.ItAvg (CTester.o_tester out) = 1000000%float))
  /\ (valid_config T ->
      (Z.to_nat (CTester.InnerIterCount T) <= fuel)%nat ->
      exists out, CTester.run env T fuel r clk = Done out).
Proof.
  split; [|split].
  - intros out Hrun.
    apply (run_stats_Forall env T _ fuel r clk out); [|exact Hrun].
    intros k a f o m l _ _ _ _ _ _. cbn [stats_of CTester.rejectCount].
    apply sentinel_rule.
  - intros out Hrun Hall.
    apply run_done in Hrun as (HK & a & Hloop & ->).
    cbn [finish CTester.o_calls CTester.o_stats CTester.o_tester CTester.ItAvg] in *.
    unfold for_ltM in Hloop.
    apply (for_loopM_inv
      (fun k a =>
         0 <= k
         /\ (Forall (stays_above T) (CTester.m_calls (CTester.a_mach a)) ->
             Forall (total_failure T) (CTester.a_stats a)
             /\ (k < 2 ^ 31 -> holds_int (CTester.a_ItAvg a) (k * 1000000)))))
      in Hloop.
    + destruct Hloop as [_ Hinv]. destruct (Hinv Hall) as [Hstats Hsum].
      split; [exact Hstats|]. intros HF.
      rewrite Z2Nat.id in Hsum by lia.
      apply holds_int_mean; [lia|lia|]. apply Hsum. lia.
    + split; [lia|]. intros _. split; [constructor|]. intros _. reflexivity.
    + intros k a1 a2 Hk [Hk0 Hinv] Hstep.
      apply run_fn_all_rejected in Hstep as (cs & fs & Hc & Hs & Hsum & Hfail);
        [|exact HK].
      split; [lia|]. rewrite Hc, Hs, Hsum. intros Hall2.
      apply Forall_app in Hall2 as [Hall1 Hallcs].
      destruct (Hinv Hall1) as [Hstats Hint]. specialize (Hfail Hallcs).
      split.
      * apply Forall_app. split; [exact Hstats|]. constructor; [exact Hfail|constructor].
      * intros Hlt. destruct Hfail as (_ & -> & _).
        replace ((k + 1) * 1000000) with (k * 1000000 + 1000000) by lia.
        apply holds_int_add; [lia|lia|]. apply Hint. lia.
  - intros Hv Hfuel. apply run_total; assumption.
Qed.

End Sentinel.

Lemma total_failure_sentinel_witness :
  let T := Fixtures.configure 2 [Some Fixtures.plateau; Some Fixtures.plateau; None]
             (-1)%float 2 3 true false in
  exists out,
    CTester.run Fixtures.env0 T 3 0%nat 0 = Done out
    /\ Forall (stays_above T) (CTester.o_calls out)
    /\ Forall (total_failure T) (CTester.o_stats out)
    /\ CTester.ItAvg (CTester.o_tester out) = 1000000%float.
Proof.
  intros T.
  destruct (total_failure_sentinel Fixtures.env0 T 3 0%nat 0%nat) as (_ & Hfail & Htot).
  destruct Htot as (out & Hout).
  - split; [reflexivity|]. split; [simpl; lia|]. split; [simpl; lia|].
    intros [|[|[|k]]] f Hf Hk; simpl in Hf; try discriminate;
      injection Hf as <-; vm_compute; discriminate.
  - simpl. lia.
  - exists out. split; [exact Hout|].
    assert (Habove : Forall (stays_above T) (CTester.o_calls out)).
    { pose proof Hout as Hc. vm_compute in Hc. injection Hc as <-.
      repeat constructor. }
    destruct (Hfail out Hout Habove) as [Hstats Havg].
    split; [exact Habove|]. split; [exact Hstats|].
    apply Havg. simpl. lia.
Defined.

(** With an empty corpus no step is ever reported, yet the aggregate average
    is [0.0 / 0], not 1,000,000. *)
Lemma empty_corpus_aggregate_nan :
  let T := Fixtures.configure 2 [None] (-1)%float 2 3 true false in
  exists out,
    CTester.run Fixtures.env0 T 3 0%nat 0 = Done out
    /\ Forall (stays_above T) (CTester.o_calls out)
    /\ Forall (total_failure T) (CTester.o_stats out)
    /\ CTester.ItAvg (CTester.o_tester out) = nan
    /\ CTester.ItAvg (CTester.o_tester out) <> 1000000%float.
Proof.
  intros T. eexists. split; [vm_compute; reflexivity|].
  cbn [CTester.o_calls CTester.o_stats CTester.o_tester CTester.ItAvg].
  split; [constructor|]. split; [constructor|]. split; [reflexivity|].
  intros E. apply (f_equal PrimFloat.is_nan) in E. vm_compute in E. discriminate E.
Qed.

(** ** The cost averages (C2) *)

Section CostAverages.
Context `{Opt : CBEOOptimizerFan}.
Variable env : Env.
Variable T : CTester.t.

(** C2, as the code has it.  For every function [run] processed, the average
    cost of the successes is the success cost sum divided by the number of
    successes and the average cost of the rejects is the reject cost sum
    divided by [Rej], both without a guard: with no success the first is
    [0.0 / 0 = NaN], and with no reject the second is [0.0 / 0 = NaN]. *)
Theorem cost_averages_unguarded (fuel : nat) (r : RndState) (clk : nat)
  (out : CTester.Outcome) :
  CTester.run env T fuel r clk = Done out ->
  Forall (cost_averages T) (CTester.o_stats out).
Proof.
  intros Hrun.
  apply (run_stats_Forall env T (cost_averages T) fuel r clk out); [|exact Hrun].
  intros k a f o m l _ _ _ _ _ (_ & _ & _ & Hrj0 & Hsucc0).
  unfold cost_averages, stats_of.
  cbn [CTester.avgCostOnSuccess CTester.avgCostOnReject CTester.successCostSum
       CTester.rejectCostSum CTester.rejectCount].
  split; [reflexivity|]. split; [reflexivity|]. split.
  - intros Hall. destruct (Hsucc0 Hall) as [-> _]. rewrite Hall, Z.sub_diag.
    reflexivity.
  - intros Hnone. rewrite (Hrj0 Hnone), Hnone. reflexivity.
Qed.

End CostAverages.

Lemma cost_averages_unguarded_witness :
  let T := Fixtures.configure 2 [Some Fixtures.sphere1; Some Fixtures.plateau; None]
             0.5%float 3 20 true false in
  exists out,
    CTester.run Fixtures.env0 T 20 0%nat 0 = Done out
    /\ Forall (cost_averages T) (CTester.o_stats out).
Proof.
  intros T. eexists. split; [vm_compute; reflexivity|].
  eapply (cost_averages_unguarded Fixtures.env0 T 20 0%nat 0%nat).
  vm_compute. reflexivity.
Defined.

(** A function whose every trial converges has no reject, and its average
    reject cost is NaN; one whose no trial converges has a NaN average success
    cost. *)
Lemma cost_average_nan :
  let T := Fixtures.configure 2 [Some Fixtures.sphere1; Some Fixtures.plateau; None]
             0.5%float 3 20 true false in
  exists out fs1 fs2,
    CTester.run Fixtures.env0 T 20 0%nat 0 = Done out
    /\ CTester.o_stats out = [fs1; fs2]
    /\ CTester.rejectCount fs1 = 0
    /\ PrimFloat.is_nan (CTester.avgCostOnReject fs1) = true
    /\ CTester.IterCount T - CTester.rejectCount fs2 = 0
    /\ PrimFloat.is_nan (CTester.avgCostOnSuccess fs2) = true.
Proof.
  intros T. eexists _, _, _. split; [vm_compute; reflexivity|].
  cbn [CTester.o_stats]. split; [reflexivity|].
  cbn [CTester.rejectCount CTester.avgCostOnReject CTester.avgCostOnSuccess].
  repeat split; reflexivity.
Qed.

(** ** Configurations the spec calls invalid (C3) *)

Lemma for_loopM_no_timeout {St : Type} (body : Z -> St -> res St) (n : nat) :
  forall (i : Z) (s : St),
  (forall k x, body k x <> OutOfFuel) ->
  for_loopM n i body s <> OutOfFuel.
Proof.
  induction n as [|n IH]; intros i s Hbody; cbn [for_loopM]; [discriminate|].
  destruct (body i s) as [x| |] eqn:Hb; cbn [mbind res_bind].
  - apply IH. exact Hbody.
  - discriminate.
  - exfalso. exact (Hbody i s Hb).
Qed.

Section Unvalidated.
Context `{Opt : CBEOOptimizerFan}.
Variable env : Env.
Variable T : CTester.t.

Lemma run_fn_no_trials (fuel : nat) (k : Z) (a : CTester.Acc) :
  CTester.IterCount T = 0 ->
  CTester.run_fn env T fuel k a <> OutOfFuel
  /\ forall a', CTester.run_fn env T fuel k a = Done a' ->
       exists dims fs,
         CTester.m_calls (CTester.a_mach a')
           = CTester.m_calls (CTester.a_mach a) ++ [CTester.CallUpdateDims dims]
         /\ CTester.a_stats a' = CTester.a_stats a ++ [fs].
Proof.
  intros HK. rewrite run_fn_unfold.
  destruct (CTester.Funcs T !! Z.to_nat k) as [[f|]|]; try (split; discriminate).
  destruct (CTestOpt.updateDims env (resolve_dims T f) 0 _) as [o| |] eqn:Hu;
    cbn [mbind res_bind]; try (split; discriminate).
  - rewrite HK. cbn [for_ltM Z.to_nat for_loopM mbind res_bind].
    split; [discriminate|]. intros a' Ha'. injection Ha' as <-.
    exists (resolve_dims T f), (stats_of T (fn_entry T a f o).2).
    split; reflexivity.
  - exfalso. unfold CTestOpt.updateDims, new_array in Hu.
    destruct (resolve_dims T f <? 0); discriminate Hu.
Qed.

(** With no trial to run, the pass over a function whose resolved number of
    dimensions is not negative completes. *)
Lemma run_fn_no_trials_total (fuel : nat) (k : Z) (a : CTester.Acc) :
  CTester.IterCount T = 0 ->
  CTester.FnCount T = CTester.count_until_null (CTester.Funcs T) ->
  (forall i f, CTester.Funcs T !! i = Some (Some f) ->
               Z.of_nat i < CTester.FnCount T -> 0 <= resolve_dims T f) ->
  0 <= k < CTester.FnCount T ->
  exists a', CTester.run_fn env T fuel k a = Done a'.
Proof.
  intros HK Hcount Hdims Hk. rewrite run_fn_unfold.
  destruct (funcs_lookup (CTester.Funcs T) (Z.to_nat k) ltac:(lia)) as [f Hf].
  rewrite Hf.
  assert (HD : 0 <= resolve_dims T f) by (apply (Hdims (Z.to_nat k)); [exact Hf|lia]).
  unfold CTestOpt.updateDims, new_array.
  destruct (Z.ltb_spec (resolve_dims T f) 0) as [Hneg|_]; [lia|].
  cbn [mbind res_bind]. rewrite HK.
  cbn [for_ltM Z.to_nat for_loopM mbind res_bind]. eexists. reflexivity.
Qed.

(** C3, as the code has it.  [run] validates nothing.  (a) A negative
    [IterCount] makes the allocation of [Iters] raise before anything else
    happens.  (b) With an empty corpus and [IterCount >= 0], [run] does not
    fail: it completes without any optimizer call and with no per-function
    statistics, and its aggregate is [0.0 / FnCount].  (c) With
    [IterCount = 0], [run] cannot loop, and when it completes it has neither
    initialised nor stepped the optimizer and has one statistics record per
    function; it does complete when [FnCount] is the count [init] computed
    and no function has a negative resolved number of dimensions. *)
Theorem unvalidated_configuration (fuel : nat) (r : RndState) (clk : nat) :
  (CTester.IterCount T < 0 ->
   CTester.run env T fuel r clk = Throw bad_array_new_length)
  /\ (0 <= CTester.IterCount T -> CTester.FnCount T <= 0 ->
      exists out,
        CTester.run env T fuel r clk = Done out
        /\ CTester.o_calls out = [] /\ CTester.o_stats out = []
        /\ CTester.ItAvg (CTester.o_tester out)
           = (0 / double_of_int (CTester.FnCount T))%float)
  /\ (CTester.IterCount T = 0 ->
      CTester.run env T fuel r clk <> OutOfFuel
      /\ (forall out, CTester.run env T fuel r clk = Done out ->
            Forall no_trial_call (CTester.o_calls out)
            /\ Z.of_nat (length (CTester.o_stats out))
               = Z.max 0 (CTester.FnCount T))
      /\ (CTester.FnCount T = CTester.count_until_null (CTester.Funcs T) ->
          (forall i f, CTester.Funcs T !! i = Some (Some f) ->
                       Z.of_nat i < CTester.FnCount T -> 0 <= resolve_dims T f) ->
          exists out,
            CTester.run env T fuel r clk = Done out
            /\ Forall no_trial_call (CTester.o_calls out)
            /\ Z.of_nat (length (CTester.o_stats out))
               = Z.max 0 (CTester.FnCount T))).
Proof.
  assert (Hdone : CTester.IterCount T = 0 ->
                  forall out, CTester.run env T fuel r clk = Done out ->
                    Forall no_trial_call (CTester.o_calls out)
                    /\ Z.of_nat (length (CTester.o_stats out))
                       = Z.max 0 (CTester.FnCount T)).
  { intros HK out Hrun. apply run_done in Hrun as (_ & a & Hloop & ->).
    cbn [finish CTester.o_calls CTester.o_stats]. unfold for_ltM in Hloop.
    apply (for_loopM_inv
      (fun k a =>
         Forall no_trial_call (CTester.m_calls (CTester.a_mach a))
         /\ Z.of_nat (length (CTester.a_stats a)) = k)) in Hloop.
    - destruct Hloop as [Hcalls Hlen]. split; [exact Hcalls|]. lia.
    - split; [constructor|reflexivity].
    - intros k a1 a2 _ [Hcalls Hlen] Hstep.
      destruct (run_fn_no_trials fuel k a1 HK) as [_ Hd].
      destruct (Hd a2 Hstep) as (dims & fs & -> & ->).
      split.
      + apply Forall_app. split; [exact Hcalls|].
        constructor; [exists dims; reflexivity|constructor].
      + rewrite length_app. simpl. lia. }
  split; [|split].
  - intros Hneg. rewrite run_unfold. unfold new_array.
    replace (CTester.IterCount T <? 0) with true
      by (symmetry; apply Z.ltb_lt; exact Hneg).
    reflexivity.
  - intros HK HF. rewrite run_unfold. unfold new_array, for_ltM.
    replace (CTester.IterCount T <? 0) with false
      by (symmetry; apply Z.ltb_ge; exact HK).
    replace (Z.to_nat (CTester.FnCount T)) with 0%nat by lia.
    cbn [mbind res_bind for_loopM]. eexists. split; [reflexivity|].
    cbn [finish acc0 CTester.o_calls CTester.o_stats CTester.o_tester CTester.ItAvg
         CTester.a_mach CTester.m_calls CTester.a_stats CTester.a_ItAvg].
    auto.
  - intros HK. split; [|split].
    + rewrite run_unfold. unfold new_array. rewrite HK.
      cbn [Z.ltb Z.compare mbind res_bind].
      destruct (for_ltM _ _ _) as [a| |] eqn:Hl; cbn [mbind res_bind];
        try discriminate.
      exfalso. revert Hl. apply for_loopM_no_timeout.
      intros k x. apply run_fn_no_trials. exact HK.
    + exact (Hdone HK).
    + intros Hcount Hdims.
      assert (Hex : exists out, CTester.run env T fuel r clk = Done out).
      { rewrite run_unfold. unfold new_array. rewrite HK.
        cbn [Z.ltb Z.compare mbind res_bind]. unfold for_ltM.
        destruct (for_loopM_total (fun _ _ => True) (CTester.run_fn env T fuel)
                    (Z.to_nat (CTester.FnCount T)) 0
                    (acc0 T r clk (replicate (Z.to_nat 0) (indet_int env))) I)
          as (a & Ha & _).
        - intros k a Hk _.
          destruct (run_fn_no_trials_total fuel k a HK Hcount Hdims ltac:(lia))
            as (a' & Ha').
          exists a'. split; [exact Ha'|exact I].
        - rewrite Ha. cbn [mbind res_bind]. eexists. reflexivity. }
      destruct Hex as (out & Hrun). exists out. split; [exact Hrun|].
      exact (Hdone HK out Hrun).
Qed.

End Unvalidated.

Lemma unvalidated_configuration_witness :
  (let T := Fixtures.configure 1 [Some Fixtures.sphere1; None] 0.5%float (-1) 20
              false false in
   CTester.run Fixtures.env0 T 20 0%nat 0 = Throw bad_array_new_length)
  /\ (let T := Fixtures.configure 1 [None] 0.5%float 3 20 false false in
      exists out,
        CTester.run Fixtures.env0 T 20 0%nat 0 = Done out
        /\ CTester.o_calls out = [] /\ CTester.o_stats out = [])
  /\ (let T := Fixtures.configure 2
                 [Some Fixtures.sphere1; Some Fixtures.plateau; None] 0.5%float 0 20
                 true false in
      exists out,
        CTester.run Fixtures.env0 T 20 0%nat 0 = Done out
        /\ Forall no_trial_call (CTester.o_calls out)
        /\ Z.of_nat (length (CTester.o_stats out)) = 2).
Proof.
  split; [|split].
  - intros T.
    apply (unvalidated_configuration Fixtures.env0 T 20 0%nat 0%nat). simpl. lia.
  - intros T.
    destruct (unvalidated_configuration Fixtures.env0 T 20 0%nat 0%nat)
      as (_ & Hempty & _).
    destruct Hempty as (out & Hrun & Hcalls & Hstats & _); [simpl; lia|simpl; lia|].
    exists out. split; [exact Hrun|]. split; [exact Hcalls|exact Hstats].
  - intros T.
    destruct (unvalidated_configuration Fixtures.env0 T 20 0%nat 0%nat)
      as (_ & _ & Hzero).
    destruct (Hzero eq_refl) as (_ & _ & Htotal).
    apply Htotal; [reflexivity|].
    intros i f Hf Hi.
    destruct i as [|[|i]]; cbn in Hf, Hi; [| |lia];
      injection Hf as <-; vm_compute; discriminate.
Defined.

(** Runs the spec wants refused that the code carries out: with
    [InnerIterCount = 0], and with a resolved dimension of 0, the optimizer is
    initialised and stepped and statistics are computed; with an empty corpus
    the run completes. *)
Lemma invalid_configurations_run :
  (let T := Fixtures.configure 1 [Some Fixtures.sphere1; None] 1000%float 1 0
              false false in
   exists out,
     CTester.InnerIterCount T <= 0
     /\ CTester.run Fixtures.env0 T 5 0%nat 0 = Done out
     /\ CTester.o_calls out
        = [CTester.CallUpdateDims 1; CTester.CallInit [1%float];
           CTester.CallOptimize Fixtures.sphere1 [1%float] 25%float]
     /\ length (CTester.o_stats out) = 1%nat)
  /\ (let T := Fixtures.configure 0 [Some Fixtures.plateau; None] 2%float 1 3
                 false false in
      exists out,
        resolve_dims T Fixtures.plateau <= 0
        /\ CTester.run Fixtures.env0 T 5 0%nat 0 = Done out
        /\ CTester.o_calls out
           = [CTester.CallUpdateDims 0; CTester.CallInit [];
              CTester.CallOptimize Fixtures.plateau [] 1%float]
        /\ length (CTester.o_stats out) = 1%nat)
  /\ (let T := Fixtures.configure 1 [None] 0.5%float 3 20 false false in
      exists out,
        CTester.FnCount T = 0
        /\ CTester.run Fixtures.env0 T 5 0%nat 0 = Done out
        /\ PrimFloat.is_nan (CTester.ItAvg (CTester.o_tester out)) = true).
Proof.
  split; [|split]; intros T; eexists.
  - split; [simpl; lia|]. split; [vm_compute; reflexivity|].
    split; reflexivity.
  - split; [vm_compute; discriminate|]. split; [vm_compute; reflexivity|].
    split; reflexivity.
  - split; [reflexivity|]. split; [vm_compute; reflexivity|]. reflexivity.
Qed.

(** ** Bounds validation in [minimize_func] (C5) *)

Section Minimize.
Context `{Py : PyExt.PyAPI} `{BO : PyExt.BiteOpt}.

Lemma bounds_crossed_true (n i : nat) (lower upper : list double) :
  PyExt.bounds_crossed n i lower upper = true <->
  exists k, (i <= k < i + n)%nat /\ (upper !!! k <? lower !!! k)%float = true.
Proof.
  revert i. induction n as [|n IH]; intros i; cbn [PyExt.bounds_crossed].
  - split; [discriminate|]. intros (k & Hk & _). lia.
  - destruct (upper !!! i <? lower !!! i)%float eqn:Hi.
    + split; [|reflexivity]. intros _. exists i. split; [lia|exact Hi].
    + rewrite IH. split; intros (k & Hk & Hgt).
      * exists k. split; [lia|exact Hgt].
      * exists k. split; [|exact Hgt].
        destruct (Nat.eq_dec k i) as [->|Hne]; [congruence|lia].
Qed.

(** The value [minimize_func] returns once both lists are read. *)
Lemma minimize_func_read (a : PyExt.Args) (ls us : list PyExt.PyObj)
  (lower upper : list double) :
  PyExt.py_iter (PyExt.lower_py a) = Some ls ->
  PyExt.read_doubles ls [] = Some lower ->
  PyExt.py_iter (PyExt.upper_py a) = Some us ->
  PyExt.read_doubles us [] = Some upper ->
  PyExt.minimize_func (Some a)
  = if negb (length lower =? length upper)%nat then
      {| PyExt.ret :=
           PyExt.PyNULL (PyExt.TypeError "minimize: matching list lengths required");
         PyExt.optimizer_calls := []; PyExt.objective_error := false |}
    else if PyExt.bounds_crossed (length lower) 0 lower upper then
      {| PyExt.ret :=
           PyExt.PyNULL
             (PyExt.TypeError "minimize: lower should not be greater than upper");
         PyExt.optimizer_calls := []; PyExt.objective_error := false |}
    else
      let call :=
        {| PyExt.c_N := Z.of_nat (length lower);
           PyExt.c_f := PyExt.closure (PyExt.func_py a) (Z.of_nat (length lower));
           PyExt.c_lb := lower; PyExt.c_ub := upper;
           PyExt.c_iter := default 1 (PyExt.iter_arg a);
           PyExt.c_M := default 1 (PyExt.Mi_arg a);
           PyExt.c_attc := default 10 (PyExt.attc_arg a) |} in
      {| PyExt.ret :=
           PyExt.PyTuple2 (PyExt.biteopt_minimize call).2
             {| PyExt.nd_len := Z.of_nat (length lower);
                PyExt.nd_data :=
                  PyExt.best_x (length lower) (PyExt.biteopt_minimize call).1;
                PyExt.nd_released := true |};
         PyExt.optimizer_calls := [call];
         PyExt.objective_error :=
           existsb (PyExt.closure_raises (PyExt.func_py a) (Z.of_nat (length lower)))
             (PyExt.evaluated call) |}.
Proof.
  intros Hl Hrl Hu Hru. unfold PyExt.minimize_func. rewrite Hl, Hrl, Hu, Hru.
  destruct (negb (length lower =? length upper)%nat); [reflexivity|].
  destruct (PyExt.bounds_crossed _ _ _ _); [reflexivity|].
  cbn zeta. destruct (PyExt.biteopt_minimize _) as [written min_f]. reflexivity.
Qed.

(** C5. Once both bound lists are read: if their lengths differ, or some
    [lower[i] > upper[i]], the entry point returns NULL with a [TypeError] set
    and has made no call to [biteopt_minimize]; if the lengths agree and
    [lower[i] <= upper[i]] for every [i], it calls [biteopt_minimize], once,
    with the number of bounds and the two lists as read. *)
Theorem minimize_validates_bounds (a : PyExt.Args) (ls us : list PyExt.PyObj)
  (lower upper : list double) :
  PyExt.py_iter (PyExt.lower_py a) = Some ls ->
  PyExt.read_doubles ls [] = Some lower ->
  PyExt.py_iter (PyExt.upper_py a) = Some us ->
  PyExt.read_doubles us [] = Some upper ->
  (length lower <> length upper
   \/ (exists i l u, lower !! i = Some l /\ upper !! i = Some u
                     /\ (u <? l)%float = true) ->
   exists msg,
     PyExt.ret (PyExt.minimize_func (Some a)) = PyExt.PyNULL (PyExt.TypeError msg)
     /\ PyExt.optimizer_calls (PyExt.minimize_func (Some a)) = [])
  /\ (length lower = length upper ->
      (forall i l u, lower !! i = Some l -> upper !! i = Some u ->
                     (l <=? u)%float = true) ->
      exists call,
        PyExt.optimizer_calls (PyExt.minimize_func (Some a)) = [call]
        /\ PyExt.c_N call = Z.of_nat (length lower)
        /\ PyExt.c_lb call = lower /\ PyExt.c_ub call = upper).
Proof.
  intros Hl Hrl Hu Hru.
  rewrite (minimize_func_read a ls us lower upper Hl Hrl Hu Hru).
  split.
  - intros Hbad.
    destruct (Nat.eqb_spec (length lower) (length upper)) as [Hlen|Hlen];
      cbn [negb]; [|eexists; split; reflexivity].
    destruct Hbad as [Hne|(i & l & u & Hli & Hui & Hgt)]; [contradiction|].
    replace (PyExt.bounds_crossed (length lower) 0 lower upper) with true;
      [eexists; split; reflexivity|].
    symmetry. apply bounds_crossed_true. exists i. split.
    + apply lookup_lt_Some in Hli. lia.
    + rewrite (list_lookup_total_correct lower i l Hli).
      rewrite (list_lookup_total_correct upper i u Hui). exact Hgt.
  - intros Hlen Hle.
    replace (length lower =? length upper)%nat with true
      by (symmetry; apply Nat.eqb_eq; exact Hlen).
    cbn [negb].
    destruct (PyExt.bounds_crossed (length lower) 0 lower upper) eqn:Hc.
    + exfalso. apply bounds_crossed_true in Hc as (k & Hk & Hgt).
      destruct (lookup_lt_is_Some_2 lower k ltac:(lia)) as [l Hlk].
      destruct (lookup_lt_is_Some_2 upper k ltac:(lia)) as [u Huk].
      rewrite (list_lookup_total_correct lower k l Hlk) in Hgt.
      rewrite (list_lookup_total_correct upper k u Huk) in Hgt.
      pose proof (leb_not_gt l u (Hle k l u Hlk Huk)) as Hnot. congruence.
    + eexists. cbn zeta. cbn [PyExt.optimizer_calls].
      split; [reflexivity|]. cbn [PyExt.c_N PyExt.c_lb PyExt.c_ub]. auto.
Qed.

End Minimize.

Lemma minimize_validates_bounds_witness :
  (let a := Fixtures.py_args [0; 0]%float [1]%float in
   PyExt.ret (@PyExt.minimize_func Fixtures.py_values Fixtures.lower_corner (Some a))
     = PyExt.PyNULL (PyExt.TypeError "minimize: matching list lengths required")
   /\ PyExt.optimizer_calls
        (@PyExt.minimize_func Fixtures.py_values Fixtures.lower_corner (Some a)) = [])
  /\ (let a := Fixtures.py_args [2; -3]%float [4; 5]%float in
      exists call,
        PyExt.optimizer_calls
          (@PyExt.minimize_func Fixtures.py_values Fixtures.lower_corner (Some a))
        = [call]
        /\ PyExt.c_N call = 2
        /\ PyExt.c_lb call = [2; -3]%float /\ PyExt.c_ub call = [4; 5]%float).
Proof.
  split.
  - intros a.
    destruct (@minimize_validates_bounds Fixtures.py_values Fixtures.lower_corner a
                (map Fixtures.PyFloat [0; 0]%float) (map Fixtures.PyFloat [1]%float)
                [0; 0]%float [1]%float eq_refl eq_refl eq_refl eq_refl) as [Hbad _].
    destruct Hbad as (msg & Hret & Hcalls).
    + left. simpl. lia.
    + split; [reflexivity|exact Hcalls].
  - intros a.
    destruct (@minimize_validates_bounds Fixtures.py_values Fixtures.lower_corner a
                (map Fixtures.PyFloat [2; -3]%float)
                (map Fixtures.PyFloat [4; 5]%float)
                [2; -3]%float [4; 5]%float eq_refl eq_refl eq_refl eq_refl)
      as [_ Hgood].
    apply Hgood; [reflexivity|].
    intros i l u Hl Hu.
    destruct i as [|[|i]]; cbn in Hl, Hu; try discriminate Hl;
      injection Hl as <-; injection Hu as <-; reflexivity.
Defined.

Example minimize_crossed_bounds :
  let a := Fixtures.py_args [5]%float [1]%float in
  @PyExt.minimize_func Fixtures.py_values Fixtures.lower_corner (Some a)
  = {| PyExt.ret :=
         PyExt.PyNULL
           (PyExt.TypeError "minimize: lower should not be greater than upper");
       PyExt.optimizer_calls := []; PyExt.objective_error := false |}.
Proof. reflexivity. Qed.

Example minimize_accepts :
  let a := Fixtures.py_args [2; -3]%float [4; 5]%float in
  PyExt.ret (@PyExt.minimize_func Fixtures.py_values Fixtures.lower_corner (Some a))
  = PyExt.PyTuple2 13%float
      {| PyExt.nd_len := 2; PyExt.nd_data := [2; -3]%float;
         PyExt.nd_released := true |}.
Proof. reflexivity. Qed.

(** ** The aggregate statistics (C8) *)

Lemma count_steps_app (cs cs' : list CTester.OptCall) :
  count_steps (cs ++ cs') = (count_steps cs + count_steps cs')%nat.
Proof.
  induction cs as [|[d|s|f s b] cs IH]; cbn [app count_steps]; lia.
Qed.

Lemma fsum_snoc (xs : list double) (x : double) :
  fsum (xs ++ [x]) = (fsum xs + x)%float.
Proof. unfold fsum. rewrite foldl_app. reflexivity. Qed.

Lemma wrap64_add (x y : Z) : wrap64 (wrap64 x + wrap64 y) = wrap64 (x + y).
Proof. unfold wrap64. rewrite <- Zplus_mod. reflexivity. Qed.

Section Aggregate.
Context `{Opt : CBEOOptimizerFan}.
Variable env : Env.
Variable T : CTester.t.
Variable clk0 : nat.

Lemma timed_optimize_ticks (m : CTester.Mach) :
  tick_inv env clk0 m -> tick_inv env clk0 (CTester.timed_optimize env m).
Proof.
  intros [Hclk Htc]. unfold tick_inv, CTester.timed_optimize.
  destruct (CTestOpt.optimize _ _) as [o r].
  cbn [CTester.m_clk CTester.m_tc CTester.m_calls].
  rewrite count_steps_app. cbn [count_steps].
  replace (count_steps (CTester.m_calls m) + 1)%nat
    with (S (count_steps (CTester.m_calls m))) by lia.
  split; [lia|]. cbn [ticks]. rewrite Htc, Hclk.
  replace (S (clk0 + 2 * count_steps (CTester.m_calls m)))
    with (clk0 + 2 * count_steps (CTester.m_calls m) + 1)%nat by lia.
  apply wrap64_add.
Qed.

Lemma after_steps_ticks (d : nat) (m : CTester.Mach) :
  tick_inv env clk0 m -> tick_inv env clk0 (after_steps env d m).
Proof.
  revert m. induction d as [|d IH]; intros m Hm; cbn [after_steps]; [exact Hm|].
  apply IH, timed_optimize_ticks, Hm.
Qed.

Lemma trial_start_ticks (Dims : Z) (m : CTester.Mach) :
  tick_inv env clk0 m -> tick_inv env clk0 (trial_start T Dims m).
Proof.
  intros [Hclk Htc]. unfold tick_inv, trial_start, CTester.init_optimizer.
  destruct (CTestOpt.init _ _) as [o r].
  cbn [CTester.m_clk CTester.m_tc CTester.m_calls].
  rewrite count_steps_app. cbn [count_steps]. rewrite Nat.add_0_r.
  destruct (CTester.DoRandomize T); [|auto].
  destruct (draw_signs_view Dims m) as (_ & -> & -> & ->). auto.
Qed.

Lemma trials_ticks (fuel : nat) (Dims : Z) (m m' : CTester.Mach)
  (l l' : CTester.Locals) :
  tick_inv env clk0 m ->
  for_ltM (CTester.IterCount T) (CTester.trial env T fuel Dims) (m, l)
    = Done (m', l') ->
  tick_inv env clk0 m'.
Proof.
  intros Hm Hrun. unfold for_ltM in Hrun.
  apply (for_loopM_inv (fun _ ml => tick_inv env clk0 ml.1)) in Hrun; [exact Hrun|exact Hm|].
  intros j [m1 l1] [m2 l2] _ Hinv Hstep. cbn [fst] in *.
  apply trial_shape in Hstep as (d & _ & -> & _).
  apply after_steps_ticks, trial_start_ticks, Hinv.
Qed.

(** C8. When [run] completes, there is one statistics record per function of
    the corpus; [ItAvg], [ItRtAvg] and [RjAvg] are the means over all of them
    of the average iterations, of RMS divided by average, and of the reject
    rate; a function with [Rej >= IterCount] takes part in the first mean with
    the value 1,000,000; and [tc] is the sum, modulo 2^64, of the differences
    of the counter readings around every optimizer step of the run. *)
Theorem aggregate_statistics (fuel : nat) (r : RndState) (out : CTester.Outcome) :
  CTester.run env T fuel r clk0 = Done out -> aggregates env T clk0 out.
Proof.
  intros Hrun.
  assert (Hsent : Forall (fun s => CTester.IterCount T <= CTester.rejectCount s ->
                                   CTester.avgIterations s = 1000000%float)
                    (CTester.o_stats out)).
  { apply (run_stats_Forall env T _ fuel r clk0 out); [|exact Hrun].
    intros k a f o m l _ _ _ _ _ _ Hle. apply sentinel_rule. exact Hle. }
  apply run_done in Hrun as (HK & a & Hloop & ->).
  unfold aggregates.
  cbn [finish CTester.o_stats CTester.o_tester CTester.o_calls CTester.o_clk
       CTester.ItAvg CTester.ItRtAvg CTester.RjAvg CTester.tc] in *.
  unfold for_ltM in Hloop.
  apply (for_loopM_inv
    (fun k a =>
       Z.of_nat (length (CTester.a_stats a)) = k
       /\ CTester.a_ItAvg a = fsum (map CTester.avgIterations (CTester.a_stats a))
       /\ CTester.a_ItRtAvg a
          = fsum (map (fun s => (CTester.rmsIterations s
                                 / CTester.avgIterations s)%float)
                    (CTester.a_stats a))
       /\ CTester.a_RjAvg a = fsum (map CTester.rejectRate (CTester.a_stats a))
       /\ tick_inv env clk0 (CTester.a_mach a))) in Hloop.
  - destruct Hloop as (Hlen & HIt & HRt & HRj & Hclk & Htc).
    unfold mean_of. rewrite HIt, HRt, HRj.
    split; [lia|]. repeat (split; [reflexivity|]).
    split; [exact Hsent|]. split; [exact Hclk|exact Htc].
  - cbn [acc0 CTester.a_stats CTester.a_ItAvg CTester.a_ItRtAvg CTester.a_RjAvg
         CTester.a_mach].
    repeat (split; [reflexivity|]).
    unfold tick_inv. cbn [CTester.m_clk CTester.m_tc CTester.m_calls count_steps ticks].
    split; [lia|reflexivity].
  - intros k a1 a2 _ (Hlen & HIt & HRt & HRj & Hticks) Hstep.
    apply run_fn_done in Hstep as (f & o & [m l] & _ & _ & Hl & ->).
    cbn [fn_exit fst snd CTester.a_stats CTester.a_ItAvg CTester.a_ItRtAvg
         CTester.a_RjAvg CTester.a_mach].
    rewrite !map_app. cbn [map]. rewrite !fsum_snoc, <- HIt, <- HRt, <- HRj.
    split; [rewrite length_app; simpl; lia|].
    repeat (split; [reflexivity|]).
    apply (trials_ticks fuel (resolve_dims T f) (fn_entry T a1 f o).1 m
             (fn_entry T a1 f o).2 l).
    + destruct Hticks as [Hclk Htc]. unfold tick_inv, fn_entry.
      cbn [fst CTester.m_clk CTester.m_tc CTester.m_calls].
      rewrite count_steps_app. cbn [count_steps]. rewrite Nat.add_0_r. auto.
    + rewrite <- surjective_pairing. exact Hl.
Qed.

End Aggregate.

Lemma aggregate_statistics_witness :
  let T := Fixtures.configure 2 [Some Fixtures.sphere1; Some Fixtures.plateau; None]
             0.5%float 3 20 true false in
  exists out,
    CTester.run Fixtures.env0 T 20 0%nat 0 = Done out
    /\ aggregates Fixtures.env0 T 0 out.
Proof.
  intros T. eexists. split; [vm_compute; reflexivity|].
  eapply (aggregate_statistics Fixtures.env0 T 0 20 0%nat).
  vm_compute. reflexivity.
Defined.

(** ** Two runs from the same seed (C9) *)

Lemma rel_res_bind {A B A' B' : Type} (R : A -> B -> Prop) (R' : A' -> B' -> Prop)
  (x : res A) (y : res B) (k1 : A -> res A') (k2 : B -> res B') :
  rel_res R x y ->
  (forall a b, R a b -> rel_res R' (k1 a) (k2 b)) ->
  rel_res R' (x ≫= k1) (y ≫= k2).
Proof.
  destruct x as [a|e1|], y as [b|e2|]; cbn [rel_res mbind res_bind];
    try contradiction; auto.
Qed.

Lemma for_loopM_rel {A B : Type} (R : Z -> A -> B -> Prop)
  (b1 : Z -> A -> res A) (b2 : Z -> B -> res B) (n : nat) :
  forall (i : Z) (s1 : A) (s2 : B),
  R i s1 s2 ->
  (forall k x1 x2, i <= k < i + Z.of_nat n -> R k x1 x2 ->
     rel_res (R (k + 1)) (b1 k x1) (b2 k x2)) ->
  rel_res (R (i + Z.of_nat n)) (for_loopM n i b1 s1) (for_loopM n i b2 s2).
Proof.
  induction n as [|n IH]; intros i s1 s2 HR Hstep; cbn [for_loopM].
  - cbn [rel_res]. replace (i + Z.of_nat 0) with i by lia. exact HR.
  - apply (rel_res_bind (R (i + 1))).
    + apply Hstep; [lia|exact HR].
    + intros a b Hab.
      replace (i + Z.of_nat (S n)) with (i + 1 + Z.of_nat n) by lia.
      apply IH; [exact Hab|]. intros k x1 x2 Hk. apply Hstep. lia.
Qed.

Lemma for_loop_ext {St : Type} (b1 b2 : Z -> St -> St) (n : nat) :
  forall (i : Z) (s : St),
  (forall k x, i <= k < i + Z.of_nat n -> b1 k x = b2 k x) ->
  for_loop n i b1 s = for_loop n i b2 s.
Proof.
  induction n as [|n IH]; intros i s Hext; cbn [for_loop]; [reflexivity|].
  rewrite (Hext i s) by lia. apply IH. intros k x Hk. apply Hext. lia.
Qed.

Section TwoRuns.
Context `{Opt : CBEOOptimizerFan}.
Variables env1 env2 : Env.
Variable T : CTester.t.

Lemma optcost_tp_full (o : CTestOpt.t) (p : list double) :
  length (CTestOpt.tp o) = Z.to_nat (CTestOpt.Dims o) ->
  CTestOpt.optcost_tp o p
  = map (fun k => (p !!! k * CTestOpt.signs o !!! k)%float)
      (seq 0 (Z.to_nat (CTestOpt.Dims o))).
Proof.
  intros Ht. unfold CTestOpt.optcost_tp.
  rewrite (for_lt_write (fun k => (p !!! k * CTestOpt.signs o !!! k)%float)) by lia.
  rewrite drop_ge by lia. apply app_nil_r.
Qed.

(** The base class sees the same virtual functions in both. *)
Lemma hooks_sim (o1 o2 : CTestOpt.t) :
  opt_sim o1 o2 -> CTestOpt.hooks o1 = CTestOpt.hooks o2.
Proof.
  intros [(Hfn & Hdr & Hd & _ & _ & _ & Ht1 & Ht2) Hs].
  unfold CTestOpt.hooks. f_equal.
  - unfold CTestOpt.getMinValues. rewrite Hfn, Hdr, Hd. reflexivity.
  - unfold CTestOpt.getMaxValues. rewrite Hfn, Hdr, Hd. reflexivity.
  - apply functional_extensionality. intros p. unfold CTestOpt.optcost.
    rewrite (optcost_tp_full o1 p Ht1), (optcost_tp_full o2 p) by (rewrite <- Hd; exact Ht2).
    rewrite Hfn, Hd, Hs. reflexivity.
Qed.

Lemma opt_sim_set_base (b : OptState) (o1 o2 : CTestOpt.t) :
  opt_sim o1 o2 -> opt_sim (CTestOpt.set_base b o1) (CTestOpt.set_base b o2).
Proof.
  intros [(Hfn & Hdr & Hd & _ & Hrest) Hs].
  split; [|exact Hs]. unfold opt_pre. cbn. auto.
Qed.

Lemma mach_sim_pre (m1 m2 : CTester.Mach) : mach_sim m1 m2 -> mach_pre T m1 m2.
Proof. intros ([Hp Hs] & Hr & Hc). split; [exact Hp|]. auto. Qed.

Lemma timed_optimize_sim (m1 m2 : CTester.Mach) :
  mach_sim m1 m2 ->
  mach_sim (CTester.timed_optimize env1 m1) (CTester.timed_optimize env2 m2).
Proof.
  intros (Ho & Hr & Hc). pose proof Ho as [(Hfn & _ & _ & Hb & _) Hs].
  unfold CTester.timed_optimize, CTestOpt.optimize.
  rewrite (hooks_sim _ _ Ho), Hr, Hb.
  destruct (base_optimize _ _ _) as [b r].
  unfold mach_sim. cbn [CTester.m_opt CTester.m_rnd CTester.m_calls].
  split; [apply opt_sim_set_base; exact Ho|]. split; [reflexivity|].
  rewrite Hc, Hs. cbn. rewrite Hfn. reflexivity.
Qed.

Lemma init_optimizer_sim (m1 m2 : CTester.Mach) :
  mach_sim m1 m2 ->
  mach_sim (CTester.init_optimizer m1) (CTester.init_optimizer m2).
Proof.
  intros (Ho & Hr & Hc). pose proof Ho as [(_ & _ & _ & Hb & _) Hs].
  unfold CTester.init_optimizer, CTestOpt.init.
  rewrite (hooks_sim _ _ Ho), Hr, Hb.
  destruct (base_init _ _ _) as [b r].
  unfold mach_sim. cbn [CTester.m_opt CTester.m_rnd CTester.m_calls].
  split; [apply opt_sim_set_base; exact Ho|]. split; [reflexivity|].
  rewrite Hc, Hs. reflexivity.
Qed.

Lemma converged_sim (o1 o2 : CTestOpt.t) :
  opt_sim o1 o2 -> CTester.converged T o1 = CTester.converged T o2.
Proof.
  intros [(Hfn & _ & _ & Hb & _) _]. unfold CTester.converged.
  rewrite Hfn, Hb. reflexivity.
Qed.

Lemma take_insert_sim (l1 l2 : list Z) (j : nat) (v : Z) :
  length l1 = length l2 -> take j l1 = take j l2 ->
  take (S j) (<[j := v]> l1) = take (S j) (<[j := v]> l2).
Proof.
  intros Hlen Htake. destruct (decide (j < length l1)%nat) as [Hj|Hj].
  - rewrite !take_insert_snoc by lia. rewrite Htake. reflexivity.
  - rewrite !list_insert_ge by lia. rewrite !take_ge in * by lia. exact Htake.
Qed.

Lemma inner_loop_sim (fuel : nat) :
  forall (j i : Z) (m1 m2 : CTester.Mach) (l1 l2 : CTester.Locals),
  0 <= j -> mach_sim m1 m2 -> locals_sim j l1 l2 ->
  rel_res (trial_sim (CTestOpt.Dims (CTester.m_opt m1)) (j + 1))
    (CTester.inner_loop env1 T fuel j i m1 l1)
    (CTester.inner_loop env2 T fuel j i m2 l2).
Proof.
  induction fuel as [|fuel IH]; intros j i m1 m2 l1 l2 Hj Hm Hl; [exact I|].
  cbn [CTester.inner_loop].
  pose proof (timed_optimize_sim m1 m2 Hm) as Hm'.
  destruct (timed_optimize_view env1 m1) as [Hview _].
  rewrite <- (same_view_Dims _ _ Hview).
  pose proof Hm' as (Ho' & _ & _). pose proof Ho' as [(_ & _ & _ & Hb & _) _].
  rewrite (converged_sim _ _ Ho'), Hb.
  destruct Hl as (H1 & H2 & H3 & H4 & H5 & H6).
  assert (Hnext : Z.to_nat (j + 1) = S (Z.to_nat j)) by lia.
  destruct (CTester.converged T _).
  - cbn [rel_res]. split; [reflexivity|]. split; [exact Hm'|].
    unfold locals_sim. cbn.
    rewrite H1, H2, H3, H4, !length_insert, Hnext.
    repeat (split; [auto|]). apply take_insert_sim; assumption.
  - destruct (i + 1 =? CTester.InnerIterCount T).
    + cbn [rel_res]. split; [reflexivity|]. split; [exact Hm'|].
      unfold locals_sim. cbn.
      rewrite H1, H2, H3, H4, !length_insert, Hnext.
      repeat (split; [auto|]). apply take_insert_sim; assumption.
    + apply IH; [exact Hj|exact Hm'|]. unfold locals_sim. repeat split; assumption.
Qed.

Lemma draw_signs_sim (Dims : Z) (m1 m2 : CTester.Mach) :
  Dims = CTestOpt.Dims (CTester.m_opt m1) ->
  mach_pre T m1 m2 ->
  mach_sim (CTester.draw_signs Dims m1) (CTester.draw_signs Dims m2).
Proof.
  intros -> ((Hfn & Hdr & Hd & Hb & Hs1 & Hs2 & Ht1 & Ht2) & _ & Hr & Hc).
  rewrite (draw_signs_spec _ m1 Hs1), (draw_signs_spec _ m2 Hs2).
  unfold mach_sim, opt_sim, opt_pre. cbn. rewrite Hr, !length_map, !length_draws.
  repeat split; auto.
Qed.

Lemma trial_rel (fuel : nat) (Dims j : Z) (x1 x2 : CTester.Mach * CTester.Locals) :
  0 <= j ->
  Dims = CTestOpt.Dims (CTester.m_opt x1.1) ->
  mach_pre T x1.1 x2.1 -> locals_sim j x1.2 x2.2 ->
  rel_res (trial_sim Dims (j + 1))
    (CTester.trial env1 T fuel Dims j x1) (CTester.trial env2 T fuel Dims j x2).
Proof.
  destruct x1 as [m1 l1], x2 as [m2 l2]. cbn [fst snd].
  intros Hj HD Hm Hl. unfold CTester.trial.
  assert (HDs : CTestOpt.Dims (CTester.m_opt (trial_start T Dims m1)) = Dims).
  { unfold trial_start.
    destruct (init_optimizer_view
      (if CTester.DoRandomize T then CTester.draw_signs Dims m1 else m1)) as [Hv _].
    rewrite (same_view_Dims _ _ Hv).
    destruct (CTester.DoRandomize T); [|auto].
    unfold CTester.draw_signs. destruct (for_lt _ _ _) as [s r]. cbn. auto. }
  unfold trial_start in HDs. rewrite <- HDs at 1.
  apply inner_loop_sim; [exact Hj| |exact Hl].
  apply init_optimizer_sim.
  destruct (CTester.DoRandomize T) eqn:Hdr.
  - apply draw_signs_sim; assumption.
  - destruct Hm as (Hp & Hs & Hr & Hc). split; [split; auto|]. auto.
Qed.

Lemma rms_sum_take (Avg : double) (Its1 Its2 : list Z) :
  take (Z.to_nat (CTester.IterCount T)) Its1
    = take (Z.to_nat (CTester.IterCount T)) Its2 ->
  CTester.rms_sum T Avg Its1 = CTester.rms_sum T Avg Its2.
Proof.
  intros Htake. unfold CTester.rms_sum, for_lt. apply for_loop_ext.
  intros k x Hk.
  assert (Hlook : Its1 !! Z.to_nat k = Its2 !! Z.to_nat k).
  { rewrite <- (lookup_take_lt Its1 (Z.to_nat (CTester.IterCount T))) by lia.
    rewrite <- (lookup_take_lt Its2 (Z.to_nat (CTester.IterCount T))) by lia.
    rewrite Htake. reflexivity. }
  rewrite !list_lookup_total_alt, Hlook. reflexivity.
Qed.

Lemma stats_of_sim (l1 l2 : CTester.Locals) :
  locals_sim (CTester.IterCount T) l1 l2 -> stats_of T l1 = stats_of T l2.
Proof.
  intros (H1 & H2 & H3 & H4 & _ & H6). unfold stats_of.
  rewrite H1, H2, H3, H4, H6.
  rewrite (rms_sum_take _ _ _ H6). reflexivity.
Qed.

Lemma rel_res_impl {A B : Type} (R R' : A -> B -> Prop) (x : res A) (y : res B) :
  (forall a b, R a b -> R' a b) -> rel_res R x y -> rel_res R' x y.
Proof.
  intros Himp. destruct x as [a|e1|], y as [b|e2|]; cbn [rel_res]; auto.
Qed.

Lemma updateDims_cases (env : Env) (D : Z) (o : CTestOpt.t) :
  CTestOpt.updateDims env D 0 o
  = if D <? 0 then Throw bad_array_new_length else Done (fresh_opt env D o).
Proof.
  unfold CTestOpt.updateDims, new_array. destruct (D <? 0); reflexivity.
Qed.

Lemma fn_entry_sim (a1 a2 : CTester.Acc) (f : CTestFn.t) :
  acc_sim a1 a2 ->
  let x1 := fn_entry T a1 f
              (fresh_opt env1 (resolve_dims T f)
                 (CTestOpt.set_fn f (CTester.m_opt (CTester.a_mach a1)))) in
  let x2 := fn_entry T a2 f
              (fresh_opt env2 (resolve_dims T f)
                 (CTestOpt.set_fn f (CTester.m_opt (CTester.a_mach a2)))) in
  CTestOpt.Dims (CTester.m_opt x1.1) = resolve_dims T f
  /\ mach_pre T x1.1 x2.1
  /\ locals_sim 0 x1.2 x2.2.
Proof.
  intros (Hdr & Hb & Hr & Hc & Hlen & _).
  unfold fn_entry, fresh_opt. cbn [fst snd].
  destruct (CTester.DoRandomize T) eqn:HdrT; cbn [negb].
  - split; [reflexivity|]. split.
    + unfold mach_pre, opt_pre. cbn. rewrite !length_replicate, Hb, Hr, Hc.
      repeat split; auto; intros E; congruence.
    + unfold locals_sim. cbn. rewrite !take_0. repeat split; auto.
  - rewrite !unit_signs_spec by (cbn; rewrite length_replicate; reflexivity).
    split; [reflexivity|]. split.
    + unfold mach_pre, opt_pre. cbn. rewrite !length_replicate, Hb, Hr, Hc.
      repeat split; auto.
    + unfold locals_sim. cbn. rewrite !take_0. repeat split; auto.
Qed.

Lemma fn_exit_sim (a1 a2 : CTester.Acc) (f : CTestFn.t)
  (x1 x2 : CTester.Mach * CTester.Locals) :
  acc_sim a1 a2 ->
  mach_pre T x1.1 x2.1 -> locals_sim (CTester.IterCount T) x1.2 x2.2 ->
  acc_sim (fn_exit T a1 f x1) (fn_exit T a2 f x2).
Proof.
  intros (_ & _ & _ & _ & _ & HIt & HRt & HRj & Hst)
         ((_ & Hdr & _ & Hb & _) & _ & Hr & Hc) Hl.
  pose proof (stats_of_sim _ _ Hl) as Hso.
  destruct Hl as (_ & _ & _ & _ & Hlen & _).
  unfold acc_sim, fn_exit.
  cbn [CTester.a_mach CTester.a_Iters CTester.a_ItAvg CTester.a_ItRtAvg
       CTester.a_RjAvg CTester.a_stats].
  rewrite Hso, HIt, HRt, HRj, Hst. repeat split; auto.
Qed.

Lemma run_fn_sim (fuel : nat) (k : Z) (a1 a2 : CTester.Acc) :
  0 <= CTester.IterCount T ->
  acc_sim a1 a2 ->
  rel_res acc_sim (CTester.run_fn env1 T fuel k a1) (CTester.run_fn env2 T fuel k a2).
Proof.
  intros HK Ha. rewrite !run_fn_unfold.
  destruct (CTester.Funcs T !! Z.to_nat k) as [[f|]|]; try reflexivity.
  rewrite !updateDims_cases.
  destruct (resolve_dims T f <? 0); [reflexivity|].
  cbn [mbind res_bind].
  destruct (fn_entry_sim a1 a2 f Ha) as (HD & Hpre & Hl0).
  apply (rel_res_bind
    (fun x1 x2 => mach_pre T x1.1 x2.1
                  /\ locals_sim (CTester.IterCount T) x1.2 x2.2)).
  - unfold for_ltM.
    apply (rel_res_impl
      (fun x1 x2 =>
         CTestOpt.Dims (CTester.m_opt x1.1) = resolve_dims T f
         /\ mach_pre T x1.1 x2.1
         /\ locals_sim (0 + Z.of_nat (Z.to_nat (CTester.IterCount T))) x1.2 x2.2)).
    + intros x1 x2 (_ & Hp & Hl). rewrite Z.add_0_l, Z2Nat.id in Hl by lia. auto.
    + apply (for_loopM_rel
        (fun j x1 x2 =>
           CTestOpt.Dims (CTester.m_opt x1.1) = resolve_dims T f
           /\ mach_pre T x1.1 x2.1 /\ locals_sim j x1.2 x2.2)).
      * auto.
      * intros j x1 x2 Hj (HDj & Hpj & Hlj).
        apply (rel_res_impl (trial_sim (resolve_dims T f) (j + 1))).
        -- intros y1 y2 (HDy & Hmy & Hly).
           split; [exact HDy|]. split; [apply mach_sim_pre; exact Hmy|exact Hly].
        -- apply trial_rel; [lia|symmetry; exact HDj|exact Hpj|exact Hlj].
  - intros x1 x2 [Hp Hl]. cbn [rel_res]. apply fn_exit_sim; assumption.
Qed.

Lemma run_sim (fuel : nat) (r : RndState) (clk1 clk2 : nat) :
  rel_res same_statistics
    (CTester.run env1 T fuel r clk1) (CTester.run env2 T fuel r clk2).
Proof.
  rewrite !run_unfold. unfold new_array.
  destruct (Z.ltb_spec (CTester.IterCount T) 0) as [Hneg|HK]; [reflexivity|].
  cbn [mbind res_bind].
  apply (rel_res_bind acc_sim).
  - unfold for_ltM.
    apply (for_loopM_rel (fun _ => acc_sim)).
    + unfold acc_sim, acc0. cbn. rewrite !length_replicate. repeat split; auto.
    + intros k a1 a2 _ Ha. apply run_fn_sim; assumption.
  - intros a1 a2 (_ & _ & Hr & Hc & _ & HIt & HRt & HRj & Hst).
    cbn [rel_res]. unfold same_statistics, finish.
    cbn [CTester.o_stats CTester.o_tester CTester.o_rnd CTester.o_calls
         CTester.ItAvg CTester.ItRtAvg CTester.RjAvg].
    rewrite HIt, HRt, HRj, Hst, Hr, Hc. repeat split; reflexivity.
Qed.

End TwoRuns.

(** C9, as the code has it.  Two runs of the same tester (configuration,
    corpus and optimizer object) from the same state of the generator, in any
    two environments - whatever the cycle counter reads and whatever fresh
    memory holds: when the first completes, so does the second, and they have
    the same statistics for every function, the same aggregate means [ItAvg],
    [ItRtAvg] and [RjAvg], the same generator state and the same optimizer
    calls.  The tick total is left out: it is read from the cycle counter. *)
Theorem statistics_deterministic `{Opt : CBEOOptimizerFan} (env1 env2 : Env)
  (T : CTester.t) (fuel : nat) (r : RndState) (clk1 clk2 : nat)
  (out1 : CTester.Outcome) :
  CTester.run env1 T fuel r clk1 = Done out1 ->
  exists out2,
    CTester.run env2 T fuel r clk2 = Done out2 /\ same_statistics out1 out2.
Proof.
  intros Hrun. pose proof (run_sim env1 env2 T fuel r clk1 clk2) as Hsim.
  rewrite Hrun in Hsim.
  destruct (CTester.run env2 T fuel r clk2) as [out2| |]; cbn [rel_res] in Hsim;
    try contradiction.
  exists out2. split; [reflexivity|exact Hsim].
Qed.

Lemma statistics_deterministic_witness :
  let T := Fixtures.configure 2 [Some Fixtures.sphere1; Some Fixtures.plateau; None]
             0.5%float 3 20 true false in
  exists out1 out2,
    CTester.run Fixtures.env0 T 20 0%nat 0 = Done out1
    /\ CTester.run Fixtures.env1 T 20 0%nat 7 = Done out2
    /\ same_statistics out1 out2.
Proof.
  intros T. eexists.
  assert (Hrun : CTester.run Fixtures.env0 T 20 0%nat 0 = Done _)
    by (vm_compute; reflexivity).
  destruct (statistics_deterministic Fixtures.env0 Fixtures.env1 T 20 0%nat 0%nat 7%nat
              _ Hrun) as (out2 & Hrun2 & Hsame).
  exists out2. split; [exact Hrun|]. split; [exact Hrun2|exact Hsame].
Defined.

(** The same tester, seed and corpus, two cycle counters: the tick totals
    differ. *)
Lemma ticks_not_deterministic :
  let T := Fixtures.configure 2 [Some Fixtures.sphere1; Some Fixtures.plateau; None]
             0.5%float 3 20 true false in
  exists out1 out2,
    CTester.run Fixtures.env0 T 20 0%nat 0 = Done out1
    /\ CTester.run Fixtures.env1 T 20 0%nat 0 = Done out2
    /\ CTester.tc (CTester.o_tester out1) = 216
    /\ CTester.tc (CTester.o_tester out2) = 10296
    /\ CTester.tc (CTester.o_tester out1) <> CTester.tc (CTester.o_tester out2).
Proof.
  intros T. eexists _, _.
  split; [vm_compute; reflexivity|]. split; [vm_compute; reflexivity|].
  cbn [CTester.o_tester CTester.tc]. split; [reflexivity|]. split; [reflexivity|].
  discriminate.
Qed.

Lemma sign_vector_fixed_witness :
  let T := Fixtures.configure 2 [Some Fixtures.plateau; None] 0.5%float 1 2 true false in
  let m := Fixtures.mach_plateau in
  exists m' l',
    CTester.trial Fixtures.env0 T 2 2 0 (m, Fixtures.locals0 [42]) = Done (m', l')
    /\ CTestOpt.signs (CTester.m_opt m') = [1; -1]%float.
Proof.
  intros T m. eexists _, _.
  assert (Hrun : CTester.trial Fixtures.env0 T 2 2 0 (m, Fixtures.locals0 [42])
                 = Done (_, _)) by (vm_compute; reflexivity).
  split; [exact Hrun|].
  destruct (sign_vector_fixed Fixtures.env0 T) as (Htrial & _ & _).
  destruct (Htrial 2%nat 2 0 m _ (Fixtures.locals0 [42]) _ eq_refl Hrun) as [Hs _].
  exact Hs.
Defined.

(** * Further properties of the code *)

(** ** [CTester::init] and the entries of the corpus [run] reads *)

Lemma count_until_null_terminated (fs : list CTestFn.t)
  (rest : list (option CTestFn.t)) :
  CTester.count_until_null (map Some fs ++ None :: rest) = Z.of_nat (length fs).
Proof.
  induction fs as [|f fs IH]; [reflexivity|].
  cbn [map app CTester.count_until_null length]. rewrite IH. lia.
Qed.

Lemma for_loopM_throw {St : Type} (body : Z -> St -> res St) (n : nat) :
  forall (i : Z) (s : St) (e : exn),
  for_loopM n i body s = Throw e ->
  exists k x, i <= k < i + Z.of_nat n /\ body k x = Throw e.
Proof.
  induction n as [|n IH]; intros i s e Hrun; cbn [for_loopM] in Hrun;
    [discriminate Hrun|].
  destruct (body i s) as [s'|e'|] eqn:Hb; cbn [mbind res_bind] in Hrun.
  - apply IH in Hrun as (k & x & Hk & Hx). exists k, x. split; [lia|exact Hx].
  - injection Hrun as ->. exists i, s. split; [lia|exact Hb].
  - discriminate Hrun.
Qed.

Section Exceptions.
Context `{Opt : CBEOOptimizerFan}.
Variable env : Env.
Variable T : CTester.t.

(** X1. [init] sets [FnCount] to the number of functions that precede the
    first NULL of the corpus: whatever follows the terminator is ignored.
    The entries below [FnCount] are functions, the entry at [FnCount] is the
    NULL, and the optimizer object is not touched. *)
Theorem init_counts_functions (fs : list CTestFn.t)
  (rest : list (option CTestFn.t)) (aDefDims : Z) (aThreshold : double)
  (aIterCount aInnerIterCount : Z) (aDoRandomize aDoPrint : bool) :
  let T' := CTester.init aDefDims (map Some fs ++ None :: rest) aThreshold
              aIterCount aInnerIterCount aDoRandomize aDoPrint T in
  CTester.FnCount T' = Z.of_nat (length fs)
  /\ (forall k f, fs !! k = Some f -> CTester.Funcs T' !! k = Some (Some f))
  /\ CTester.Funcs T' !! length fs = Some None
  /\ CTester.opt T' = CTester.opt T.
Proof.
  cbn [CTester.init CTester.FnCount CTester.Funcs CTester.opt].
  split; [apply count_until_null_terminated|].
  split; [|split; [|reflexivity]].
  - intros k f Hk. rewrite lookup_app_l.
    + rewrite list_lookup_fmap, Hk. reflexivity.
    + rewrite length_map. apply lookup_lt_Some in Hk. exact Hk.
  - rewrite lookup_app_r by (rewrite length_map; lia).
    rewrite length_map, Nat.sub_diag. reflexivity.
Qed.

Lemma inner_loop_no_throw (fuel : nat) :
  forall (j i : Z) (m : CTester.Mach) (l : CTester.Locals) (e : exn),
  CTester.inner_loop env T fuel j i m l <> Throw e.
Proof.
  induction fuel as [|fuel IH]; intros j i m l e; [discriminate|].
  cbn [CTester.inner_loop].
  destruct (CTester.converged T _); [discriminate|].
  destruct (_ =? _); [discriminate|]. apply IH.
Qed.

Lemma run_fn_throw (fuel : nat) (k : Z) (a : CTester.Acc) (e : exn) :
  CTester.run_fn env T fuel k a = Throw e ->
  (e = null_dereference
   /\ forall f, CTester.Funcs T !! Z.to_nat k <> Some (Some f))
  \/ (e = bad_array_new_length
      /\ exists f, CTester.Funcs T !! Z.to_nat k = Some (Some f)
                   /\ resolve_dims T f < 0).
Proof.
  rewrite run_fn_unfold. intros Hrun.
  destruct (CTester.Funcs T !! Z.to_nat k) as [[f|]|] eqn:Hf;
    [|left; injection Hrun as <-; split; [reflexivity|discriminate]..].
  right.
  destruct (CTestOpt.updateDims env (resolve_dims T f) 0 _) as [o|e'|] eqn:Hu;
    cbn [mbind res_bind] in Hrun.
  - exfalso.
    destruct (for_ltM _ _ _) as [ml|e'|] eqn:Hl; cbn [mbind res_bind] in Hrun;
      [discriminate Hrun| |discriminate Hrun].
    apply for_loopM_throw in Hl as (j & [m l] & _ & Ht).
    unfold CTester.trial in Ht. exact (inner_loop_no_throw _ _ _ _ _ _ Ht).
  - injection Hrun as ->. unfold CTestOpt.updateDims, new_array in Hu.
    destruct (Z.ltb_spec (resolve_dims T f) 0) as [Hneg|Hpos].
    + cbn [mbind res_bind] in Hu. injection Hu as <-.
      split; [reflexivity|]. exists f. split; [reflexivity|exact Hneg].
    + discriminate Hu.
  - discriminate Hrun.
Qed.

(** X2. For a tester whose [FnCount] is the one [init] computed, [run] reads
    no entry of the corpus that is not a function: [Funcs[k]] is dereferenced
    only for [k] below [FnCount], and all those entries precede the
    terminating NULL. *)
Theorem run_reads_only_functions (fuel : nat) (r : RndState) (clk : nat) :
  CTester.FnCount T = CTester.count_until_null (CTester.Funcs T) ->
  CTester.run env T fuel r clk <> Throw null_dereference.
Proof.
  intros Hcount Hrun. rewrite run_unfold in Hrun. unfold new_array in Hrun.
  destruct (CTester.IterCount T <? 0); cbn [mbind res_bind] in Hrun;
    [discriminate Hrun|].
  destruct (for_ltM _ _ _) as [a|e'|] eqn:Hl; cbn [mbind res_bind] in Hrun;
    [discriminate Hrun| |discriminate Hrun].
  injection Hrun as ->.
  apply for_loopM_throw in Hl as (k & a & Hk & Hfn).
  assert (Hlt : Z.of_nat (Z.to_nat k) < CTester.count_until_null (CTester.Funcs T))
    by lia.
  apply run_fn_throw in Hfn as [[_ Hnone]|[Hbad _]]; [|discriminate Hbad].
  destruct (funcs_lookup _ _ Hlt) as [f Hf]. exact (Hnone f Hf).
Qed.

(** X4. With [InnerIterCount <= 0], as long as the [int] counter [i] cannot
    overflow - during the first 2^31 - 1 passes of the loop of a trial - the
    test [i == InnerIterCount] does not hold ([i] is at least 1 when it is
    made), so the loop can only stop by the comparison with the threshold: a
    trial that ends within these passes ends as a success, at the first step
    after which the best cost minus the optimum is below the threshold, and
    while no step meets the comparison the trial goes on. *)
Theorem trial_without_step_limit (fuel : nat) (j : Z) (m : CTester.Mach)
  (l : CTester.Locals) :
  let f := CTestOpt.fn (CTester.m_opt m) in
  CTester.InnerIterCount T <= 0 ->
  Z.of_nat fuel < 2 ^ 31 ->
  (forall m' l', CTester.inner_loop env T fuel j 0 m l = Done (m', l') ->
     exists s : nat,
       (1 <= s <= fuel)%nat
       /\ within_threshold T f (best_after env s m) = true
       /\ (forall s', (1 <= s' < s)%nat ->
             within_threshold T f (best_after env s' m) = false)
       /\ m' = after_steps env s m
       /\ l' = record_success j (Z.of_nat s) (best_after env s m) l)
  /\ ((forall s, (1 <= s <= fuel)%nat ->
         within_threshold T f (best_after env s m) = false) ->
      CTester.inner_loop env T fuel j 0 m l = OutOfFuel).
Proof.
  intros f HN _. unfold f. split.
  - intros m' l' Hrun.
    apply inner_loop_done in Hrun as (d & Hd & -> & Hb & [[Hc ->]|(_ & E & _)]);
      [|lia].
    exists d. split; [exact Hd|].
    split; [rewrite <- converged_after_threshold; exact Hc|].
    split; [|split; reflexivity].
    intros s' Hs'. rewrite <- converged_after_threshold. apply Hb. exact Hs'.
  - intros Hnever.
    destruct (CTester.inner_loop env T fuel j 0 m l) as [[m' l']|e|] eqn:Hrun;
      [| |reflexivity].
    + exfalso.
      apply inner_loop_done in Hrun as (d & Hd & _ & _ & [[Hc _]|(_ & E & _)]);
        [|lia].
      rewrite converged_after_threshold, (Hnever d Hd) in Hc. discriminate Hc.
    + exfalso. exact (inner_loop_no_throw _ _ _ _ _ _ Hrun).
Qed.

End Exceptions.

Lemma run_reads_only_functions_witness :
  let T := Fixtures.configure 2
             [Some Fixtures.sphere1; None; Some Fixtures.plateau; None]
             0.5%float 3 20 true false in
  CTester.FnCount T = 1
  /\ CTester.run Fixtures.env0 T 20 0%nat 0 <> Throw null_dereference.
Proof.
  intros T. split; [reflexivity|].
  exact (run_reads_only_functions Fixtures.env0 T 20 0%nat 0%nat eq_refl).
Defined.

Lemma trial_without_step_limit_witness :
  let T := Fixtures.configure 2 [Some Fixtures.plateau; None] (-1)%float 1 0 true false in
  CTester.InnerIterCount T <= 0
  /\ CTester.inner_loop Fixtures.env0 T 5 0 0 Fixtures.mach_plateau
       (Fixtures.locals0 [42]) = OutOfFuel.
Proof.
  intros T.
  assert (HN : CTester.InnerIterCount T <= 0) by (cbn; lia).
  split; [exact HN|].
  apply (trial_without_step_limit Fixtures.env0 T 5 0 Fixtures.mach_plateau
           (Fixtures.locals0 [42]) HN); [cbn; lia|].
  intros s Hs.
  do 6 (destruct s as [|s]; [first [lia|vm_compute; reflexivity]|]). lia.
Defined.

(** ** The calls and the report of a run *)

Lemma dims_calls_app (cs cs' : list CTester.OptCall) :
  dims_calls (cs ++ cs') = dims_calls cs ++ dims_calls cs'.
Proof.
  induction cs as [|[d|s|f s b] cs IH]; cbn [app dims_calls]; congruence.
Qed.

Lemma count_inits_app (cs cs' : list CTester.OptCall) :
  count_inits (cs ++ cs') = (count_inits cs + count_inits cs')%nat.
Proof.
  induction cs as [|[d|s|f s b] cs IH]; cbn [app count_inits]; lia.
Qed.

Lemma sumZ_snoc (xs : list Z) (x : Z) : sumZ (xs ++ [x]) = sumZ xs + x.
Proof.
  unfold sumZ. induction xs as [|y xs IH]; cbn [app foldr]; lia.
Qed.

Lemma optimize_calls_counts (f : CTestFn.t) (s : list double) (b : nat -> double)
  (ks : list nat) :
  dims_calls (map (fun k => CTester.CallOptimize f s (b k)) ks) = []
  /\ count_inits (map (fun k => CTester.CallOptimize f s (b k)) ks) = 0%nat
  /\ count_steps (map (fun k => CTester.CallOptimize f s (b k)) ks) = length ks.
Proof.
  induction ks as [|k ks (Hd & Hi & Hs)];
    cbn [map dims_calls count_inits count_steps length]; [auto|].
  rewrite Hs. auto.
Qed.

Section Log.
Context `{Opt : CBEOOptimizerFan}.
Variable env : Env.
Variable T : CTester.t.

(** What one trial adds to the log and to [Iters]. *)
Lemma trial_effect (fuel : nat) (Dims j : Z) (m m' : CTester.Mach)
  (l l' : CTester.Locals) :
  CTester.trial env T fuel Dims j (m, l) = Done (m', l') ->
  exists (cs : list CTester.OptCall) (x : Z),
    CTester.m_calls m' = CTester.m_calls m ++ cs
    /\ dims_calls cs = [] /\ count_inits cs = 1%nat
    /\ Z.of_nat (count_steps cs) = steps_of (CTester.InnerIterCount T) x
    /\ CTester.Iters l' = <[Z.to_nat j := x]> (CTester.Iters l).
Proof.
  intros Hrun. apply trial_shape in Hrun as (d & Hd & Hm' & Hcase).
  pose proof (trial_log env T fuel Dims j m m' l l' d Hm') as Hlog.
  destruct (optimize_calls_counts
              (CTestOpt.fn (CTester.m_opt (trial_start T Dims m)))
              (CTestOpt.signs (CTester.m_opt (trial_start T Dims m)))
              (fun k => best_after env k (trial_start T Dims m)) (seq 1 d))
    as (Hdc & Hic & Hsc).
  fold (step_calls env d (trial_start T Dims m)) in Hdc, Hic, Hsc.
  rewrite length_seq in Hsc.
  eexists _, (if converged_after env T d (trial_start T Dims m)
              then Z.of_nat d else -1).
  split; [exact Hlog|].
  cbn [dims_calls count_inits count_steps]. rewrite Hdc, Hic, Hsc.
  split; [reflexivity|]. split; [reflexivity|].
  destruct Hcase as [(Hc & _ & ->)|(Hc & HN & ->)]; rewrite Hc.
  - split; [|reflexivity]. unfold steps_of.
    destruct (Z.eqb_spec (Z.of_nat d) (-1)); lia.
  - split; [|reflexivity]. unfold steps_of. cbn [Z.eqb Z.opp Pos.eqb]. exact HN.
Qed.

(** What the trials of one function add. *)
Lemma trials_effect (fuel : nat) (Dims : Z) (m m' : CTester.Mach)
  (l l' : CTester.Locals) :
  0 <= CTester.IterCount T ->
  length (CTester.Iters l) = Z.to_nat (CTester.IterCount T) ->
  for_ltM (CTester.IterCount T) (CTester.trial env T fuel Dims) (m, l)
    = Done (m', l') ->
  length (CTester.Iters l') = Z.to_nat (CTester.IterCount T)
  /\ exists cs,
       CTester.m_calls m' = CTester.m_calls m ++ cs
       /\ dims_calls cs = []
       /\ Z.of_nat (count_inits cs) = CTester.IterCount T
       /\ Z.of_nat (count_steps cs)
          = sumZ (map (steps_of (CTester.InnerIterCount T))
                    (take (Z.to_nat (CTester.IterCount T)) (CTester.Iters l'))).
Proof.
  intros HK Hlen Hrun. unfold for_ltM in Hrun.
  apply (for_loopM_inv
           (fun j ml =>
              length (CTester.Iters ml.2) = Z.to_nat (CTester.IterCount T)
              /\ exists cs,
                   CTester.m_calls ml.1 = CTester.m_calls m ++ cs
                   /\ dims_calls cs = []
                   /\ Z.of_nat (count_inits cs) = j
                   /\ Z.of_nat (count_steps cs)
                      = sumZ (map (steps_of (CTester.InnerIterCount T))
                                (take (Z.to_nat j) (CTester.Iters ml.2)))))
    in Hrun.
  - cbn [fst snd] in Hrun. rewrite Z.add_0_l, Z2Nat.id in Hrun by exact HK.
    exact Hrun.
  - cbn [fst snd]. split; [exact Hlen|]. exists [].
    rewrite app_nil_r. repeat split.
  - intros j [m1 l1] [m2 l2] Hj (Hl & cs & Hc & Hd & Hi & Hs) Hstep.
    apply trial_effect in Hstep as (cs' & x & Hc' & Hd' & Hi' & Hs' & HI).
    cbn [fst snd] in *. split; [rewrite HI, length_insert; exact Hl|].
    exists (cs ++ cs'). rewrite Hc', Hc, <- app_assoc.
    rewrite dims_calls_app, count_inits_app, count_steps_app, Hd, Hd'.
    split; [reflexivity|]. split; [reflexivity|]. split; [lia|].
    replace (Z.to_nat (j + 1)) with (S (Z.to_nat j)) by lia.
    rewrite HI, take_insert_snoc by lia.
    rewrite map_app. cbn [map]. rewrite sumZ_snoc. lia.
Qed.

(** What the pass over one function adds. *)
Lemma run_fn_effect (fuel : nat) (k : Z) (a a' : CTester.Acc) :
  0 <= CTester.IterCount T ->
  length (CTester.a_Iters a) = Z.to_nat (CTester.IterCount T) ->
  CTester.run_fn env T fuel k a = Done a' ->
  exists f fs cs,
    CTester.Funcs T !! Z.to_nat k = Some (Some f)
    /\ length (CTester.a_Iters a') = Z.to_nat (CTester.IterCount T)
    /\ CTester.m_calls (CTester.a_mach a')
       = CTester.m_calls (CTester.a_mach a)
         ++ CTester.CallUpdateDims (resolve_dims T f) :: cs
    /\ dims_calls cs = []
    /\ Z.of_nat (count_inits cs) = CTester.IterCount T
    /\ Z.of_nat (count_steps cs) = steps_recorded T fs
    /\ CTester.a_stats a' = CTester.a_stats a ++ [fs]
    /\ CTester.a_stdout a'
       = CTester.a_stdout a
         ++ (if CTester.DoPrint T then [report_line T f fs] else []).
Proof.
  intros HK Hlen Hrun.
  apply run_fn_done in Hrun as (f & o & [m l] & Hf & Hu & Hl & ->).
  apply trials_effect in Hl as (Hlen' & cs & Hc & Hd & Hi & Hs);
    [|exact HK|exact Hlen].
  exists f, (stats_of T l), cs. split; [exact Hf|].
  cbn [fn_exit CTester.a_Iters CTester.a_mach CTester.a_stats CTester.a_stdout
       fst snd].
  split; [exact Hlen'|]. split.
  { rewrite Hc. cbn [fn_entry fst CTester.m_calls]. rewrite <- app_assoc.
    reflexivity. }
  split; [exact Hd|]. split; [exact Hi|]. split; [exact Hs|].
  split; reflexivity.
Qed.

(** The whole run: the functions processed, the calls made and the lines
    printed. *)
Lemma run_effect (fuel : nat) (r : RndState) (clk : nat) (out : CTester.Outcome) :
  CTester.run env T fuel r clk = Done out ->
  exists fs : list CTestFn.t,
    take (Z.to_nat (CTester.FnCount T)) (CTester.Funcs T) = map Some fs
    /\ length fs = Z.to_nat (CTester.FnCount T)
    /\ length (CTester.o_stats out) = length fs
    /\ dims_calls (CTester.o_calls out) = map (resolve_dims T) fs
    /\ Z.of_nat (count_inits (CTester.o_calls out))
       = Z.of_nat (length fs) * CTester.IterCount T
    /\ Z.of_nat (count_steps (CTester.o_calls out))
       = sumZ (map (steps_recorded T) (CTester.o_stats out))
    /\ CTester.o_stdout out
       = if CTester.DoPrint T
         then zip_with (report_line T) fs (CTester.o_stats out)
              ++ summary_lines (CTester.o_tester out)
         else [].
Proof.
  intros Hrun. apply run_done in Hrun as (HK & a & Hloop & ->).
  unfold for_ltM in Hloop.
  apply (for_loopM_inv
           (fun k a =>
              length (CTester.a_Iters a) = Z.to_nat (CTester.IterCount T)
              /\ exists fs : list CTestFn.t,
                   take (Z.to_nat k) (CTester.Funcs T) = map Some fs
                   /\ length fs = Z.to_nat k
                   /\ length (CTester.a_stats a) = length fs
                   /\ dims_calls (CTester.m_calls (CTester.a_mach a))
                      = map (resolve_dims T) fs
                   /\ Z.of_nat (count_inits (CTester.m_calls (CTester.a_mach a)))
                      = Z.of_nat (length fs) * CTester.IterCount T
                   /\ Z.of_nat (count_steps (CTester.m_calls (CTester.a_mach a)))
                      = sumZ (map (steps_recorded T) (CTester.a_stats a))
                   /\ CTester.a_stdout a
                      = if CTester.DoPrint T
                        then zip_with (report_line T) fs (CTester.a_stats a)
                        else []))
    in Hloop.
  - destruct Hloop as (_ & fs & Hfs & Hn & Hst & Hd & Hi & Hs & Hout).
    rewrite Z.add_0_l, Nat2Z.id in Hfs, Hn.
    exists fs. cbn [finish CTester.o_stats CTester.o_calls CTester.o_stdout
                    CTester.o_tester].
    repeat (split; [assumption|]).
    rewrite Hout. unfold summary_lines.
    cbn [CTester.ItAvg CTester.ItRtAvg CTester.RjAvg CTester.tc].
    destruct (CTester.DoPrint T); reflexivity.
  - cbn [acc0 CTester.a_Iters CTester.a_mach CTester.a_stats CTester.a_stdout
         CTester.m_calls].
    split; [apply length_replicate|]. exists [].
    cbn [Z.to_nat take map length dims_calls count_inits count_steps zip_with].
    repeat split; try reflexivity.
    destruct (CTester.DoPrint T); reflexivity.
  - intros k a1 a2 Hk (Hlen & fs & Hfs & Hn & Hst & Hd & Hi & Hs & Hout) Hstep.
    apply run_fn_effect in Hstep
      as (f & st & cs & Hf & Hlen' & Hc & Hd' & Hi' & Hs' & Hst' & Hout');
      [|exact HK|exact Hlen].
    split; [exact Hlen'|]. exists (fs ++ [f]).
    replace (Z.to_nat (k + 1)) with (S (Z.to_nat k)) by lia.
    rewrite (take_S_r _ _ _ Hf), Hfs, Hst', Hc, Hout', Hout.
    rewrite !map_app, !length_app. cbn [map length].
    rewrite dims_calls_app, count_inits_app, count_steps_app.
    cbn [dims_calls count_inits count_steps].
    rewrite Hd, Hd', sumZ_snoc.
    split; [reflexivity|]. split; [lia|]. split; [lia|].
    split; [reflexivity|]. split; [lia|]. split; [lia|].
    destruct (CTester.DoPrint T); [|reflexivity].
    rewrite zip_with_app by (symmetry; exact Hst). reflexivity.
Qed.

End Log.

(** ** Every trial is counted once (C10) *)

Section Counted.
Context `{Opt : CBEOOptimizerFan}.
Variable env : Env.
Variable T : CTester.t.

(** C10. With [IterCount >= 1] and [InnerIterCount >= 1], a run that
    completes has processed every function of the corpus - there is one
    statistics record per function, and the optimizer was initialised once
    for each of the [FnCount * IterCount] trials - and for every function:
    [Iters] holds one entry per trial, each either a step count in
    [1 .. InnerIterCount] (a success) or [-1] (a reject); [Rej] is the number
    of [-1] entries; successes and rejects add up to [IterCount]; and the
    reject rate [(double) Rej / IterCount] lies between 0 and 1.  For a valid
    configuration and enough fuel for one trial, [run] does return. *)
Theorem every_trial_counted (fuel : nat) (r : RndState) (clk : nat) :
  1 <= CTester.IterCount T < 2 ^ 31 ->
  1 <= CTester.InnerIterCount T ->
  (forall out, CTester.run env T fuel r clk = Done out ->
     Z.of_nat (length (CTester.o_stats out)) = Z.max 0 (CTester.FnCount T)
     /\ Z.of_nat (count_inits (CTester.o_calls out))
        = Z.max 0 (CTester.FnCount T) * CTester.IterCount T
     /\ Forall (outcomes_counted T) (CTester.o_stats out))
  /\ (valid_config T ->
      (Z.to_nat (CTester.InnerIterCount T) <= fuel)%nat ->
      exists out, CTester.run env T fuel r clk = Done out).
Proof.
  intros HK HN. split.
  - intros out Hrun.
    pose proof (run_effect env T fuel r clk out Hrun)
      as (fs & _ & Hn & _ & _ & Hi & _).
    destruct (run_stats_Forall env T (outcomes_counted T) fuel r clk out)
      as [Hall Hlen]; [|exact Hrun|].
    { intros k a f o m l _ _ _ _ _ Hinv.
      apply outcomes_counted_stats; assumption. }
    split; [exact Hlen|]. split; [|exact Hall].
    rewrite Hi, Hn. f_equal. lia.
  - intros Hv Hfuel. apply run_total; assumption.
Qed.

End Counted.

Lemma every_trial_counted_witness :
  let T := Fixtures.configure 2 [Some Fixtures.sphere1; Some Fixtures.plateau; None]
             0.5%float 3 20 true false in
  1 <= CTester.IterCount T < 2 ^ 31
  /\ 1 <= CTester.InnerIterCount T
  /\ exists out,
       CTester.run Fixtures.env0 T 20 0%nat 0 = Done out
       /\ Z.of_nat (length (CTester.o_stats out)) = 2
       /\ Z.of_nat (count_inits (CTester.o_calls out)) = 6
       /\ Forall (outcomes_counted T) (CTester.o_stats out).
Proof.
  intros T.
  assert (HK : 1 <= CTester.IterCount T < 2 ^ 31) by (simpl; lia).
  assert (HN : 1 <= CTester.InnerIterCount T) by (simpl; lia).
  split; [exact HK|]. split; [exact HN|].
  destruct (every_trial_counted Fixtures.env0 T 20 0%nat 0%nat HK HN) as [Hall Htot].
  destruct Htot as (out & Hout).
  - split; [reflexivity|]. split; [simpl; lia|]. split; [simpl; lia|].
    intros [|[|[|k]]] f Hf Hk; simpl in Hf; try discriminate;
      injection Hf as <-; vm_compute; discriminate.
  - simpl. lia.
  - exists out. split; [exact Hout|]. apply Hall. exact Hout.
Defined.

Section Report.
Context `{Opt : CBEOOptimizerFan}.
Variable env : Env.
Variable T : CTester.t.

(** X7. With printing disabled [run] prints nothing.  With printing enabled
    it prints one line per function of the corpus, in corpus order - the
    average and the RMS of the iterations, [100.0 * Rej / IterCount], the two
    cost averages, the name and the resolved number of dimensions - and then
    the four summary lines with [ItAvg], [ItRtAvg], [RjAvg * 100.0] and [tc]
    as it leaves them in the object. *)
Theorem run_report (fuel : nat) (r : RndState) (clk : nat) (out : CTester.Outcome) :
  CTester.run env T fuel r clk = Done out ->
  exists fs : list CTestFn.t,
    take (Z.to_nat (CTester.FnCount T)) (CTester.Funcs T) = map Some fs
    /\ length (CTester.o_stats out) = length fs
    /\ CTester.o_stdout out
       = if CTester.DoPrint T
         then zip_with (report_line T) fs (CTester.o_stats out)
              ++ summary_lines (CTester.o_tester out)
         else [].
Proof.
  intros Hrun.
  apply run_effect in Hrun as (fs & Hfs & _ & Hst & _ & _ & _ & Hout).
  exists fs. split; [exact Hfs|]. split; [exact Hst|exact Hout].
Qed.

(** X8. A run that completes has called [updateDims] exactly once for every
    function of the corpus, in corpus order, each time with the function's
    own number of dimensions or, where that is 0, with [DefDims]. *)
Theorem run_sizes_every_function (fuel : nat) (r : RndState) (clk : nat)
  (out : CTester.Outcome) :
  CTester.run env T fuel r clk = Done out ->
  exists fs : list CTestFn.t,
    take (Z.to_nat (CTester.FnCount T)) (CTester.Funcs T) = map Some fs
    /\ length fs = Z.to_nat (CTester.FnCount T)
    /\ dims_calls (CTester.o_calls out)
       = map (fun f => if CTestFn.Dims f =? 0 then CTester.DefDims T
                       else CTestFn.Dims f) fs.
Proof.
  intros Hrun.
  apply run_effect in Hrun as (fs & Hfs & Hn & _ & Hd & _).
  exists fs. split; [exact Hfs|]. split; [exact Hn|exact Hd].
Qed.

(** X9. For [InnerIterCount >= 1], the work of a run that completes, read off
    its statistics: the optimizer was initialised [FnCount * IterCount] times,
    once per trial, and the number of optimizer steps is the sum, over all
    functions and trials, of the recorded iteration count of a successful
    trial and of [InnerIterCount] for a rejected one. *)
Theorem run_work (fuel : nat) (r : RndState) (clk : nat) (out : CTester.Outcome) :
  1 <= CTester.InnerIterCount T ->
  CTester.run env T fuel r clk = Done out ->
  Z.of_nat (count_inits (CTester.o_calls out))
  = Z.max 0 (CTester.FnCount T) * CTester.IterCount T
  /\ Z.of_nat (count_steps (CTester.o_calls out))
     = sumZ (map (steps_recorded T) (CTester.o_stats out)).
Proof.
  intros _ Hrun.
  apply run_effect in Hrun as (fs & _ & Hn & _ & _ & Hi & Hs & _).
  split; [|exact Hs]. rewrite Hi, Hn. f_equal. lia.
Qed.

End Report.

Lemma run_report_witness :
  let T := Fixtures.configure 2 [Some Fixtures.sphere1; Some Fixtures.plateau; None]
             0.5%float 3 20 true true in
  exists out fs,
    CTester.run Fixtures.env0 T 20 0%nat 0 = Done out
    /\ take 2 (CTester.Funcs T) = map Some fs
    /\ CTester.o_stdout out
       = zip_with (report_line T) fs (CTester.o_stats out)
         ++ summary_lines (CTester.o_tester out).
Proof.
  intros T. eexists.
  assert (Hrun : CTester.run Fixtures.env0 T 20 0%nat 0 = Done _)
    by (vm_compute; reflexivity).
  destruct (run_report Fixtures.env0 T 20 0%nat 0%nat _ Hrun)
    as (fs & Hfs & _ & Hout).
  exists fs. split; [exact Hrun|]. split; [exact Hfs|exact Hout].
Defined.

Lemma run_sizes_every_function_witness :
  let T := Fixtures.configure 2 [Some Fixtures.sphere1; Some Fixtures.plateau; None]
             0.5%float 3 20 true false in
  exists out,
    CTester.run Fixtures.env0 T 20 0%nat 0 = Done out
    /\ dims_calls (CTester.o_calls out) = [1; 2].
Proof.
  intros T. eexists.
  assert (Hrun : CTester.run Fixtures.env0 T 20 0%nat 0 = Done _)
    by (vm_compute; reflexivity).
  split; [exact Hrun|].
  destruct (run_sizes_every_function Fixtures.env0 T 20 0%nat 0%nat _ Hrun)
    as (fs & Hfs & _ & Hd).
  rewrite Hd.
  change (take 2 [Some Fixtures.sphere1; Some Fixtures.plateau; None] = map Some fs)
    in Hfs.
  destruct fs as [|f1 [|f2 [|f3 fs]]]; try discriminate Hfs.
  injection Hfs as <- <-. reflexivity.
Defined.

Lemma run_work_witness :
  let T := Fixtures.configure 2 [Some Fixtures.sphere1; Some Fixtures.plateau; None]
             0.5%float 3 20 true false in
  exists out,
    CTester.run Fixtures.env0 T 20 0%nat 0 = Done out
    /\ Z.of_nat (count_inits (CTester.o_calls out)) = 6
    /\ Z.of_nat (count_steps (CTester.o_calls out))
       = sumZ (map (steps_recorded T) (CTester.o_stats out)).
Proof.
  intros T. eexists.
  assert (Hrun : CTester.run Fixtures.env0 T 20 0%nat 0 = Done _)
    by (vm_compute; reflexivity).
  split; [exact Hrun|].
  apply (run_work Fixtures.env0 T 20 0%nat 0%nat _); [cbn; lia|exact Hrun].
Defined.

(** ** The accumulators of a function are exact *)

Lemma holds_int_add_int (x : float) (N d : Z) :
  0 <= N -> 1 <= d -> N + d < 2 ^ 53 -> holds_int x N ->
  holds_int (x + double_of_int d)%float (N + d).
Proof.
  intros HN Hd Hlt Hx. unfold holds_int in *.
  replace (N + d =? 0) with false by (symmetry; apply Z.eqb_neq; lia).
  rewrite FloatAxioms.add_spec, (double_of_int_normal d) by lia.
  destruct (Z.eqb_spec N 0) as [->|Hnz].
  - rewrite Hx. reflexivity.
  - rewrite Hx. apply SFadd_normal; lia.
Qed.

Lemma holds_int_eq (x : float) (N : Z) :
  0 <= N < 2 ^ 53 -> holds_int x N -> x = double_of_int N.
Proof.
  intros HN Hx. unfold holds_int in Hx.
  destruct (Z.eqb_spec N 0) as [->|Hnz]; [exact Hx|].
  apply Prim2SF_inj. rewrite Hx, double_of_int_normal by lia. reflexivity.
Qed.

Lemma successes_complement (its : list Z) :
  Forall (fun x => x = -1 \/ 1 <= x) its ->
  (length (successes its) + length (rejects its) = length its)%nat.
Proof.
  unfold successes, rejects.
  induction 1 as [|x its [->|Hx] _ IH].
  - reflexivity.
  - rewrite filter_cons_False, filter_cons_True by lia. simpl. lia.
  - rewrite filter_cons_True, filter_cons_False by lia. simpl. lia.
Qed.

Lemma successes_snoc (its : list Z) (x : Z) :
  successes (its ++ [x]) = successes its ++ (if 1 <=? x then [x] else []).
Proof.
  unfold successes. rewrite filter_app. f_equal.
  destruct (Z.leb_spec 1 x) as [Hx|Hx].
  - rewrite filter_cons_True by exact Hx. reflexivity.
  - rewrite filter_cons_False by lia. reflexivity.
Qed.

(** The quotient of two counts at its ends. *)
Lemma ratio_endpoints (a b : Z) :
  0 <= a <= b -> 1 <= b < 2 ^ 53 ->
  ((double_of_int a / double_of_int b)%float = 0%float <-> a = 0)
  /\ (a = b -> (double_of_int a / double_of_int b)%float = 1%float).
Proof.
  intros Ha Hb. split; [split|].
  - intros Hz. destruct (Z.eq_dec a 0) as [E|Hnz]; [exact E|exfalso].
    apply (f_equal Prim2SF) in Hz.
    rewrite FloatAxioms.div_spec, (double_of_int_normal a),
      (double_of_int_normal b) in Hz by lia.
    change (Prim2SF 0%float) with (S754_zero false) in Hz.
    destruct (Z.eq_dec a b) as [->|Hne].
    + pose proof (SFdiv_normal b 1 ltac:(lia) ltac:(lia) ltac:(lia)) as Hd.
      rewrite Z.mul_1_r in Hd. rewrite Hd, normal_one in Hz. discriminate Hz.
    + destruct (SFdiv_normal_lt a b ltac:(lia) ltac:(lia) ltac:(lia))
        as (m & e & Hq & _).
      rewrite Hq in Hz. discriminate Hz.
  - intros ->. apply Prim2SF_inj.
    rewrite FloatAxioms.div_spec, (double_of_int_normal b) by lia.
    change (Prim2SF (double_of_int 0)) with (S754_zero false).
    reflexivity.
  - intros ->. apply Prim2SF_inj.
    rewrite FloatAxioms.div_spec, (double_of_int_normal b) by lia.
    pose proof (SFdiv_normal b 1 ltac:(lia) ltac:(lia) ltac:(lia)) as Hd.
    rewrite Z.mul_1_r in Hd. rewrite Hd. reflexivity.
Qed.

Section Exact.
Context `{Opt : CBEOOptimizerFan}.
Variable env : Env.
Variable T : CTester.t.

(** The sum of the iteration counts is kept without rounding. *)
Lemma trials_iter_sum (fuel : nat) (Dims : Z) (ml ml' : CTester.Mach * CTester.Locals) :
  1 <= CTester.InnerIterCount T ->
  CTester.IterCount T * CTester.InnerIterCount T < 2 ^ 53 ->
  0 <= CTester.IterCount T ->
  length (CTester.Iters ml.2) = Z.to_nat (CTester.IterCount T) ->
  CTester.AvgIter ml.2 = 0%float ->
  for_ltM (CTester.IterCount T) (CTester.trial env T fuel Dims) ml = Done ml' ->
  holds_int (CTester.AvgIter ml'.2)
    (sumZ (successes (take (Z.to_nat (CTester.IterCount T)) (CTester.Iters ml'.2))))
  /\ 0 <= sumZ (successes (take (Z.to_nat (CTester.IterCount T))
                             (CTester.Iters ml'.2))) < 2 ^ 53.
Proof.
  intros HN Hlt HK Hlen H0 Hrun. unfold for_ltM in Hrun.
  apply (for_loopM_inv
           (fun j ml =>
              length (CTester.Iters ml.2) = Z.to_nat (CTester.IterCount T)
              /\ holds_int (CTester.AvgIter ml.2)
                   (sumZ (successes (take (Z.to_nat j) (CTester.Iters ml.2))))
              /\ 0 <= sumZ (successes (take (Z.to_nat j) (CTester.Iters ml.2)))
                 <= j * CTester.InnerIterCount T))
    in Hrun.
  - rewrite Z.add_0_l, Z2Nat.id in Hrun by exact HK.
    destruct Hrun as (_ & Hh & Hb). split; [exact Hh|lia].
  - assert (E : successes (take (Z.to_nat 0) (CTester.Iters ml.2)) = [])
      by reflexivity.
    rewrite E. change (sumZ []) with 0.
    split; [exact Hlen|]. split; [exact H0|lia].
  - intros j [m1 l1] [m2 l2] Hj (Hl & Hh & Hb) Hstep.
    apply trial_shape in Hstep as (d & Hd & _ & Hcase). cbn [fst snd] in *.
    assert (Hjn : (j + 1) * CTester.InnerIterCount T
                  <= CTester.IterCount T * CTester.InnerIterCount T)
      by (apply Z.mul_le_mono_nonneg_r; lia).
    replace (Z.to_nat (j + 1)) with (S (Z.to_nat j)) by lia.
    destruct Hcase as [(_ & Hdn & ->)|(_ & _ & ->)];
      cbn [record_success record_reject CTester.Iters CTester.AvgIter];
      rewrite take_insert_snoc by lia; rewrite successes_snoc.
    + specialize (Hdn HN).
      replace (1 <=? Z.of_nat d) with true by (symmetry; apply Z.leb_le; lia).
      rewrite sumZ_snoc, length_insert.
      split; [exact Hl|]. split; [|lia].
      apply holds_int_add_int; [lia|lia|lia|exact Hh].
    + cbn [Z.leb Z.compare]. rewrite app_nil_r, length_insert.
      split; [exact Hl|]. split; [exact Hh|lia].
Qed.

(** X10. When [IterCount * InnerIterCount] is below 2^53 (and
    [InnerIterCount >= 1]), the accumulator [AvgIter] of every function holds
    the sum of the iteration counts of its successful trials exactly, as an
    integer, and for a function with a success the reported average is the
    one binary64 division of that sum by the number of successes. *)
Theorem iteration_average_exact (fuel : nat) (r : RndState) (clk : nat)
  (out : CTester.Outcome) :
  1 <= CTester.InnerIterCount T ->
  CTester.IterCount T * CTester.InnerIterCount T < 2 ^ 53 ->
  CTester.run env T fuel r clk = Done out ->
  Forall (fun fs =>
            let succ := successes (CTester.iterations fs) in
            CTester.iterSum fs = double_of_int (sumZ succ)
            /\ (succ <> [] ->
                CTester.avgIterations fs
                = (double_of_int (sumZ succ)
                   / double_of_int (Z.of_nat (length succ)))%float))
    (CTester.o_stats out).
Proof.
  intros HN Hlt Hrun.
  pose proof (run_done env T _ _ _ _ Hrun) as (HK & _).
  apply (run_stats_Forall env T
           (fun fs =>
              let succ := successes (CTester.iterations fs) in
              CTester.iterSum fs = double_of_int (sumZ succ)
              /\ (succ <> [] ->
                  CTester.avgIterations fs
                  = (double_of_int (sumZ succ)
                     / double_of_int (Z.of_nat (length succ)))%float))
           fuel r clk out); [|exact Hrun].
  intros k a f o m l _ _ Hlen _ Hl (Hlen' & Hall & Hrej & _ & _).
  destruct (trials_iter_sum fuel (resolve_dims T f) (fn_entry T a f o) (m, l)
              HN Hlt HK Hlen eq_refl Hl) as [Hsum Hb].
  cbn [snd] in Hsum, Hb.
  unfold stats_of.
  cbn [CTester.iterations CTester.iterSum CTester.avgIterations CTester.rejectCount].
  set (its := take (Z.to_nat (CTester.IterCount T)) (CTester.Iters l)) in *.
  pose proof (holds_int_eq _ _ Hb Hsum) as Heq.
  split; [exact Heq|]. intros Hne.
  assert (Hlits : length its = Z.to_nat (CTester.IterCount T)).
  { unfold its. rewrite length_take. lia. }
  assert (Hcount : (length (successes its) + length (rejects its) = length its)%nat).
  { apply successes_complement. eapply Forall_impl; [exact Hall|].
    intros x [->|[H1 _]]; [left; reflexivity|right; exact H1]. }
  fold (rejects its) in Hrej.
  assert (Hpos : (1 <= length (successes its))%nat)
    by (destruct (successes its); [congruence|simpl; lia]).
  destruct (Z.leb_spec (CTester.IterCount T) (CTester.Rej l)) as [Hle|_]; [lia|].
  rewrite Heq. do 2 f_equal. lia.
Qed.

(** X11. For [1 <= IterCount < 2^53] the reject rate of a function is exactly
    [0.0] if and only if none of its trials was rejected, and it is exactly
    [1.0] when all of them were. *)
Theorem reject_rate_endpoints (fuel : nat) (r : RndState) (clk : nat)
  (out : CTester.Outcome) :
  1 <= CTester.IterCount T < 2 ^ 53 ->
  CTester.run env T fuel r clk = Done out ->
  Forall (fun fs =>
            (CTester.rejectRate fs = 0%float <-> CTester.rejectCount fs = 0)
            /\ (CTester.rejectCount fs = CTester.IterCount T ->
                CTester.rejectRate fs = 1%float))
    (CTester.o_stats out).
Proof.
  intros HK Hrun.
  apply (run_stats_Forall env T
           (fun fs =>
              (CTester.rejectRate fs = 0%float <-> CTester.rejectCount fs = 0)
              /\ (CTester.rejectCount fs = CTester.IterCount T ->
                  CTester.rejectRate fs = 1%float))
           fuel r clk out); [|exact Hrun].
  intros k a f o m l _ _ _ _ _ (Hlen & _ & Hrej & _ & _).
  unfold stats_of. cbn [CTester.rejectRate CTester.rejectCount].
  apply ratio_endpoints; [|exact HK].
  rewrite Hrej.
  pose proof (length_filter (fun x => x = -1)
                (take (Z.to_nat (CTester.IterCount T)) (CTester.Iters l))) as Hf.
  rewrite length_take in Hf. lia.
Qed.

End Exact.

Lemma iteration_average_exact_witness :
  let T := Fixtures.configure 2 [Some Fixtures.sphere1; Some Fixtures.plateau; None]
             0.5%float 3 20 true false in
  exists out,
    CTester.run Fixtures.env0 T 20 0%nat 0 = Done out
    /\ Forall (fun fs =>
                 CTester.iterSum fs
                 = double_of_int (sumZ (successes (CTester.iterations fs))))
         (CTester.o_stats out).
Proof.
  intros T. eexists.
  assert (Hrun : CTester.run Fixtures.env0 T 20 0%nat 0 = Done _)
    by (vm_compute; reflexivity).
  split; [exact Hrun|].
  assert (HN : 1 <= CTester.InnerIterCount T) by (cbn; lia).
  assert (Hlt : CTester.IterCount T * CTester.InnerIterCount T < 2 ^ 53)
    by (cbn; lia).
  eapply Forall_impl;
    [exact (iteration_average_exact Fixtures.env0 T 20 0%nat 0%nat _ HN Hlt Hrun)|].
  intros fs [Hsum _]. exact Hsum.
Defined.

Lemma reject_rate_endpoints_witness :
  let T := Fixtures.configure 2 [Some Fixtures.sphere1; Some Fixtures.plateau; None]
             0.5%float 3 20 true false in
  exists out,
    CTester.run Fixtures.env0 T 20 0%nat 0 = Done out
    /\ Forall (fun fs =>
                 CTester.rejectRate fs = 0%float <-> CTester.rejectCount fs = 0)
         (CTester.o_stats out).
Proof.
  intros T. eexists.
  assert (Hrun : CTester.run Fixtures.env0 T 20 0%nat 0 = Done _)
    by (vm_compute; reflexivity).
  split; [exact Hrun|].
  assert (HK : 1 <= CTester.IterCount T < 2 ^ 53) by (cbn; lia).
  eapply Forall_impl;
    [exact (reject_rate_endpoints Fixtures.env0 T 20 0%nat 0%nat _ HK Hrun)|].
  intros fs [Hz _]. exact Hz.
Defined.

(** ** A run in which nothing converges *)

Lemma fsum_ones (xs : list double) :
  Forall (fun x => x = 1%float) xs ->
  Z.of_nat (length xs) < 2 ^ 53 ->
  holds_int (fsum xs) (Z.of_nat (length xs)).
Proof.
  induction xs as [|x xs IH] using rev_ind; intros Hall Hlen; [reflexivity|].
  apply Forall_app in Hall as [Hall Hx]. apply Forall_cons in Hx as [-> _].
  rewrite length_app in *. cbn [length] in *.
  rewrite fsum_snoc.
  replace (Z.of_nat (length xs + 1)) with (Z.of_nat (length xs) + 1) by lia.
  apply (holds_int_add_int _ _ 1); [lia|lia|lia|].
  apply IH; [exact Hall|lia].
Qed.

Lemma mean_one (x : float) (n : Z) :
  1 <= n < 2 ^ 53 -> holds_int x n -> (x / double_of_int n)%float = 1%float.
Proof.
  intros Hn Hx. rewrite (holds_int_eq x n) by (lia || exact Hx).
  apply ratio_endpoints; [lia|exact Hn|reflexivity].
Qed.

Section NothingConverges.
Context `{Opt : CBEOOptimizerFan}.
Variable env : Env.
Variable T : CTester.t.

(** The three sums of [run] over the functions processed. *)
Lemma run_sums (fuel : nat) (r : RndState) (clk : nat) (out : CTester.Outcome) :
  CTester.run env T fuel r clk = Done out ->
  CTester.ItRtAvg (CTester.o_tester out)
  = mean_of (map (fun s => (CTester.rmsIterations s / CTester.avgIterations s)%float)
               (CTester.o_stats out)) (CTester.FnCount T)
  /\ CTester.RjAvg (CTester.o_tester out)
     = mean_of (map CTester.rejectRate (CTester.o_stats out)) (CTester.FnCount T)
  /\ length (CTester.o_stats out) = Z.to_nat (CTester.FnCount T)
  /\ (Forall (stays_above T) (CTester.o_calls out) ->
      Forall (total_failure T) (CTester.o_stats out)).
Proof.
  intros Hrun. apply run_done in Hrun as (HK & a & Hloop & ->).
  unfold for_ltM in Hloop.
  apply (for_loopM_inv
           (fun k a =>
              CTester.a_ItRtAvg a
              = fsum (map (fun s => (CTester.rmsIterations s
                                     / CTester.avgIterations s)%float)
                        (CTester.a_stats a))
              /\ CTester.a_RjAvg a = fsum (map CTester.rejectRate (CTester.a_stats a))
              /\ length (CTester.a_stats a) = Z.to_nat k
              /\ (Forall (stays_above T) (CTester.m_calls (CTester.a_mach a)) ->
                  Forall (total_failure T) (CTester.a_stats a))))
    in Hloop.
  - destruct Hloop as (Hrt & Hrj & Hn & Hfail).
    rewrite Z.add_0_l, Nat2Z.id in Hn.
    cbn [finish CTester.o_tester CTester.o_stats CTester.o_calls CTester.ItRtAvg
         CTester.RjAvg].
    unfold mean_of. rewrite Hrt, Hrj. auto.
  - cbn [acc0 CTester.a_ItRtAvg CTester.a_RjAvg CTester.a_stats CTester.a_mach
         CTester.m_calls map].
    repeat split. intros _. constructor.
  - intros k a1 a2 Hk (Hrt & Hrj & Hn & Hfail) Hstep.
    pose proof (run_fn_all_rejected env T fuel k a1 a2 HK Hstep)
      as (cs & fs & Hc & Hst & _ & Htf).
    apply run_fn_done in Hstep as (f & o & ml & _ & _ & _ & ->).
    cbn [fn_exit CTester.a_ItRtAvg CTester.a_RjAvg CTester.a_stats CTester.a_mach]
      in *.
    apply app_inj_tail in Hst as [_ <-].
    rewrite !map_app. cbn [map]. rewrite !fsum_snoc, Hrt, Hrj, length_app.
    cbn [length].
    split; [reflexivity|]. split; [reflexivity|]. split; [lia|].
    rewrite Hc. intros Hall. apply Forall_app in Hall as [Ha Hcs].
    apply Forall_app. split; [exact (Hfail Ha)|].
    constructor; [exact (Htf Hcs)|constructor].
Qed.

(** X12. When no best cost reported after a step of a run is within the
    threshold of the known optimum (and [1 <= FnCount, IterCount < 2^53]),
    the run leaves [ItRtAvg = 1.0] and [RjAvg = 1.0]: every function
    contributes the ratio [1000000.0 / 1000000.0] of the two sentinels and the
    reject rate [IterCount / IterCount], and the sum of [FnCount] ones divided
    by [FnCount] is exact. *)
Theorem total_failure_ratios (fuel : nat) (r : RndState) (clk : nat)
  (out : CTester.Outcome) :
  1 <= CTester.FnCount T < 2 ^ 53 ->
  1 <= CTester.IterCount T < 2 ^ 53 ->
  CTester.run env T fuel r clk = Done out ->
  Forall (stays_above T) (CTester.o_calls out) ->
  CTester.ItRtAvg (CTester.o_tester out) = 1%float
  /\ CTester.RjAvg (CTester.o_tester out) = 1%float.
Proof.
  intros HF HK Hrun Habove.
  destruct (run_sums fuel r clk out Hrun) as (-> & -> & Hn & Hfail).
  specialize (Hfail Habove). unfold mean_of.
  assert (Hlen : Z.of_nat (length (CTester.o_stats out)) = CTester.FnCount T) by lia.
  split.
  - apply mean_one; [exact HF|]. rewrite <- Hlen.
    rewrite <- (length_map (fun s => (CTester.rmsIterations s
                                    / CTester.avgIterations s)%float)).
    apply fsum_ones; [|rewrite length_map; lia].
    apply Forall_map. eapply Forall_impl; [exact Hfail|].
    intros fs (_ & -> & ->). reflexivity.
  - apply mean_one; [exact HF|]. rewrite <- Hlen.
    rewrite <- (length_map CTester.rejectRate).
    apply fsum_ones; [|rewrite length_map; lia].
    apply Forall_map.
    pose proof (run_stats_Forall env T
                  (fun fs => CTester.rejectRate fs
                             = (double_of_int (CTester.rejectCount fs)
                                / double_of_int (CTester.IterCount T))%float)
                  fuel r clk out) as Hrate.
    destruct Hrate as [Hrate _]; [|exact Hrun|].
    { intros k a f o m l _ _ _ _ _ _. reflexivity. }
    apply Forall_forall. intros fs Hin.
    rewrite Forall_forall in Hrate, Hfail.
    rewrite (Hrate fs Hin). destruct (Hfail fs Hin) as (-> & _).
    apply ratio_endpoints; [lia|exact HK|reflexivity].
Qed.

End NothingConverges.

Lemma total_failure_ratios_witness :
  let T := Fixtures.configure 2 [Some Fixtures.plateau; Some Fixtures.plateau; None]
             (-1)%float 2 3 true false in
  exists out,
    CTester.run Fixtures.env0 T 3 0%nat 0 = Done out
    /\ CTester.ItRtAvg (CTester.o_tester out) = 1%float
    /\ CTester.RjAvg (CTester.o_tester out) = 1%float.
Proof.
  intros T. eexists.
  assert (Hrun : CTester.run Fixtures.env0 T 3 0%nat 0 = Done _)
    by (vm_compute; reflexivity).
  split; [exact Hrun|].
  apply (total_failure_ratios Fixtures.env0 T 3 0%nat 0%nat _);
    [cbn; lia|cbn; lia|exact Hrun|].
  cbn [CTester.o_calls]. repeat constructor.
Defined.

(** ** The RMS of the iterations *)

(** The loop of lines 268-275 visits the entries in order and skips the
    negative ones. *)
Lemma for_loop_rms (Avg : double) (Its : list Z) (n : nat) :
  forall (i : nat) (acc : double),
  (i + n <= length Its)%nat ->
  for_loop n (Z.of_nat i)
    (fun j RMS =>
       if 0 <=? Its !!! Z.to_nat j then
         let v := (double_of_int (Its !!! Z.to_nat j) - Avg)%float in
         (RMS + v * v)%float
       else RMS) acc
  = foldl (fun acc it =>
             (acc + (double_of_int it - Avg) * (double_of_int it - Avg))%float)
      acc (filter (fun x => 0 <= x) (take n (drop i Its))).
Proof.
  induction n as [|n IH]; intros i acc Hlen; [reflexivity|].
  cbn [for_loop].
  destruct (lookup_lt_is_Some_2 Its i ltac:(lia)) as [x Hx].
  rewrite (drop_S _ _ _ Hx). cbn [take].
  rewrite Nat2Z.id, (list_lookup_total_correct _ _ _ Hx).
  replace (Z.of_nat i + 1) with (Z.of_nat (S i)) by lia.
  rewrite IH by lia.
  destruct (Z.leb_spec 0 x) as [H0|H0].
  - rewrite filter_cons_True by exact H0. reflexivity.
  - rewrite filter_cons_False by lia. reflexivity.
Qed.

Lemma nonnegative_successes (its : list Z) :
  Forall (fun x => x = -1 \/ 1 <= x) its ->
  filter (fun x => 0 <= x) its = successes its.
Proof.
  unfold successes. induction 1 as [|x its [->|Hx] _ IH]; [reflexivity| |].
  - rewrite !filter_cons_False by lia. exact IH.
  - rewrite !filter_cons_True by lia. rewrite IH. reflexivity.
Qed.

Section RMS.
Context `{Opt : CBEOOptimizerFan}.
Variable env : Env.
Variable T : CTester.t.

(** X13. For a function with at least one successful trial, the reported RMS
    is the square root of the mean squared deviation of the iteration counts
    of the successful trials from the reported average: the squares are added
    to [0.0] in trial order, rejected trials are left out of the sum, and the
    sum is divided by the number of successes. *)
Theorem rms_over_successes (fuel : nat) (r : RndState) (clk : nat)
  (out : CTester.Outcome) :
  CTester.run env T fuel r clk = Done out ->
  Forall (fun fs =>
            let succ := successes (CTester.iterations fs) in
            CTester.rejectCount fs < CTester.IterCount T ->
            CTester.rmsIterations fs
            = PrimFloat.sqrt
                (sq_dev_sum (CTester.avgIterations fs) succ
                 / double_of_int (Z.of_nat (length succ))))
    (CTester.o_stats out).
Proof.
  intros Hrun.
  apply (run_stats_Forall env T
           (fun fs =>
              let succ := successes (CTester.iterations fs) in
              CTester.rejectCount fs < CTester.IterCount T ->
              CTester.rmsIterations fs
              = PrimFloat.sqrt
                  (sq_dev_sum (CTester.avgIterations fs) succ
                   / double_of_int (Z.of_nat (length succ))))
           fuel r clk out); [|exact Hrun].
  intros k a f o m l _ _ _ _ _ (Hlen & Hall & Hrej & _ & _).
  unfold stats_of.
  cbn [CTester.iterations CTester.rmsIterations CTester.avgIterations
       CTester.rejectCount].
  intros Hlt.
  destruct (Z.leb_spec (CTester.IterCount T) (CTester.Rej l)) as [Hle|_]; [lia|].
  set (its := take (Z.to_nat (CTester.IterCount T)) (CTester.Iters l)) in *.
  assert (Hall' : Forall (fun x => x = -1 \/ 1 <= x) its).
  { eapply Forall_impl; [exact Hall|].
    intros x [->|[H1 _]]; [left; reflexivity|right; exact H1]. }
  assert (Hlits : length its = Z.to_nat (CTester.IterCount T)).
  { unfold its. rewrite length_take. lia. }
  pose proof (successes_complement its Hall') as Hcount.
  fold (rejects its) in Hrej.
  replace (Z.of_nat (length (successes its)))
    with (CTester.IterCount T - CTester.Rej l) by lia.
  do 2 f_equal.
  unfold CTester.rms_sum, for_lt, sq_dev_sum.
  rewrite (for_loop_rms _ (CTester.Iters l) (Z.to_nat (CTester.IterCount T)) 0)
    by lia.
  rewrite drop_0. fold its. rewrite (nonnegative_successes its Hall').
  reflexivity.
Qed.

End RMS.

Lemma rms_over_successes_witness :
  let T := Fixtures.configure 2 [Some Fixtures.sphere1; Some Fixtures.plateau; None]
             0.5%float 3 20 true false in
  exists out,
    CTester.run Fixtures.env0 T 20 0%nat 0 = Done out
    /\ Forall (fun fs =>
                 CTester.rejectCount fs < CTester.IterCount T ->
                 CTester.rmsIterations fs
                 = PrimFloat.sqrt
                     (sq_dev_sum (CTester.avgIterations fs)
                        (successes (CTester.iterations fs))
                      / double_of_int
                          (Z.of_nat (length (successes (CTester.iterations fs))))))
         (CTester.o_stats out).
Proof.
  intros T. eexists.
  assert (Hrun : CTester.run Fixtures.env0 T 20 0%nat 0 = Done _)
    by (vm_compute; reflexivity).
  split; [exact Hrun|].
  exact (rms_over_successes Fixtures.env0 T 20 0%nat 0%nat _ Hrun).
Defined.

(** ** The signs the objective applies *)

Section SignVectors.
Context `{Opt : CBEOOptimizerFan}.
Variable env : Env.
Variable T : CTester.t.

Lemma sign_vector_draws (n : nat) (r : RndState) :
  sign_vector (map sign_of_draw (draws n r).1).
Proof.
  unfold sign_vector. apply Forall_map, Forall_forall. intros x _.
  unfold sign_of_draw. destruct (x <? 0.5)%float; [left|right]; reflexivity.
Qed.

Lemma trials_signed (fuel : nat) (f : CTestFn.t) (m m' : CTester.Mach)
  (l l' : CTester.Locals) :
  CTestOpt.fn (CTester.m_opt m) = f ->
  length (CTestOpt.signs (CTester.m_opt m)) = Z.to_nat (resolve_dims T f) ->
  (CTester.DoRandomize T = false -> sign_vector (CTestOpt.signs (CTester.m_opt m))) ->
  Forall (signed_call T) (CTester.m_calls m) ->
  for_ltM (CTester.IterCount T) (CTester.trial env T fuel (resolve_dims T f)) (m, l)
    = Done (m', l') ->
  Forall (signed_call T) (CTester.m_calls m').
Proof.
  intros Hfn Hlen Hunit Hcalls Hrun. unfold for_ltM in Hrun.
  apply (for_loopM_inv
           (fun _ ml =>
              CTestOpt.fn (CTester.m_opt ml.1) = f
              /\ length (CTestOpt.signs (CTester.m_opt ml.1))
                 = Z.to_nat (resolve_dims T f)
              /\ (CTester.DoRandomize T = false ->
                  sign_vector (CTestOpt.signs (CTester.m_opt ml.1)))
              /\ Forall (signed_call T) (CTester.m_calls ml.1)))
    in Hrun.
  - apply Hrun.
  - cbn [fst]. auto.
  - intros j [m1 l1] [m2 l2] _ (Hf1 & Hl1 & Hu1 & Hc1) Hstep. cbn [fst] in *.
    apply trial_calls in Hstep as (costs & Hc2 & Hs2 & Hf2); [|exact Hl1].
    assert (Hs : length (trial_signs T (resolve_dims T f) m1)
                 = Z.to_nat (resolve_dims T f)
                 /\ sign_vector (trial_signs T (resolve_dims T f) m1)).
    { unfold trial_signs. destruct (CTester.DoRandomize T) eqn:HR.
      - split; [rewrite length_map; apply length_draws|apply sign_vector_draws].
      - split; [exact Hl1|exact (Hu1 eq_refl)]. }
    destruct Hs as [Hsl Hsv].
    split; [congruence|]. split; [rewrite Hs2; exact Hsl|].
    split; [intros _; rewrite Hs2; exact Hsv|].
    rewrite Hc2. apply Forall_app. split; [exact Hc1|].
    constructor; [exact Hsv|].
    apply Forall_map, Forall_forall. intros b _. cbn [signed_call].
    rewrite Hf1. split; [exact Hsl|exact Hsv].
Qed.

(** X14. In a run that completes, every call of the optimizer's [init] and
    [optimize] was made while the sign buffer held only [1.0] and [-1.0] -
    never the indeterminate contents [updateDims] leaves in it - and during
    every step the buffer had exactly one entry per resolved dimension of the
    function being solved. *)
Theorem signs_always_set (fuel : nat) (r : RndState) (clk : nat)
  (out : CTester.Outcome) :
  CTester.run env T fuel r clk = Done out ->
  Forall (signed_call T) (CTester.o_calls out).
Proof.
  intros Hrun. apply run_done in Hrun as (HK & a & Hloop & ->).
  cbn [finish CTester.o_calls]. unfold for_ltM in Hloop.
  apply (for_loopM_inv
           (fun _ a => Forall (signed_call T) (CTester.m_calls (CTester.a_mach a))))
    in Hloop; [exact Hloop|constructor|].
  intros k a1 a2 _ Hinv Hstep.
  apply run_fn_done in Hstep as (f & o & [m l] & _ & Hu & Hl & ->).
  apply updateDims_done in Hu as (HD & ->).
  cbn [fn_exit CTester.a_mach fst].
  unfold fn_entry in Hl.
  apply (trials_signed fuel f) in Hl; [exact Hl|..]; cbn [CTester.m_opt CTester.m_calls].
  - destruct (CTester.DoRandomize T); reflexivity.
  - destruct (CTester.DoRandomize T); cbn [negb];
      [|rewrite unit_signs_spec by apply length_replicate];
      cbn [CTestOpt.set_DoRandomize CTestOpt.set_signs CTestOpt.signs];
      apply length_replicate.
  - intros ->. cbn [negb]. rewrite unit_signs_spec by apply length_replicate.
    cbn [CTestOpt.set_signs CTestOpt.signs]. unfold sign_vector.
    apply Forall_replicate. left. reflexivity.
  - apply Forall_app. split; [exact Hinv|]. constructor; [exact I|constructor].
Qed.

End SignVectors.

Lemma signs_always_set_witness :
  let T := Fixtures.configure 2 [Some Fixtures.sphere1; Some Fixtures.plateau; None]
             0.5%float 3 20 true false in
  exists out,
    CTester.run Fixtures.env0 T 20 0%nat 0 = Done out
    /\ Forall (signed_call T) (CTester.o_calls out).
Proof.
  intros T. eexists.
  assert (Hrun : CTester.run Fixtures.env0 T 20 0%nat 0 = Done _)
    by (vm_compute; reflexivity).
  split; [exact Hrun|].
  exact (signs_always_set Fixtures.env0 T 20 0%nat 0%nat _ Hrun).
Defined.

(** ** Bounds that are not numbers in [minimize_func] *)

Lemma is_nan_Prim2SF (x : float) : PrimFloat.is_nan x = true -> Prim2SF x = S754_nan.
Proof.
  unfold PrimFloat.is_nan. rewrite FloatAxioms.eqb_spec.
  destruct (Prim2SF x) as [s|s| |s m e]; unfold SFeqb, SFcompare;
    try (destruct s; discriminate); [reflexivity|].
  rewrite Z.compare_refl, Pos.compare_cont_refl. destruct s; discriminate.
Qed.

Lemma ltb_nan (x y : float) :
  PrimFloat.is_nan x = true \/ PrimFloat.is_nan y = true -> (x <? y)%float = false.
Proof.
  rewrite FloatAxioms.ltb_spec. unfold SFltb.
  intros [Hx|Hy].
  - rewrite (is_nan_Prim2SF x Hx). reflexivity.
  - rewrite (is_nan_Prim2SF y Hy). destruct (Prim2SF x); reflexivity.
Qed.

Section NanBounds.
Context `{Py : PyExt.PyAPI} `{BO : PyExt.BiteOpt}.

(** X15. A bound that is not a number passes the validation: the test
    [lower[i] > upper[i]] is false whenever either side is NaN, so for lists of
    equal length in which every pair is in order or has a NaN, the optimizer
    is called, with the bounds as read. *)
Theorem minimize_accepts_nan_bounds (a : PyExt.Args) (ls us : list PyExt.PyObj)
  (lower upper : list double) :
  PyExt.py_iter (PyExt.lower_py a) = Some ls ->
  PyExt.read_doubles ls [] = Some lower ->
  PyExt.py_iter (PyExt.upper_py a) = Some us ->
  PyExt.read_doubles us [] = Some upper ->
  length lower = length upper ->
  (forall i l u, lower !! i = Some l -> upper !! i = Some u ->
     PrimFloat.is_nan l = true \/ PrimFloat.is_nan u = true
     \/ (l <=? u)%float = true) ->
  exists call,
    PyExt.optimizer_calls (PyExt.minimize_func (Some a)) = [call]
    /\ PyExt.c_lb call = lower /\ PyExt.c_ub call = upper.
Proof.
  intros Hls Hlower Hus Hupper Hlen Hall.
  rewrite (minimize_func_read a ls us lower upper Hls Hlower Hus Hupper).
  rewrite Hlen, Nat.eqb_refl. cbn [negb].
  destruct (PyExt.bounds_crossed (length upper) 0 lower upper) eqn:Hcross.
  - exfalso. apply bounds_crossed_true in Hcross as (k & Hk & Hlt).
    destruct (lookup_lt_is_Some_2 lower k ltac:(lia)) as [l Hl].
    destruct (lookup_lt_is_Some_2 upper k ltac:(lia)) as [u Hu].
    rewrite (list_lookup_total_correct _ _ _ Hl),
      (list_lookup_total_correct _ _ _ Hu) in Hlt.
    destruct (Hall k l u Hl Hu) as [Hn|[Hn|Hle]].
    + rewrite ltb_nan in Hlt by (right; exact Hn). discriminate Hlt.
    + rewrite ltb_nan in Hlt by (left; exact Hn). discriminate Hlt.
    + rewrite (leb_not_gt _ _ Hle) in Hlt. discriminate Hlt.
  - eexists. split; [reflexivity|]. split; reflexivity.
Qed.

End NanBounds.

Lemma minimize_accepts_nan_bounds_witness :
  let a := Fixtures.py_args [nan; 2]%float [1; nan]%float in
  exists call,
    PyExt.optimizer_calls
      (@PyExt.minimize_func Fixtures.py_values Fixtures.lower_corner (Some a)) = [call]
    /\ PyExt.c_lb call = [nan; 2]%float /\ PyExt.c_ub call = [1; nan]%float.
Proof.
  intros a.
  apply (@minimize_accepts_nan_bounds Fixtures.py_values Fixtures.lower_corner a
           (map Fixtures.PyFloat [nan; 2]%float) (map Fixtures.PyFloat [1; nan]%float)
           [nan; 2]%float [1; nan]%float);
    try reflexivity.
  intros i l u Hl Hu.
  destruct i as [|[|i]]; cbn in Hl, Hu; try discriminate Hl.
  - injection Hl as <-. left. reflexivity.
  - injection Hu as <-. right. left. reflexivity.
Defined.

(** ** The scratch buffer of [optcost] *)

Section Scratch.
Context `{Opt : CBEOOptimizerFan}.

(** X17. An evaluation of the objective leaves nothing behind for the next
    one: [optcost] overwrites all [Dims] entries of the scratch buffer before
    the cost function reads it, so its value does not depend on what the
    buffer held, nor on entries of the point past the first [Dims]. *)
Theorem optcost_ignores_scratch (o : CTestOpt.t) (tp' p p' : list double) :
  length (CTestOpt.tp o) = Z.to_nat (CTestOpt.Dims o) ->
  length tp' = Z.to_nat (CTestOpt.Dims o) ->
  take (Z.to_nat (CTestOpt.Dims o)) p = take (Z.to_nat (CTestOpt.Dims o)) p' ->
  CTestOpt.optcost
    (CTestOpt.mk (CTestOpt.fn o) (CTestOpt.DoRandomize o) (CTestOpt.Dims o)
       (CTestOpt.signs o) tp' (CTestOpt.base o)) p'
  = CTestOpt.optcost o p.
Proof.
  intros Hlen Hlen' Htake. unfold CTestOpt.optcost.
  rewrite (optcost_tp_full o p Hlen).
  rewrite optcost_tp_full by exact Hlen'.
  cbn [CTestOpt.fn CTestOpt.Dims CTestOpt.signs].
  assert (E : map (fun k => (p' !!! k * CTestOpt.signs o !!! k)%float)
                (seq 0 (Z.to_nat (CTestOpt.Dims o)))
              = map (fun k => (p !!! k * CTestOpt.signs o !!! k)%float)
                  (seq 0 (Z.to_nat (CTestOpt.Dims o)))).
  { apply map_ext_in. intros k Hk. apply in_seq in Hk.
    rewrite <- (lookup_total_take_lt p (Z.to_nat (CTestOpt.Dims o)) k) by lia.
    rewrite <- (lookup_total_take_lt p' (Z.to_nat (CTestOpt.Dims o)) k) by lia.
    rewrite Htake. reflexivity. }
  rewrite E. reflexivity.
Qed.

End Scratch.

Lemma optcost_ignores_scratch_witness :
  let o := CTestOpt.mk Fixtures.sphere1 false 1 [-1]%float [7]%float
             (CTestOpt.base Fixtures.opt0) in
  CTestOpt.optcost
    (CTestOpt.mk Fixtures.sphere1 false 1 [-1]%float [0]%float
       (CTestOpt.base Fixtures.opt0)) [3; 8]%float
  = CTestOpt.optcost o [3]%float.
Proof.
  intros o.
  exact (optcost_ignores_scratch o [0]%float [3]%float [3; 8]%float
           eq_refl eq_refl eq_refl).
Defined.

(** ** Printing does not change what is computed *)

Section PrintFlag.
Context `{Opt : CBEOOptimizerFan}.
Variable env : Env.
Variable T : CTester.t.
Variable b : bool.

Lemma run_fn_print (fuel : nat) (k : Z) (a1 a2 : CTester.Acc) :
  same_but_stdout a1 a2 ->
  rel_res same_but_stdout
    (CTester.run_fn env (with_DoPrint T b) fuel k a1)
    (CTester.run_fn env T fuel k a2).
Proof.
  intros (Hm & Hi & H1 & H2 & H3 & Hs). rewrite !run_fn_unfold.
  change (CTester.Funcs (with_DoPrint T b)) with (CTester.Funcs T).
  destruct (CTester.Funcs T !! Z.to_nat k) as [[f|]|]; [|reflexivity..].
  change (resolve_dims (with_DoPrint T b) f) with (resolve_dims T f).
  rewrite Hm.
  destruct (CTestOpt.updateDims env (resolve_dims T f) 0 _) as [o|e|];
    cbn [mbind res_bind rel_res]; [|reflexivity|exact I].
  assert (E : fn_entry (with_DoPrint T b) a1 f o = fn_entry T a2 f o).
  { unfold fn_entry.
    change (CTester.DoRandomize (with_DoPrint T b)) with (CTester.DoRandomize T).
    change (resolve_dims (with_DoPrint T b) f) with (resolve_dims T f).
    rewrite Hm, Hi. reflexivity. }
  rewrite E.
  change (for_ltM (CTester.IterCount (with_DoPrint T b))
            (CTester.trial env (with_DoPrint T b) fuel (resolve_dims T f))
            (fn_entry T a2 f o))
    with (for_ltM (CTester.IterCount T)
            (CTester.trial env T fuel (resolve_dims T f)) (fn_entry T a2 f o)).
  destruct (for_ltM _ _ _) as [ml|e|]; cbn [mbind res_bind rel_res];
    [|reflexivity|exact I].
  unfold same_but_stdout, fn_exit.
  cbn [CTester.a_mach CTester.a_Iters CTester.a_ItAvg CTester.a_ItRtAvg
       CTester.a_RjAvg CTester.a_stats].
  change (stats_of (with_DoPrint T b) ml.2) with (stats_of T ml.2).
  rewrite H1, H2, H3, Hs. repeat split; reflexivity.
Qed.

(** X18. The printing flag has no influence on what [run] computes: with the
    flag set either way, the run ends in the same way - it completes, raises
    the same exception or does not return - and when it completes it leaves
    the same statistics for every function, the same aggregates and tick
    total, the same optimizer object and generator state, after the same
    calls and the same number of readings of the counter. *)
Theorem printing_changes_only_stdout (fuel : nat) (r : RndState) (clk : nat) :
  rel_res same_results
    (CTester.run env (with_DoPrint T b) fuel r clk)
    (CTester.run env T fuel r clk).
Proof.
  rewrite !run_unfold.
  change (CTester.IterCount (with_DoPrint T b)) with (CTester.IterCount T).
  destruct (new_array (CTester.IterCount T) (indet_int env)) as [Iters0|e|];
    cbn [mbind res_bind rel_res]; [|reflexivity|exact I].
  apply (rel_res_bind same_but_stdout).
  - unfold for_ltM.
    change (CTester.FnCount (with_DoPrint T b)) with (CTester.FnCount T).
    apply (for_loopM_rel (fun _ => same_but_stdout)).
    + unfold same_but_stdout. repeat split; reflexivity.
    + intros k a1 a2 _ Ha. apply run_fn_print. exact Ha.
  - intros a1 a2 (Hm & Hi & H1 & H2 & H3 & Hs).
    cbn [rel_res]. unfold same_results, same_statistics, finish.
    cbn [CTester.o_stats CTester.o_tester CTester.o_rnd CTester.o_calls
         CTester.o_clk CTester.ItAvg CTester.ItRtAvg CTester.RjAvg CTester.tc
         CTester.opt].
    change (CTester.FnCount (with_DoPrint T b)) with (CTester.FnCount T).
    rewrite Hm, H1, H2, H3, Hs. repeat split; reflexivity.
Qed.

End PrintFlag.
